(** * MiniWallet: a file-driven wallet daemon

    Shallow embedding of [src/MiniWallet/MiniWallet.cpp] and the properties
    of its request parsing, wallet opening, transfer, save and polling-loop
    code.

    The wallet engine ([IWalletLegacy]), the node proxy, the currency rules
    and the legacy key importer are collaborators of the daemon: they appear
    here as interfaces whose answers are arbitrary, and every theorem
    quantifies over them.  The filesystem is a finite map from path to file
    content.  Effects (filesystem, engine calls, exceptions) are threaded
    through one state-and-exception monad, [M]. *)

From Stdlib Require Import ZArith String Ascii List Lia.
From stdpp Require Import base gmap strings list.
From Equations Require Import Equations.

Local Open Scope string_scope.
Local Open Scope list_scope.
Local Open Scope Z_scope.

(** ** std::string operations used by the daemon *)

Module Str.

(** [s.compare(0, d.size(), d) == 0] *)
Fixpoint starts_with (d s : string) : bool :=
  match d, s with
  | EmptyString, _ => true
  | String a d', String b s' => Ascii.eqb a b && starts_with d' s'
  | String _ _, EmptyString => false
  end.

(** [s.find(d)]; [None] is [std::string::npos]. *)
Fixpoint find (s d : string) : option nat :=
  if starts_with d s then Some 0%nat
  else match s with
       | EmptyString => None
       | String _ s' => option_map S (find s' d)
       end.

(** [s.substr(0, n)] *)
Fixpoint substr0 (n : nat) (s : string) : string :=
  match n, s with
  | O, _ => EmptyString
  | S _, EmptyString => EmptyString
  | S n', String c s' => String c (substr0 n' s')
  end.

(** [s.erase(0, n)] *)
Fixpoint erase0 (n : nat) (s : string) : string :=
  match n, s with
  | O, _ => s
  | S _, EmptyString => EmptyString
  | S n', String _ s' => erase0 n' s'
  end.

Fixpoint all (p : ascii -> bool) (s : string) : bool :=
  match s with
  | EmptyString => true
  | String c s' => p c && all p s'
  end.

(** [std::isspace] in the "C" locale: space and the controls 9 to 13. *)
Definition isspace (c : ascii) : bool :=
  let n := N_of_ascii c in
  (n =? 32)%N || ((9 <=? n)%N && (n <=? 13)%N).

Definition is_empty (s : string) : bool :=
  match s with EmptyString => true | String _ _ => false end.

(** [arg.size() && arg[0] == '-'] *)
Definition is_option (arg : string) : bool :=
  match arg with
  | String c _ => Ascii.eqb c "-"
  | EmptyString => false
  end.

(** The line terminator. *)
Definition newline : string := String (ascii_of_nat 10) EmptyString.

End Str.

(** Equality with a proof, for matching on a computed value. *)
Definition inspect {A : Type} (a : A) : {b : A | a = b} := exist _ a eq_refl.

(** ** The transaction loop's request parser ([tx_helper], lines 939-997) *)

(** [while (!file.eof()) file >> content;] leaves in [content] the last
    whitespace-delimited word of the file ([""] when there is none): each
    extraction skips leading whitespace and then overwrites [content] with
    the next word; the extraction that meets the end of the file while
    skipping leaves [content] as it was.  [cur] is the word being read. *)
Fixpoint extract_words (file cur content : string) : string :=
  match file with
  | EmptyString => if Str.is_empty cur then content else cur
  | String c rest =>
      if Str.isspace c
      then extract_words rest "" (if Str.is_empty cur then content else cur)
      else extract_words rest (cur +:+ String c "") content
  end.

Definition read_content (file : string) : string := extract_words file "" "".

(** The [switch (idx)] of the parser: what one token adds to [args]. *)
Definition push_token (idx : Z) (token : string) (args : list string) : list string :=
  match idx with
  | 0 => args ++ [token]                                       (* mixin *)
  | 1 => args ++ [token]                                       (* address *)
  | 2 => args ++ [token]                                       (* amount *)
  | 3 => if Str.is_empty token then args else args ++ ["-p"; token]  (* paymentId *)
  | 4 => if Str.is_empty token then args else args ++ ["-f"; token]  (* fee *)
  | _ => args
  end.

(** The [while ((pos = content.find(delimiter)) != npos)] loop.  [idx] is a
    [uint8_t], so [idx++] wraps at 256.  The loop ends when no delimiter is
    left; what remains in [content] then is not looked at again.  Each turn
    erases at least the delimiter, which is why the loop ends. *)
Equations? split_fields (content : string) (idx : Z) (args : list string)
  : list string by wf (String.length content) lt :=
split_fields content idx args with inspect (Str.find content "|") := {
  | exist _ (Some pos) _ =>
      split_fields (Str.erase0 (pos + 1) content) ((idx + 1) mod 256)
                   (push_token idx (Str.substr0 pos content) args);
  | exist _ None _ => args }.
Proof.
  assert (Hlen : forall n s,
             String.length (Str.erase0 n s) = (String.length s - n)%nat).
  { induction n; intros [|c s]; simpl; auto. }
  assert (Hpos : forall s p, Str.find s "|" = Some p -> (p < String.length s)%nat).
  { induction s as [|c s IH]; intros p; [discriminate|].
    change (Str.find (String c s) "|")
      with (if Str.starts_with "|" (String c s) then Some 0%nat
            else option_map S (Str.find s "|")).
    destruct (Str.starts_with "|" (String c s)).
    - intros [= <-]. simpl. lia.
    - destruct (Str.find s "|") eqn:E; simpl; [|discriminate].
      intros [= <-]. specialize (IH _ eq_refl). lia. }
  rewrite Hlen.
  match goal with H : _ = Some _ |- _ => apply Hpos in H end. lia.
Qed.

(** The argument list [tx_helper] hands to [transferWrapper] for a request
    file with the given content. *)
Definition request_args (file : string) : list string :=
  split_fields (read_content file) 0 [].

(** ** Values exchanged with the collaborators *)

(** [std::error_code]: [if (ec)] tests the value against zero. *)
Record error_code := { ec_value : Z; ec_message : string }.

Definition is_error (e : error_code) : bool := negb (ec_value e =? 0).

(** [make_error_code(std::errc::invalid_argument)] *)
Definition invalid_argument : error_code :=
  {| ec_value := 22; ec_message := "Invalid argument" |}.

(** What a [catch] clause can tell apart: exceptions derived from
    [std::exception], with their [what()], and everything else, which only
    [catch (...)] stops. *)
Inductive exn :=
| StdException (what : string)
| OtherException.

Inductive outcome (A : Type) :=
| Returned (a : A)
| Thrown (e : exn).
Arguments Returned {A} a.
Arguments Thrown {A} e.

Record WalletLegacyTransfer := { address : string; amount : Z }.

Record WalletLegacyTransaction := { hash : string; totalAmount : Z; blockHeight : Z }.

(** [TransferCommand]'s fields (lines 125-134). *)
Record TransferCommand := {
  fake_outs_count : Z;
  dsts : list WalletLegacyTransfer;
  extra : string;
  fee : Z }.

(** [CryptoNote::Currency], as far as the daemon consults it. *)
Record Currency := {
  minimumFee : Z;
  parseAmount : string -> option Z;
  formatAmount : Z -> string;
  parseAccountAddressString : string -> bool }.

(** Free functions of the surrounding code base that the daemon calls:
    [WalletHelper::prepareFileNames] (keys file, wallet file),
    [Common::fromString<size_t>], [createTxExtraWithPaymentId],
    [parsePaymentId], [Common::podToHex], [importLegacyKeys] (from the key
    file's content and the password to a wallet stream) and the constant
    [WALLET_LEGACY_INVALID_TRANSACTION_ID]. *)
Record Helpers := {
  prepareFileNames : string -> string * string;
  fromString_size_t : string -> option Z;
  createTxExtraWithPaymentId : string -> string -> option string;
  parsePaymentId : string -> bool;
  podToHex : string -> string;
  importLegacyKeys : string -> string -> outcome string;
  WALLET_LEGACY_INVALID_TRANSACTION_ID : Z }.

(** The wallet engine and the node proxy.  [Engine] is their hidden state;
    every call may change it.  A call that completes through an observer
    ([initCompleted], [saveCompleted], [sendTransactionCompleted], the node's
    init callback) is joined with the wait for that completion, so its
    answer is the [error_code] the completion delivers, or the exception the
    call throws.  [save] also yields the bytes it wrote to the destination
    stream before it finished. *)
Record IWalletLegacy (Engine : Type) := {
  initAndLoad : string -> string -> Engine -> outcome error_code * Engine;
  initAndGenerate : string -> Engine -> outcome error_code * Engine;
  save : bool -> bool -> Engine -> (string * outcome error_code) * Engine;
  shutdown : Engine -> outcome unit * Engine;
  sendTransaction :
    list WalletLegacyTransfer -> Z -> string -> Z -> Z -> Engine -> outcome Z * Engine;
  sendTransactionCompleted : Z -> Engine -> outcome error_code * Engine;
  getTransaction : Z -> Engine -> WalletLegacyTransaction;
  getAddress : Engine -> string;
  actualBalance : Engine -> outcome Z;
  pendingBalance : Engine -> outcome Z;
  node_init : Engine -> error_code * Engine }.
Arguments initAndLoad {Engine}.
Arguments initAndGenerate {Engine}.
Arguments save {Engine}.
Arguments shutdown {Engine}.
Arguments sendTransaction {Engine}.
Arguments sendTransactionCompleted {Engine}.
Arguments getTransaction {Engine}.
Arguments getAddress {Engine}.
Arguments actualBalance {Engine}.
Arguments pendingBalance {Engine}.
Arguments node_init {Engine}.

(** What the daemon does to the world outside, in order. *)
Inductive event :=
| FsRename (src dst : string)
| FsRemove (path : string)
| FsTruncate (path : string)
| FsWrite (path data : string)
| ImportLegacyKeys (keys_file : string)
| WalletInitAndLoad (stream password : string)
| WalletInitAndGenerate (password : string)
| WalletSave (saveDetailed saveCache : bool)
| WalletShutdown
| WalletSendTransaction (dsts : list WalletLegacyTransfer) (fee : Z)
                        (extra : string) (mixin unlockTimestamp : Z)
| NodeInit
| Sleep (seconds : Z).

(** The fields of [mini_wallet] that the modelled members read or write. *)
Record mini_wallet := {
  m_wallet_file_arg : string;
  m_generate_new : string;
  m_wallet_file_gui : string;
  m_wallet_file : string;
  m_pwd_arg : string;
  m_daemon_address : string;
  m_daemon_host : string;
  m_daemon_port : Z;
  m_walletSynchronized : bool }.

(** An [std::ofstream] after [open]: the path, and whether the stream is
    good.  Output to a stream that failed to open is dropped. *)
Record ofstream := { of_path : string; of_good : bool }.

(** ** The world, and the monad of the daemon's code *)

Section Daemon.

Context {Engine : Type}.
Variable m_currency : Currency.
Variable lib : Helpers.
Variable m_wallet : IWalletLegacy Engine.

(** [w_fs] maps each existing path to its content.  [w_unwritable] holds
    the paths at which an output stream cannot be opened (no permission, a
    directory in the way, no descriptor or inode left).  [w_random] feeds
    [unique_path].  [w_this] is the [mini_wallet] object. *)
Record World := {
  w_fs : gmap string string;
  w_unwritable : gset string;
  w_random : list ascii;
  w_engine : Engine;
  w_this : mini_wallet;
  w_events : list event }.

Definition M (A : Type) : Type := World -> outcome A * World.

Definition ret {A} (a : A) : M A := fun w => (Returned a, w).

Definition bind {A B} (m : M A) (k : A -> M B) : M B :=
  fun w => match m w with
           | (Returned a, w') => k a w'
           | (Thrown e, w') => (Thrown e, w')
           end.

Definition throw {A} (e : exn) : M A := fun w => (Thrown e, w).

(** [try { m } catch (...) { h }] *)
Definition try_catch {A} (m : M A) (h : exn -> M A) : M A :=
  fun w => match m w with
           | (Returned a, w') => (Returned a, w')
           | (Thrown e, w') => h e w'
           end.

(** [try { m } catch (std::exception& e) { h }]: other exceptions pass. *)
Definition try_catch_std {A} (m : M A) (h : string -> M A) : M A :=
  try_catch m (fun e => match e with
                        | StdException what => h what
                        | OtherException => throw OtherException
                        end).

Definition runtime_error {A} (what : string) : M A := throw (StdException what).

(** [throw std::system_error(ec)] *)
Definition system_error {A} (ec : error_code) : M A :=
  throw (StdException (ec_message ec)).

Notation "x <- m ;; k" := (bind m (fun x => k))
  (at level 100, m at next level, right associativity, only parsing).
Notation "m ;;; k" := (bind m (fun _ => k))
  (at level 100, right associativity, only parsing).

Definition with_fs (f : gmap string string) (w : World) : World :=
  {| w_fs := f; w_unwritable := w_unwritable w; w_random := w_random w;
     w_engine := w_engine w; w_this := w_this w; w_events := w_events w |}.

Definition with_random (r : list ascii) (w : World) : World :=
  {| w_fs := w_fs w; w_unwritable := w_unwritable w; w_random := r;
     w_engine := w_engine w; w_this := w_this w; w_events := w_events w |}.

Definition with_engine (e : Engine) (w : World) : World :=
  {| w_fs := w_fs w; w_unwritable := w_unwritable w; w_random := w_random w;
     w_engine := e; w_this := w_this w; w_events := w_events w |}.

Definition with_this (t : mini_wallet) (w : World) : World :=
  {| w_fs := w_fs w; w_unwritable := w_unwritable w; w_random := w_random w;
     w_engine := w_engine w; w_this := t; w_events := w_events w |}.

Definition emit (e : event) : M unit :=
  fun w => (Returned tt,
            {| w_fs := w_fs w; w_unwritable := w_unwritable w;
               w_random := w_random w; w_engine := w_engine w;
               w_this := w_this w; w_events := w_events w ++ [e] |}).

Definition this : M mini_wallet := fun w => (Returned (w_this w), w).

(** *** boost::filesystem and the file streams *)

(** [boost::filesystem::exists(p, ignore)] *)
Definition exists_ (p : string) : M bool :=
  fun w => (Returned (match w_fs w !! p with Some _ => true | None => false end), w).

(** [boost::filesystem::rename(src, dst)]: throws when [src] is missing,
    replaces [dst] when it exists. *)
Definition rename (src dst : string) : M unit :=
  fun w => match w_fs w !! src with
           | Some c => emit (FsRename src dst)
                            (with_fs (<[dst := c]> (delete src (w_fs w))) w)
           | None => (Thrown (StdException "boost::filesystem::rename: No such file or directory"), w)
           end.

(** [boost::filesystem::rename(src, dst, ec)]: the answer is [ec]. *)
Definition rename_ec (src dst : string) : M (option string) :=
  try_catch (rename src dst ;;; ret None)
            (fun _ => ret (Some "No such file or directory")).

(** [boost::filesystem::remove(p)]: tells whether there was a file. *)
Definition remove (p : string) : M bool :=
  fun w => match w_fs w !! p with
           | Some _ => (emit (FsRemove p) ;;; ret true) (with_fs (delete p (w_fs w)) w)
           | None => (Returned false, w)
           end.

(** [boost::filesystem::unique_path(model)]: every [%] of the model is
    replaced by a random hexadecimal digit. *)
Fixpoint fill_model (model : string) (digits : list ascii) : string * list ascii :=
  match model with
  | EmptyString => (EmptyString, digits)
  | String c rest =>
      if Ascii.eqb c "%"
      then let '(d, digits') := match digits with
                                | [] => ("0"%char, [])
                                | d :: ds => (d, ds)
                                end in
           let '(s, digits'') := fill_model rest digits' in
           (String d s, digits'')
      else let '(s, digits') := fill_model rest digits in
           (String c s, digits')
  end.

Definition unique_path (model : string) : M string :=
  fun w => let '(p, r) := fill_model model (w_random w) in
           (Returned p, with_random r w).

(** [file.open(p, binary | out | trunc)] *)
Definition ofstream_open (p : string) : M ofstream :=
  fun w => if bool_decide (p ∈ w_unwritable w)
           then (Returned {| of_path := p; of_good := false |}, w)
           else (emit (FsTruncate p) ;;; ret {| of_path := p; of_good := true |})
                  (with_fs (<[p := ""]> (w_fs w)) w).

(** [file << data] *)
Definition ofstream_write (file : ofstream) (data : string) : M unit :=
  fun w => if of_good file
           then match w_fs w !! of_path file with
                | Some old => emit (FsWrite (of_path file) data)
                                   (with_fs (<[of_path file := old +:+ data]> (w_fs w)) w)
                | None => (Returned tt, w)
                end
           else (Returned tt, w).

(** [file.open(p, binary | in)] and the whole content, when it opens. *)
Definition ifstream_open (p : string) : M (option string) :=
  fun w => (Returned (w_fs w !! p), w).

(** [boost::this_thread::sleep_for] (line 884) *)
Definition wait (seconds : Z) : M unit := emit (Sleep seconds).

(** *** Calls into the engine *)

Definition engine_call {A} (ev : event) (f : Engine -> outcome A * Engine) : M A :=
  emit ev ;;;
  (fun w => let '(r, e) := f (w_engine w) in (r, with_engine e w)).

Definition engine_read {A} (f : Engine -> A) : M A :=
  fun w => (Returned (f (w_engine w)), w).

(** ** TransferCommand::parseArguments (lines 136-213) *)

(** The function answers [false] after logging one line; the constructor
    says which line:
    - [BadMixin s]: "mixin_count should be non-negative integer, got s"
    - [BadPaymentId v]: "payment ID has invalid format: ..."
    - [BadFee v]: "Fee value is invalid: v"
    - [FeeBelowMinimum]: "Fee value is less than minimum: ..."
    - [PaymentIdAsAddress]: "Invalid payment ID usage. ..."
    - [WrongAddress a]: "Wrong address: a"
    - [WrongAmount a v]: "amount is wrong: a v, expected number from 0 to ..."
    - [NoDestination]: "At least one destination address is required"
    - [UnexpectedEnd]: the [ArgumentReader]'s "unexpected end of arguments",
      caught at line 207. *)
Inductive parse_error :=
| BadMixin (mixin_str : string)
| BadPaymentId (value : string)
| BadFee (value : string)
| FeeBelowMinimum
| PaymentIdAsAddress
| WrongAddress (arg : string)
| WrongAmount (arg value : string)
| NoDestination
| UnexpectedEnd.

(** [de.amount] is a [uint64_t]: what [parseAmount] wrote there. *)
Definition to_uint64 (a : Z) : Z := a mod 2 ^ 64.

(** [destination.amount = de.amount] (line 197): the field is an
    [int64_t], so an amount from 2^63 up is stored as a negative one. *)
Definition to_int64 (a : Z) : Z :=
  if a mod 2 ^ 64 <? 2 ^ 63 then a mod 2 ^ 64 else a mod 2 ^ 64 - 2 ^ 64.

(** [TransferCommand(currency)] *)
Definition TransferCommand_init : TransferCommand :=
  {| fake_outs_count := 0; dsts := []; extra := "";
     fee := minimumFee m_currency |}.

(** The [while (!ar.eof())] loop and the check after it. *)
Fixpoint parse_rest (args : list string) (cmd : TransferCommand)
  : parse_error + TransferCommand :=
  match args with
  | [] => match dsts cmd with
          | [] => inl NoDestination
          | _ :: _ => inr cmd
          end
  | arg :: rest =>
      if Str.is_option arg then
        match rest with
        | [] => inl UnexpectedEnd
        | value :: rest' =>
            if String.eqb arg "-p" then
              match createTxExtraWithPaymentId lib value (extra cmd) with
              | None => inl (BadPaymentId value)
              | Some extra' =>
                  parse_rest rest'
                    {| fake_outs_count := fake_outs_count cmd; dsts := dsts cmd;
                       extra := extra'; fee := fee cmd |}
              end
            else if String.eqb arg "-f" then
              match parseAmount m_currency value with
              | None => inl (BadFee value)
              | Some f =>
                  if f <? minimumFee m_currency then inl FeeBelowMinimum
                  else parse_rest rest'
                         {| fake_outs_count := fake_outs_count cmd; dsts := dsts cmd;
                            extra := extra cmd; fee := f |}
              end
            else parse_rest rest' cmd
        end
      else if negb (parseAccountAddressString m_currency arg) then
        inl (if parsePaymentId lib arg then PaymentIdAsAddress else WrongAddress arg)
      else
        match rest with
        | [] => inl UnexpectedEnd
        | value :: rest' =>
            match parseAmount m_currency value with
            | None => inl (WrongAmount arg value)
            | Some a =>
                if to_uint64 a =? 0 then inl (WrongAmount arg value)
                else parse_rest rest'
                       {| fake_outs_count := fake_outs_count cmd;
                          dsts := dsts cmd ++ [{| address := arg; amount := to_int64 a |}];
                          extra := extra cmd; fee := fee cmd |}
            end
        end
  end.

Definition parseArguments (args : list string) : parse_error + TransferCommand :=
  match args with
  | [] => inl UnexpectedEnd
  | mixin_str :: rest =>
      match fromString_size_t lib mixin_str with
      | None => inl (BadMixin mixin_str)
      | Some n =>
          parse_rest rest
            {| fake_outs_count := n; dsts := dsts TransferCommand_init;
               extra := extra TransferCommand_init; fee := fee TransferCommand_init |}
      end
  end.

(** ** Saving the wallet *)

(** [wallet.save(destination, saveDetailed, saveCache)] and the wait for
    [saveCompleted]: the engine's bytes go to [sink]. *)
Definition wallet_save (sink : string -> M unit) (saveDetailed saveCache : bool)
  : M error_code :=
  r <- engine_call (WalletSave saveDetailed saveCache)
         (fun e => let '(x, e') := save m_wallet saveDetailed saveCache e in
                   (Returned x, e')) ;;
  sink (fst r) ;;;
  match snd r with
  | Returned ec => ret ec
  | Thrown ex => throw ex
  end.

(** Modelled from the spec: [WalletHelper::storeWallet], which this file
    calls and does not define.  It is the spec's [persist()]: it runs the
    engine's save and waits for its completion; when the engine reports a
    failure it surfaces the error and leaves the wallet file on disk as it
    was; otherwise the wallet file holds what the engine saved. *)
Definition storeWallet (walletFilename : string) : M unit :=
  r <- engine_call (WalletSave true true)
         (fun e => let '(x, e') := save m_wallet true true e in (Returned x, e')) ;;
  match snd r with
  | Thrown ex => throw ex
  | Returned ec =>
      if is_error ec then system_error ec
      else fun w => emit (FsWrite walletFilename (fst r))
                         (with_fs (<[walletFilename := fst r]> (w_fs w)) w)
  end.

(** [mini_wallet::openOutputFileStream] (lines 817-823): a failure is
    answered with [false], not thrown. *)
Definition openOutputFileStream (filename : string) : M (bool * ofstream) :=
  file <- ofstream_open filename ;;
  if negb (of_good file) then ret (false, file) else ret (true, file).

(** [mini_wallet::walletSaveWrapper] (lines 825-842) *)
Definition walletSaveWrapper (file : ofstream) (saveDetailes saveCache : bool)
  : M error_code :=
  try_catch_std (wallet_save (ofstream_write file) saveDetailes saveCache)
                (fun _ => ret invalid_argument).

(** [mini_wallet::saveWrapper] (lines 844-882) *)
Definition saveWrapper (m_walletFilename : string) : M bool :=
  t <- this ;;
  if negb (m_walletSynchronized t) then ret false
  else
    let walletFilename := m_walletFilename +:+ ".wallet" in
    try_catch
      (tempFile <- unique_path (walletFilename +:+ ".tmp.%%%%-%%%%") ;;
       present <- exists_ walletFilename ;;
       (if present then rename walletFilename tempFile else ret tt) ;;;
       opened <- try_catch_std (openOutputFileStream walletFilename)
                   (fun what =>
                      kept <- exists_ tempFile ;;
                      (if kept then rename tempFile walletFilename else ret tt) ;;;
                      runtime_error what) ;;
       saveError <- walletSaveWrapper (snd opened) true true ;;
       if is_error saveError then
         remove walletFilename ;;;
         rename tempFile walletFilename ;;;
         system_error saveError
       else
         remove tempFile ;;;
         ret true)
      (fun _ => ret false).

(** ** Opening a wallet *)

(** [initAndLoadWallet] (lines 235-244) *)
Definition initAndLoadWallet (walletFile password : string) : M error_code :=
  engine_call (WalletInitAndLoad walletFile password)
              (initAndLoad m_wallet walletFile password).

(** [CryptoNote::importLegacyKeys(keys_file, password, ss)]: reads the key
    file and yields the wallet stream. *)
Definition import_legacy_keys (keys_file password : string) : M string :=
  emit (ImportLegacyKeys keys_file) ;;;
  content <- ifstream_open keys_file ;;
  match content with
  | None => runtime_error "failed to open keys file"
  | Some keys =>
      match importLegacyKeys lib keys password with
      | Returned ss => ret ss
      | Thrown ex => throw ex
      end
  end.

(** The "Storing wallet..." step shared by both import branches
    (lines 286-296 and 320-330). *)
Definition store_imported (walletFileName : string) : M string :=
  try_catch_std (storeWallet walletFileName)
    (fun _ => runtime_error ("error saving wallet file '" +:+ walletFileName +:+ "'")) ;;;
  ret walletFileName.

(** [tryToOpenWalletOrLoadKeysOrThrow] (lines 246-334) *)
Definition tryToOpenWalletOrLoadKeysOrThrow (walletFile password : string) : M string :=
  let '(keys_file, walletFileName) := prepareFileNames lib walletFile in
  keysExists <- exists_ keys_file ;;
  walletExists <- exists_ walletFileName ;;
  bareExists <- exists_ walletFile ;;
  walletExists <-
    (if negb walletExists && negb keysExists && bareExists then
       renameEc <- rename_ec walletFile walletFileName ;;
       match renameEc with
       | Some message =>
           runtime_error ("failed to rename file '" +:+ walletFile +:+ "' to '"
                          +:+ walletFileName +:+ "': " +:+ message)
       | None => ret true
       end
     else ret walletExists) ;;
  if walletExists then
    opened <- ifstream_open walletFileName ;;
    match opened with
    | None => runtime_error ("error opening wallet file '" +:+ walletFileName +:+ "'")
    | Some stream =>
        initError <- initAndLoadWallet stream password ;;
        if is_error initError then
          if keysExists then
            ss <- import_legacy_keys keys_file password ;;
            rename keys_file (keys_file +:+ ".back") ;;;
            rename walletFileName (walletFileName +:+ ".back") ;;;
            initError <- initAndLoadWallet ss password ;;
            if is_error initError then
              runtime_error ("failed to load wallet: " +:+ ec_message initError)
            else store_imported walletFileName
          else
            runtime_error ("can't load wallet file '" +:+ walletFileName
                           +:+ "', check password")
        else ret walletFileName
    end
  else if keysExists then
    ss <- import_legacy_keys keys_file password ;;
    rename keys_file (keys_file +:+ ".back") ;;;
    initError <- initAndLoadWallet ss password ;;
    if is_error initError then
      runtime_error ("failed to load wallet: " +:+ ec_message initError)
    else store_imported walletFileName
  else
    runtime_error ("wallet file '" +:+ walletFileName +:+ "' is not found").

(** [prepareWalletAddressFilename] (lines 336-338) *)
Definition prepareWalletAddressFilename (walletBaseName : string) : string :=
  walletBaseName +:+ ".address".

(** [writeAddressFile] (lines 340-349) *)
Definition writeAddressFile (addressFilename address : string) : M bool :=
  addressFile <- ofstream_open addressFilename ;;
  if negb (of_good addressFile) then ret false
  else ofstream_write addressFile address ;;; ret true.

(** ** mini_wallet members *)

Definition set_wallet_file (f : string) : M unit :=
  fun w => let t := w_this w in
    (Returned tt,
     with_this {| m_wallet_file_arg := m_wallet_file_arg t;
                  m_generate_new := m_generate_new t;
                  m_wallet_file_gui := m_wallet_file_gui t;
                  m_wallet_file := f;
                  m_pwd_arg := m_pwd_arg t;
                  m_daemon_address := m_daemon_address t;
                  m_daemon_host := m_daemon_host t;
                  m_daemon_port := m_daemon_port t;
                  m_walletSynchronized := m_walletSynchronized t |} w).

Definition set_wallet_file_gui (f : string) : M unit :=
  fun w => let t := w_this w in
    (Returned tt,
     with_this {| m_wallet_file_arg := m_wallet_file_arg t;
                  m_generate_new := m_generate_new t;
                  m_wallet_file_gui := f;
                  m_wallet_file := m_wallet_file t;
                  m_pwd_arg := m_pwd_arg t;
                  m_daemon_address := m_daemon_address t;
                  m_daemon_host := m_daemon_host t;
                  m_daemon_port := m_daemon_port t;
                  m_walletSynchronized := m_walletSynchronized t |} w).

Definition set_pwd_arg (p : string) : M unit :=
  fun w => let t := w_this w in
    (Returned tt,
     with_this {| m_wallet_file_arg := m_wallet_file_arg t;
                  m_generate_new := m_generate_new t;
                  m_wallet_file_gui := m_wallet_file_gui t;
                  m_wallet_file := m_wallet_file t;
                  m_pwd_arg := p;
                  m_daemon_address := m_daemon_address t;
                  m_daemon_host := m_daemon_host t;
                  m_daemon_port := m_daemon_port t;
                  m_walletSynchronized := m_walletSynchronized t |} w).

Definition set_walletSynchronized (b : bool) : M unit :=
  fun w => let t := w_this w in
    (Returned tt,
     with_this {| m_wallet_file_arg := m_wallet_file_arg t;
                  m_generate_new := m_generate_new t;
                  m_wallet_file_gui := m_wallet_file_gui t;
                  m_wallet_file := m_wallet_file t;
                  m_pwd_arg := m_pwd_arg t;
                  m_daemon_address := m_daemon_address t;
                  m_daemon_host := m_daemon_host t;
                  m_daemon_port := m_daemon_port t;
                  m_walletSynchronized := b |} w).

(** [mini_wallet::new_wallet] (lines 545-582) *)
Definition new_wallet (wallet_file password : string) : M bool :=
  set_wallet_file wallet_file ;;;
  try_catch_std
    (initError <- engine_call (WalletInitAndGenerate password)
                    (initAndGenerate m_wallet password) ;;
     if is_error initError then ret false
     else storeWallet wallet_file ;;; ret true)
    (fun _ => ret false).

(** [mini_wallet::close_wallet] (lines 584-597) *)
Definition close_wallet : M bool :=
  t <- this ;;
  stored <- try_catch_std (storeWallet (m_wallet_file t) ;;; ret true)
              (fun _ => ret false) ;;
  if negb stored then ret false
  else engine_call WalletShutdown (shutdown m_wallet) ;;; ret true.

(** [mini_wallet::reset] (lines 599-626) *)
Definition reset : M bool :=
  set_walletSynchronized false ;;;
  try_catch_std
    (r <- engine_call (WalletSave false false)
            (fun e => let '(x, e') := save m_wallet false false e in (Returned x, e')) ;;
     saveError <- match snd r with
                  | Returned ec => ret ec
                  | Thrown ex => throw ex
                  end ;;
     (if negb (is_error saveError) then
        t <- this ;;
        engine_call WalletShutdown (shutdown m_wallet) ;;;
        initAndLoadWallet (fst r) (m_pwd_arg t) ;;;
        ret tt
      else ret tt) ;;;
     ret true)
    (fun _ => ret false).

(** [mini_wallet::synchronizationCompleted] (lines 662-665) *)
Definition synchronizationCompleted : M unit :=
  set_walletSynchronized true.

(** [m_refresh_progress_reporter.update]: the reporter only prints. *)
Definition refresh_progress_update (height : Z) (force : bool) : M unit := ret tt.

(** [mini_wallet::synchronizationProgressUpdated] (lines 667-671) *)
Definition synchronizationProgressUpdated (current total : Z) : M unit :=
  t <- this ;;
  if negb (m_walletSynchronized t) then refresh_progress_update current false
  else ret tt.

(** [mini_wallet::transferGui] (lines 690-735) *)
Definition transferGui (args : list string) : M string :=
  try_catch
    (match parseArguments args with
     | inl _ => ret "Parse error"
     | inr cmd =>
         tx <- engine_call
                 (WalletSendTransaction (dsts cmd) (fee cmd) (extra cmd)
                                        (fake_outs_count cmd) 0)
                 (sendTransaction m_wallet (dsts cmd) (fee cmd) (extra cmd)
                                  (fake_outs_count cmd) 0) ;;
         if tx =? WALLET_LEGACY_INVALID_TRANSACTION_ID lib then ret "Can't send money"
         else
           sendError <- (fun w => let '(r, e) := sendTransactionCompleted m_wallet tx (w_engine w) in
                                  (r, with_engine e w)) ;;
           if is_error sendError then ret (ec_message sendError)
           else
             txInfo <- engine_read (getTransaction m_wallet tx) ;;
             t <- this ;;
             try_catch_std (storeWallet (m_wallet_file t) ;;; ret (podToHex lib (hash txInfo)))
                           (fun what => ret what)
     end)
    (fun e => match e with
              | StdException what => ret what
              | OtherException => ret "unknown error"
              end).

(** [mini_wallet::getBalance] (lines 753-764) *)
Definition getBalance : M string :=
  t <- this ;;
  if negb (m_walletSynchronized t) then ret ""
  else
    try_catch
      (a <- (fun w => (actualBalance m_wallet (w_engine w), w)) ;;
       p <- (fun w => (pendingBalance m_wallet (w_engine w), w)) ;;
       ret (formatAmount m_currency a +:+ "|" +:+ formatAmount m_currency p))
      (fun _ => ret "").

(** [mini_wallet::transferWrapper] and [resetWrapper] (lines 807-815) *)
Definition transferWrapper (args : list string) : M string := transferGui args.

Definition resetWrapper : M bool := reset ;;; ret true.

(** ** parseUrlAddress (lines 75-96) *)

(** [size_t] arithmetic: positions are 64-bit, [npos] is the largest, and a
    difference wraps. *)
Definition npos : Z := 2 ^ 64 - 1.

Definition size_sub (a b : Z) : Z := (a - b) mod 2 ^ 64.

Definition size_add (a b : Z) : Z := (a + b) mod 2 ^ 64.

(** [s.find(d, pos)] *)
Definition find_pos (s d : string) (pos : Z) : Z :=
  if Z.of_nat (String.length s) <? pos then npos
  else match Str.find (Str.erase0 (Z.to_nat pos) s) d with
       | Some i => pos + Z.of_nat i
       | None => npos
       end.

(** [s.substr(pos, count)]: [None] is [std::out_of_range]. *)
Definition substr (s : string) (pos count : Z) : option string :=
  if Z.of_nat (String.length s) <? pos then None
  else Some (Str.substr0 (Z.to_nat (Z.min count (Z.of_nat (String.length s) - pos)))
                         (Str.erase0 (Z.to_nat pos) s)).

(** [Common::fromString<uint16_t>(text)], which throws when the text is no
    number: [None]. *)
Variable fromString_uint16 : string -> option Z.

(** The function always answers [true]; the result here is the address and
    the port it leaves in its reference arguments, [None] when it throws.
    Both positions handed to [substr] lie within the string, so what it
    throws is what [Common::fromString] throws. *)
Definition parseUrlAddress (url : string) : option (string * Z) :=
  let pos := find_pos url "://" 0 in
  let addrStart := if pos =? npos then 0 else size_add pos 3 in
  let addrEnd := find_pos url ":" addrStart in
  if negb (addrEnd =? npos) then
    let portEnd := find_pos url "/" addrEnd in
    match substr url (size_add addrEnd 1)
                 (if portEnd =? npos then npos
                  else size_sub (size_sub portEnd addrEnd) 1) with
    | None => None
    | Some text =>
        match fromString_uint16 text with
        | None => None
        | Some port =>
            match substr url addrStart (size_sub addrEnd addrStart) with
            | None => None
            | Some address => Some (address, port)
            end
        end
    end
  else
    let addrEnd := find_pos url "/" 0 in
    match substr url addrStart (size_sub addrEnd addrStart) with
    | None => None
    | Some address => Some (address, 80)
    end.

(** ** Start-up: mini_wallet::init (lines 407-532) *)

(** The parsed command line ([vm]). *)
Record ProgramOptions := {
  arg_wallet_file : string;
  arg_generate_new_wallet : string;
  arg_daemon_address : string;
  arg_daemon_host : string;
  arg_daemon_port : Z;
  arg_password : option string }.

(** What the operator types when asked: the answer to the
    open/generate/exit question together with the file name ([None] for
    exit, [true] for generate), and the password ([None] when reading it
    fails). *)
Record Console := {
  console_choice : option (bool * string);
  console_password : option string }.

(** [mini_wallet::handle_command_line] (lines 399-405) *)
Definition handle_command_line (vm : ProgramOptions) : M unit :=
  fun w => let t := w_this w in
    (Returned tt,
     with_this {| m_wallet_file_arg := arg_wallet_file vm;
                  m_generate_new := arg_generate_new_wallet vm;
                  m_wallet_file_gui := m_wallet_file_gui t;
                  m_wallet_file := m_wallet_file t;
                  m_pwd_arg := m_pwd_arg t;
                  m_daemon_address := arg_daemon_address vm;
                  m_daemon_host := arg_daemon_host vm;
                  m_daemon_port := arg_daemon_port vm;
                  m_walletSynchronized := m_walletSynchronized t |} w).

(** Lines 442-447: the operator's file name becomes [m_generate_new] or
    [m_wallet_file_arg], and [m_wallet_file_gui]. *)
Definition take_user_input (generate : bool) (userInput : string) : M unit :=
  fun w => let t := w_this w in
    (Returned tt,
     with_this {| m_wallet_file_arg := if generate then m_wallet_file_arg t else userInput;
                  m_generate_new := if generate then userInput else m_generate_new t;
                  m_wallet_file_gui := userInput;
                  m_wallet_file := m_wallet_file t;
                  m_pwd_arg := m_pwd_arg t;
                  m_daemon_address := m_daemon_address t;
                  m_daemon_host := m_daemon_host t;
                  m_daemon_port := m_daemon_port t;
                  m_walletSynchronized := m_walletSynchronized t |} w).

(** Lines 497-531, once the node answers and the password is known. *)
Definition init_wallet (walletFileName password : string) : M bool :=
  set_pwd_arg password ;;;
  t <- this ;;
  if negb (Str.is_empty (m_generate_new t)) then
    let walletAddressFile := prepareWalletAddressFilename (m_generate_new t) in
    taken <- exists_ walletAddressFile ;;
    if taken then ret false
    else
      created <- new_wallet walletFileName password ;;
      if negb created then ret false
      else
        addr <- engine_read (getAddress m_wallet) ;;
        writeAddressFile walletAddressFile addr ;;;
        ret true
  else
    try_catch_std
      (f <- tryToOpenWalletOrLoadKeysOrThrow (m_wallet_file_arg t) password ;;
       set_wallet_file f ;;;
       set_wallet_file_gui (m_wallet_file_arg t) ;;;
       ret true)
      (fun _ => ret false).

(** What lines 461-473 take from outside this file: [RPC_DEFAULT_PORT],
    [std::to_string] of the port, and the exception [Common::fromString]
    throws at a text that is no number. *)
Variable RPC_DEFAULT_PORT : Z.
Variable to_string_port : Z -> string.
Variable fromString_failure : exn.

Definition set_daemon (daemon_address daemon_host : string) (daemon_port : Z) : M unit :=
  fun w => let t := w_this w in
    (Returned tt,
     with_this {| m_wallet_file_arg := m_wallet_file_arg t;
                  m_generate_new := m_generate_new t;
                  m_wallet_file_gui := m_wallet_file_gui t;
                  m_wallet_file := m_wallet_file t;
                  m_pwd_arg := m_pwd_arg t;
                  m_daemon_address := daemon_address;
                  m_daemon_host := daemon_host;
                  m_daemon_port := daemon_port;
                  m_walletSynchronized := m_walletSynchronized t |} w).

(** Lines 461-464: the defaults of the node's host and port. *)
Definition daemon_defaults : M unit :=
  t <- this ;;
  set_daemon (m_daemon_address t)
             (if Str.is_empty (m_daemon_host t) then "localhost" else m_daemon_host t)
             (if m_daemon_port t =? 0 then RPC_DEFAULT_PORT else m_daemon_port t).

(** Lines 466-473: a daemon address, when given, is parsed into host and
    port, and the exception of the parse leaves [init]; otherwise the
    address is put together from host and port. *)
Definition daemon_address : M unit :=
  t <- this ;;
  if negb (Str.is_empty (m_daemon_address t)) then
    match parseUrlAddress (m_daemon_address t) with
    | Some (host, port) => set_daemon (m_daemon_address t) host port
    | None => throw fromString_failure
    end
  else
    set_daemon ("http://" +:+ m_daemon_host t +:+ ":" +:+ to_string_port (m_daemon_port t))
               (m_daemon_host t) (m_daemon_port t).

(** [mini_wallet::init].  The node proxy's answer is [node_init]. *)
Definition init (vm : ProgramOptions) (console : Console) : M bool :=
  handle_command_line vm ;;;
  t <- this ;;
  if negb (Str.is_empty (m_daemon_address t))
     && (negb (Str.is_empty (m_daemon_host t)) || negb (m_daemon_port t =? 0))
  then ret false
  else
    go_on <- (if Str.is_empty (m_generate_new t) && Str.is_empty (m_wallet_file_arg t)
              then match console_choice console with
                   | None => ret false
                   | Some (generate, userInput) =>
                       take_user_input generate userInput ;;; ret true
                   end
              else ret true) ;;
    if negb go_on then ret false
    else
      t <- this ;;
      let walletFileName :=
        if negb (Str.is_empty (m_generate_new t))
        then snd (prepareFileNames lib (m_generate_new t)) else "" in
      collision <- (if negb (Str.is_empty (m_generate_new t))
                    then exists_ walletFileName else ret false) ;;
      if collision then ret false
      else
        daemon_defaults ;;;
        daemon_address ;;;
        match (match arg_password vm with
               | Some p => Some p
               | None => console_password console
               end) with
        | None => ret false
        | Some password =>
            error <- engine_call NodeInit
                       (fun e => let '(x, e') := node_init m_wallet e in (Returned x, e')) ;;
            if is_error error then ret false
            else init_wallet walletFileName password
        end.

(** ** The polling loops (lines 888-1023), one turn of each *)

(** [reset_helper]'s loop body *)
Definition reset_helper_turn (m_wallet_file_gui : string) : M unit :=
  let file_name_reset := m_wallet_file_gui +:+ ".reset" in
  try_catch
    (found <- exists_ file_name_reset ;;
     if found then
       rename file_name_reset (file_name_reset +:+ "_") ;;;
       resetWrapper ;;;
       wait 60
     else wait 5)
    (fun _ => wait 2).

(** [save_helper]'s loop body *)
Definition save_helper_turn (m_wallet_file_gui : string) : M unit :=
  let file_name_save := m_wallet_file_gui +:+ ".save" in
  try_catch
    (found <- exists_ file_name_save ;;
     if found then
       rename file_name_save (file_name_save +:+ "_") ;;;
       saveWrapper m_wallet_file_gui ;;;
       wait 10
     else wait 5)
    (fun _ => wait 2).

(** Lines 1001-1007: [retry] further attempts to delete the request. *)
Fixpoint remove_retry (retry : nat) (statusRemove : bool) (p : string) : M unit :=
  match retry with
  | O => ret tt
  | S retry' =>
      if statusRemove then ret tt
      else
        removed <- remove p ;;
        wait 1 ;;;
        remove_retry retry' removed p
  end.

(** [tx_helper]'s loop body.  Both streams are closed again by the end of
    every turn, so each turn opens them afresh. *)
Definition tx_helper_turn (m_wallet_file_gui : string) : M unit :=
  let file_name_txcast := m_wallet_file_gui +:+ ".txcast" in
  let file_name_txresult := m_wallet_file_gui +:+ ".txresult" in
  failed <-
    try_catch
      (found <- exists_ file_name_txcast ;;
       (if found then
          opened <- ifstream_open file_name_txcast ;;
          let content := read_content (default "" opened) in
          let args := split_fields content 0 [] in
          statusRemove <- remove file_name_txcast ;;
          remove_retry 3 statusRemove file_name_txcast ;;;
          result <- transferWrapper args ;;
          file_stream_txresult <- ofstream_open file_name_txresult ;;
          ofstream_write file_stream_txresult result
        else ret tt) ;;;
       ret false)
      (fun _ => wait 1 ;;; ret true) ;;
  if failed then ret tt else wait 2.

(** ** What a running daemon executes *)

(** The members the engine's callbacks and the loops call, and the loop
    turns themselves. *)
Inductive operation :=
| OpInit (vm : ProgramOptions) (console : Console)
| OpNewWallet (wallet_file password : string)
| OpCloseWallet
| OpReset
| OpSynchronizationCompleted
| OpSynchronizationProgressUpdated (current total : Z)
| OpTransferGui (args : list string)
| OpGetBalance
| OpSaveWrapper (m_walletFilename : string)
| OpResetTurn (m_wallet_file_gui : string)
| OpSaveTurn (m_wallet_file_gui : string)
| OpTxTurn (m_wallet_file_gui : string).

Definition perform (op : operation) : M unit :=
  match op with
  | OpInit vm console => init vm console ;;; ret tt
  | OpNewWallet f p => new_wallet f p ;;; ret tt
  | OpCloseWallet => close_wallet ;;; ret tt
  | OpReset => reset ;;; ret tt
  | OpSynchronizationCompleted => synchronizationCompleted
  | OpSynchronizationProgressUpdated c t => synchronizationProgressUpdated c t
  | OpTransferGui args => transferGui args ;;; ret tt
  | OpGetBalance => getBalance ;;; ret tt
  | OpSaveWrapper f => saveWrapper f ;;; ret tt
  | OpResetTurn base => reset_helper_turn base
  | OpSaveTurn base => save_helper_turn base
  | OpTxTurn base => tx_helper_turn base
  end.

(** The operations that go through [reset]. *)
Definition is_reset (op : operation) : bool :=
  match op with
  | OpReset | OpResetTurn _ => true
  | _ => false
  end.

Definition synchronized (w : World) : bool := m_walletSynchronized (w_this w).

(** ** Vocabulary of the properties *)

(** [m] leaves [m_walletSynchronized] as it found it. *)
Definition keeps_sync {A} (m : M A) : Prop :=
  forall w, synchronized (snd (m w)) = synchronized w.


(** The text [transferGui] returns for a caught exception. *)
Definition what_of (e : exn) : string :=
  match e with
  | StdException what => what
  | OtherException => "unknown error"
  end.

(** What [transferGui] asks of the engine for a parsed command. *)
Definition send_request (cmd : TransferCommand) : event :=
  WalletSendTransaction (dsts cmd) (fee cmd) (extra cmd) (fake_outs_count cmd) 0.

(** The ways a transfer fails, each with the string [transferGui] returns
    for it, the state it leaves the engine in, and the calls it has made by
    then: the request does not parse; the engine refuses to send, or throws;
    the send completes with an error, or the wait throws; the store of the
    wallet reports an error, or throws. *)
Inductive transfer_failure (args : list string) (w : World)
  : string -> Engine -> list event -> Prop :=
| failure_parse err :
    parseArguments args = inl err ->
    transfer_failure args w "Parse error" (w_engine w) []
| failure_refused cmd e1 :
    parseArguments args = inr cmd ->
    sendTransaction m_wallet (dsts cmd) (fee cmd) (extra cmd) (fake_outs_count cmd) 0
                    (w_engine w)
    = (Returned (WALLET_LEGACY_INVALID_TRANSACTION_ID lib), e1) ->
    transfer_failure args w "Can't send money" e1 [send_request cmd]
| failure_send_thrown cmd ex e1 :
    parseArguments args = inr cmd ->
    sendTransaction m_wallet (dsts cmd) (fee cmd) (extra cmd) (fake_outs_count cmd) 0
                    (w_engine w)
    = (Thrown ex, e1) ->
    transfer_failure args w (what_of ex) e1 [send_request cmd]
| failure_completion cmd tx e1 ec e2 :
    parseArguments args = inr cmd ->
    sendTransaction m_wallet (dsts cmd) (fee cmd) (extra cmd) (fake_outs_count cmd) 0
                    (w_engine w)
    = (Returned tx, e1) ->
    tx <> WALLET_LEGACY_INVALID_TRANSACTION_ID lib ->
    sendTransactionCompleted m_wallet tx e1 = (Returned ec, e2) ->
    is_error ec = true ->
    transfer_failure args w (ec_message ec) e2 [send_request cmd]
| failure_completion_thrown cmd tx e1 ex e2 :
    parseArguments args = inr cmd ->
    sendTransaction m_wallet (dsts cmd) (fee cmd) (extra cmd) (fake_outs_count cmd) 0
                    (w_engine w)
    = (Returned tx, e1) ->
    tx <> WALLET_LEGACY_INVALID_TRANSACTION_ID lib ->
    sendTransactionCompleted m_wallet tx e1 = (Thrown ex, e2) ->
    transfer_failure args w (what_of ex) e2 [send_request cmd]
| failure_store cmd tx e1 ec e2 data ec' e3 :
    parseArguments args = inr cmd ->
    sendTransaction m_wallet (dsts cmd) (fee cmd) (extra cmd) (fake_outs_count cmd) 0
                    (w_engine w)
    = (Returned tx, e1) ->
    tx <> WALLET_LEGACY_INVALID_TRANSACTION_ID lib ->
    sendTransactionCompleted m_wallet tx e1 = (Returned ec, e2) ->
    is_error ec = false ->
    save m_wallet true true e2 = ((data, Returned ec'), e3) ->
    is_error ec' = true ->
    transfer_failure args w (ec_message ec') e3 [send_request cmd; WalletSave true true]
| failure_store_thrown cmd tx e1 ec e2 data ex e3 :
    parseArguments args = inr cmd ->
    sendTransaction m_wallet (dsts cmd) (fee cmd) (extra cmd) (fake_outs_count cmd) 0
                    (w_engine w)
    = (Returned tx, e1) ->
    tx <> WALLET_LEGACY_INVALID_TRANSACTION_ID lib ->
    sendTransactionCompleted m_wallet tx e1 = (Returned ec, e2) ->
    is_error ec = false ->
    save m_wallet true true e2 = ((data, Thrown ex), e3) ->
    transfer_failure args w (what_of ex) e3 [send_request cmd; WalletSave true true].

(** A field of a request line: no delimiter and no whitespace in it. *)
Definition is_field (s : string) : bool :=
  Str.all (fun c => negb (Ascii.eqb c "|") && negb (Str.isspace c)) s.

Definition no_space (s : string) : bool :=
  Str.all (fun c => negb (Str.isspace c)) s.

(** The argument list for the five fields of a request: the payment id
    and the fee are passed, behind [-p] and [-f], when they are not
    empty. *)
Definition option_args (paymentId fee : string) : list string :=
  (if Str.is_empty paymentId then [] else ["-p"; paymentId])
    ++ (if Str.is_empty fee then [] else ["-f"; fee]).

Definition wire_args (mixin address amt paymentId fee : string) : list string :=
  [mixin; address; amt] ++ option_args paymentId fee.


(** The name under which [init] is asked to generate a new wallet: the
    [generate-new-wallet] option, or else the operator's answer when
    neither option was given. *)
Definition requested_new_wallet (vm : ProgramOptions) (console : Console)
  : option string :=
  if negb (Str.is_empty (arg_generate_new_wallet vm))
  then Some (arg_generate_new_wallet vm)
  else if Str.is_empty (arg_wallet_file vm)
       then match console_choice console with
            | Some (true, userInput) =>
                if Str.is_empty userInput then None else Some userInput
            | _ => None
            end
       else None.

(** ** The rest of the daemon *)

(** *** mini_wallet::getTxs (lines 770-805) *)

(** The fields of a [WalletLegacyTransaction] that only the export reads. *)
Record TransactionDetails := {
  tx_active : bool;
  tx_timestamp : Z;
  tx_fee : Z;
  tx_unlockTime : Z;
  tx_extra : string }.

(** What the export asks of the engine and of the library:
    [getTransactionCount], the remaining fields of [getTransaction],
    [std::strftime] of [std::gmtime] with the pattern of line 788 ([None]
    when it answers 0), [getPaymentIdFromTxExtra], [NULL_HASH],
    [std::to_string] and [WALLET_LEGACY_UNCONFIRMED_TRANSACTION_HEIGHT]. *)
Record Export := {
  getTransactionCount : Engine -> Z;
  getTransactionDetails : Z -> Engine -> TransactionDetails;
  strftime_gmtime : Z -> option string;
  getPaymentIdFromTxExtra : string -> option string;
  NULL_HASH : string;
  to_string : Z -> string;
  WALLET_LEGACY_UNCONFIRMED_TRANSACTION_HEIGHT : Z }.

Variable export : Export.

(** The test of line 777: the transaction is left out. *)
Definition skipped (e : Engine) (i : Z) : bool :=
  negb (tx_active (getTransactionDetails export i e))
  || (blockHeight (getTransaction m_wallet i e)
      =? WALLET_LEGACY_UNCONFIRMED_TRANSACTION_HEIGHT export).

(** Line 784 *)
Definition paymentIdStr (e : Engine) (i : Z) : string :=
  match getPaymentIdFromTxExtra export (tx_extra (getTransactionDetails export i e)) with
  | Some paymentId =>
      if String.eqb paymentId (NULL_HASH export) then "" else podToHex lib paymentId
  | None => ""
  end.

(** Lines 792-802: the record of one transaction, after its time. *)
Definition tx_record (e : Engine) (i : Z) (timeString : string) : string :=
  let txInfo := getTransaction m_wallet i e in
  let details := getTransactionDetails export i e in
  timeString
    +:+ "|" +:+ podToHex lib (hash txInfo)
    +:+ "|" +:+ formatAmount m_currency (totalAmount txInfo)
    +:+ "|" +:+ formatAmount m_currency (tx_fee details)
    +:+ "|" +:+ to_string export (blockHeight txInfo)
    +:+ "|" +:+ to_string export (tx_unlockTime details)
    +:+ (if Str.is_empty (paymentIdStr e i) then "" else "|" +:+ paymentIdStr e i)
    +:+ Str.newline.

(** The [for] loop over the transaction numbers still to visit. *)
Fixpoint getTxs_from (e : Engine) (numbers : list Z) (txs : string) : outcome string :=
  match numbers with
  | [] => Returned txs
  | i :: rest =>
      if skipped e i then getTxs_from e rest txs
      else
        match strftime_gmtime export (tx_timestamp (getTransactionDetails export i e)) with
        | None => Thrown (StdException "time buffer is too small")
        | Some timeString => getTxs_from e rest (txs +:+ tx_record e i timeString)
        end
  end.

(** The transaction numbers [0 .. transactionsCount - 1]. *)
Definition transaction_numbers (e : Engine) : list Z :=
  List.map Z.of_nat (seq 0 (Z.to_nat (getTransactionCount export e))).

Definition getTxs : M string :=
  fun w => (getTxs_from (w_engine w) (transaction_numbers (w_engine w)) "", w).

(** *** gui_helper (lines 1025-1071) *)

(** The loop's variables that live across turns. *)
Record gui_state := { lastBalance : string; lastTxs : string }.

(** Lines 1039-1041.  [m_wallet_file_gui] is the name [getWalletFile]
    answers at line 1027, which replaces the argument. *)
Definition gui_helper_start (m_wallet_file_gui : string) : M unit :=
  let file_name_address := m_wallet_file_gui +:+ ".address" in
  present <- exists_ file_name_address ;;
  if negb present then
    addr <- engine_read (getAddress m_wallet) ;;
    writeAddressFile file_name_address addr ;;;
    ret tt
  else ret tt.

(** Lines 1046-1054: the balance and the status file. *)
Definition gui_balance_step (file_name_status : string) (st : gui_state) : M gui_state :=
  balance <- getBalance ;;
  if negb (String.eqb balance "") && negb (String.eqb balance (lastBalance st)) then
    file_stream_status <- ofstream_open file_name_status ;;
    ofstream_write file_stream_status balance ;;;
    ret {| lastBalance := balance; lastTxs := lastTxs st |}
  else ret st.

(** Lines 1056-1062: the transactions and their file.  The answer says
    whether the turn goes on to its sleep; the [continue] of line 1057 does
    not. *)
Definition gui_txs_step (file_name_txs : string) (st : gui_state) : M (gui_state * bool) :=
  txs <- getTxs ;;
  present <- exists_ file_name_txs ;;
  if present && String.eqb txs (lastTxs st) then ret (st, false)
  else
    file_stream_txs <- ofstream_open file_name_txs ;;
    ofstream_write file_stream_txs txs ;;;
    ret ({| lastBalance := lastBalance st; lastTxs := txs |}, true).

(** The loop body.  Nothing in the balance step throws once [lastBalance]
    is assigned, so an exception of that step is handled with the variables
    as they were, and one of the transactions step with the variables as the
    balance step left them. *)
Definition gui_helper_turn (m_wallet_file_gui : string) (st : gui_state) : M gui_state :=
  let file_name_status := m_wallet_file_gui +:+ ".status" in
  let file_name_txs := m_wallet_file_gui +:+ ".txs" in
  first <- try_catch (st1 <- gui_balance_step file_name_status st ;; ret (Some st1))
                     (fun _ => wait 2 ;;; ret None) ;;
  match first with
  | None => ret st
  | Some st1 =>
      second <- try_catch (r <- gui_txs_step file_name_txs st1 ;; ret (Some r))
                          (fun _ => wait 2 ;;; ret None) ;;
      match second with
      | None => ret st1
      | Some (st2, true) => wait 5 ;;; ret st2
      | Some (st2, false) => ret st2
      end
  end.

(** *** Vocabulary for the properties of the rest *)

(** Fields written one after the other, each ended by the delimiter. *)
Definition terminated (fields : list string) : string :=
  fold_right (fun f s => f +:+ "|" +:+ s) "" fields.

(** The character [c] does not occur in [s]. *)
Definition no_char (c : ascii) (s : string) : bool :=
  Str.all (fun x => negb (Ascii.eqb x c)) s.

(** The transactions that reach the export, in the order of their
    numbers. *)
Definition exported (e : Engine) : list Z :=
  List.filter (fun i => negb (skipped e i)) (transaction_numbers e).

(** The time string of a transaction, where [strftime] yields one. *)
Definition timeString (e : Engine) (i : Z) : string :=
  default "" (strftime_gmtime export (tx_timestamp (getTransactionDetails export i e))).

(** * Properties *)

(** ** Strings and paths *)

Lemma append_nil (b : string) : "" +:+ b = b.
Proof. reflexivity. Qed.

Lemma append_cons (c : ascii) (a b : string) : String c a +:+ b = String c (a +:+ b).
Proof. reflexivity. Qed.

Lemma append_length (a b : string) :
String.length (a +:+ b) = (String.length a + String.length b)%nat.
Proof.
induction a as [|c a IH]; [reflexivity|].
rewrite append_cons. simpl. now rewrite IH.
Qed.

Lemma append_inv_head (a x y : string) : a +:+ x = a +:+ y -> x = y.
Proof.
induction a as [|c a IH]; [auto|].
rewrite !append_cons. intros [= H]. auto.
Qed.

Lemma append_assoc (a b c : string) : (a +:+ b) +:+ c = a +:+ (b +:+ c).
Proof.
induction a as [|x a IH]; [reflexivity|].
rewrite !append_cons. now rewrite IH.
Qed.

Lemma fill_model_length (model : string) (digits : list ascii) :
String.length (fst (fill_model model digits)) = String.length model.
Proof.
revert digits; induction model as [|c model IH]; intros digits; [reflexivity|].
cbn [fill_model]. destruct (Ascii.eqb c "%").
- destruct digits as [|d ds].
  + specialize (IH []). destruct (fill_model model []); simpl in *. now rewrite IH.
  + specialize (IH ds). destruct (fill_model model ds); simpl in *. now rewrite IH.
- specialize (IH digits). destruct (fill_model model digits); simpl in *. now rewrite IH.
Qed.

(** A sentinel and its claimed variant differ. *)
Lemma claimed_neq (s : string) : s <> s +:+ "_".
Proof.
intros H. apply (f_equal String.length) in H. rewrite append_length in H.
simpl in H. lia.
Qed.

(** The temporary of the save path is not the wallet file. *)
Lemma temp_neq_wallet (walletFilename : string) (digits : list ascii) :
fst (fill_model (walletFilename +:+ ".tmp.%%%%-%%%%") digits) <> walletFilename.
Proof.
intros H. apply (f_equal String.length) in H.
rewrite fill_model_length, append_length in H. simpl in H. lia.
Qed.

(** ** The request parser *)

Lemma find_cons (c : ascii) (s d : string) :
Str.find (String c s) d =
if Str.starts_with d (String c s) then Some 0%nat else option_map S (Str.find s d).
Proof. reflexivity. Qed.

Lemma split_fields_step (content : string) (idx : Z) (args : list string) :
split_fields content idx args =
match Str.find content "|" with
| Some pos => split_fields (Str.erase0 (pos + 1) content) ((idx + 1) mod 256)
                           (push_token idx (Str.substr0 pos content) args)
| None => args
end.
Proof.
funelim (split_fields content idx args);
  match goal with H : Str.find _ _ = _ |- _ => now rewrite H end.
Qed.

Lemma is_field_cons (c : ascii) (s : string) :
is_field (String c s) = true ->
Ascii.eqb c "|" = false /\ Str.isspace c = false /\ is_field s = true.
Proof.
unfold is_field. cbn [Str.all]. intros H.
apply andb_prop in H as [H1 H2]. apply andb_prop in H1 as [H1 H3].
apply negb_true_iff in H1, H3. auto.
Qed.

Lemma starts_with_delim (c : ascii) (s : string) :
Str.starts_with "|" (String c s) = Ascii.eqb c "|".
Proof.
cbn [Str.starts_with]. rewrite andb_true_r. apply Ascii.eqb_sym.
Qed.

Lemma find_delim_field (f rest : string) :
is_field f = true ->
Str.find (f +:+ String "|" rest) "|" = Some (String.length f).
Proof.
induction f as [|c f IH]; intros Hf.
- reflexivity.
- apply is_field_cons in Hf as (Hc & _ & Hf).
  rewrite append_cons, find_cons, starts_with_delim, Hc, IH by exact Hf.
  reflexivity.
Qed.

Lemma find_delim_none (s : string) :
is_field s = true -> Str.find s "|" = None.
Proof.
induction s as [|c s IH]; intros Hs; [reflexivity|].
apply is_field_cons in Hs as (Hc & _ & Hs).
rewrite find_cons, starts_with_delim, Hc, IH by exact Hs. reflexivity.
Qed.

Lemma substr0_field (f rest : string) :
Str.substr0 (String.length f) (f +:+ rest) = f.
Proof.
induction f as [|c f IH]; [now destruct rest|].
rewrite append_cons. cbn [String.length Str.substr0]. now rewrite IH.
Qed.

Lemma erase0_field (f rest : string) :
Str.erase0 (String.length f + 1) (f +:+ String "|" rest) = rest.
Proof.
induction f as [|c f IH]; [reflexivity|].
rewrite append_cons. cbn [String.length Nat.add Str.erase0]. exact IH.
Qed.

(** One turn of the loop: a field and its delimiter are taken off the
  front. *)
Lemma split_fields_field (f rest : string) (idx : Z) (args : list string) :
is_field f = true ->
split_fields (f +:+ String "|" rest) idx args =
split_fields rest ((idx + 1) mod 256) (push_token idx f args).
Proof.
intros Hf. rewrite split_fields_step, find_delim_field by exact Hf.
now rewrite erase0_field, substr0_field.
Qed.

(** The end of the loop: what is left has no delimiter and is dropped. *)
Lemma split_fields_rest (rest : string) (idx : Z) (args : list string) :
is_field rest = true -> split_fields rest idx args = args.
Proof.
intros Hr. now rewrite split_fields_step, find_delim_none by exact Hr.
Qed.

Lemma append_nil_r (a : string) : a +:+ "" = a.
Proof. induction a as [|c a IH]; [reflexivity|]. rewrite append_cons. now f_equal. Qed.

Lemma no_space_app (a b : string) :
no_space a = true -> no_space b = true -> no_space (a +:+ b) = true.
Proof.
induction a as [|c a IH]; intros Ha Hb; [exact Hb|].
rewrite append_cons. unfold no_space in *. cbn [Str.all] in *.
apply andb_prop in Ha as [Hc Ha]. rewrite Hc. cbn [andb]. now apply IH.
Qed.

Lemma is_field_no_space (s : string) : is_field s = true -> no_space s = true.
Proof.
induction s as [|c s IH]; intros Hs; [reflexivity|].
apply is_field_cons in Hs as (_ & Hsp & Hs).
unfold no_space in *. cbn [Str.all]. rewrite Hsp. cbn [negb andb]. now apply IH.
Qed.

Lemma no_space_delim (s : string) :
no_space s = true -> no_space (String "|" s) = true.
Proof. intros H. unfold no_space in *. cbn [Str.all]. now rewrite H. Qed.

Lemma delim_app (s : string) : "|" +:+ s = String "|" s.
Proof. reflexivity. Qed.

Lemma extract_words_line (s cur content : string) :
no_space s = true ->
extract_words (s +:+ Str.newline) cur content =
if Str.is_empty (cur +:+ s) then content else cur +:+ s.
Proof.
revert cur; induction s as [|c s IH]; intros cur Hs.
- rewrite append_nil, append_nil_r. unfold Str.newline.
  cbn [extract_words].
  replace (Str.isspace (ascii_of_nat 10)) with true by reflexivity.
  reflexivity.
- unfold no_space in Hs. cbn [Str.all] in Hs.
  apply andb_prop in Hs as [Hsp Hs]. apply negb_true_iff in Hsp.
  rewrite append_cons. cbn [extract_words]. rewrite Hsp.
  rewrite IH by exact Hs. rewrite append_assoc. reflexivity.
Qed.

(** A line without whitespace is read whole. *)
Lemma read_content_line (line : string) :
no_space line = true -> read_content (line +:+ Str.newline) = line.
Proof.
intros H. unfold read_content. rewrite extract_words_line by exact H.
rewrite append_nil. now destruct line.
Qed.

Ltac no_space_line :=
repeat lazymatch goal with
       | |- no_space (String "|" _) = true => apply no_space_delim
       | |- no_space (_ +:+ _) = true =>
           apply no_space_app; [now apply is_field_no_space|]
       | |- no_space _ = true => now apply is_field_no_space
       end.

(** C5, as the code has it.  The parser takes a field only when a delimiter
  follows it.  For a line without whitespace whose fields are each ended
  by [|], it passes mixin, address and amount, then [-p] and the payment
  id when that field is not empty, then [-f] and the fee when that field
  is not empty; whatever follows the last delimiter of the line is not
  passed. *)
Theorem request_args_of_terminated_fields
  (mixin address amt paymentId fee rest : string) :
is_field mixin = true -> is_field address = true -> is_field amt = true ->
is_field paymentId = true -> is_field fee = true -> is_field rest = true ->
request_args ((mixin +:+ "|" +:+ address +:+ "|" +:+ amt +:+ "|" +:+ paymentId
               +:+ "|" +:+ fee +:+ "|" +:+ rest) +:+ Str.newline)
= wire_args mixin address amt paymentId fee
/\ request_args ((mixin +:+ "|" +:+ address +:+ "|" +:+ amt +:+ "|" +:+ paymentId
                  +:+ "|" +:+ rest) +:+ Str.newline)
   = wire_args mixin address amt paymentId ""
/\ request_args ((mixin +:+ "|" +:+ address +:+ "|" +:+ amt +:+ "|" +:+ rest)
                 +:+ Str.newline)
   = [mixin; address; amt]
/\ request_args ((mixin +:+ "|" +:+ address +:+ "|" +:+ rest) +:+ Str.newline)
   = [mixin; address].
Proof.
intros Hm Ha Hamt Hp Hf Hr. unfold request_args, wire_args, option_args.
rewrite !delim_app.
repeat split.
all: rewrite read_content_line by no_space_line.
all: rewrite !split_fields_field by assumption.
all: rewrite split_fields_rest by assumption.
all: change ((0 + 1) mod 256) with 1; change ((1 + 1) mod 256) with 2;
     change ((2 + 1) mod 256) with 3; change ((3 + 1) mod 256) with 4.
all: cbn [push_token app Str.is_empty].
- destruct (Str.is_empty paymentId), (Str.is_empty fee); reflexivity.
- destruct (Str.is_empty paymentId); reflexivity.
- reflexivity.
- reflexivity.
Qed.


(** ** Running the monad *)

Ltac mrun :=
  cbv beta iota zeta delta
      [bind ret throw try_catch try_catch_std runtime_error system_error
       emit this exists_ rename rename_ec remove unique_path wait
       ofstream_open ofstream_write ifstream_open engine_call engine_read
       with_fs with_random with_engine with_this] in *;
  cbn [w_fs w_unwritable w_random w_engine w_this w_events
       m_wallet_file_arg m_generate_new m_wallet_file_gui m_wallet_file
       m_pwd_arg m_daemon_address m_daemon_host m_daemon_port
       m_walletSynchronized
       fst snd negb andb orb of_good of_path] in *.

(** Lookups after inserts and deletes at paths known to differ. *)
Ltac fs_simp :=
  repeat first
    [ rewrite lookup_insert_eq
    | rewrite lookup_delete_eq
    | rewrite lookup_insert_ne by congruence
    | rewrite lookup_delete_ne by congruence ].

(** Run as far as the known facts decide the branches. *)
Ltac msimp :=
  mrun;
  repeat (progress
            (repeat match goal with
                    | H : ?x = _ |- context [match ?x with _ => _ end] => rewrite H
                    | H : ?x = _ |- context [negb ?x] => rewrite H
                    end);
          mrun).

(** Split on whatever still decides a branch. *)
Ltac mcases :=
  repeat first
    [ progress msimp
    | progress fs_simp
    | match goal with
      | |- context [match ?x with _ => _ end] =>
          lazymatch x with
          | context [match _ with _ => _ end] => fail
          | _ => destruct x eqn:?
          end
      end ].

(** ** The synchronized flag *)

Lemma ks_ret {A} (a : A) : keeps_sync (ret a).
Proof. intros w; reflexivity. Qed.

Lemma ks_throw {A} (e : exn) : keeps_sync (@throw A e).
Proof. intros w; reflexivity. Qed.

Lemma ks_bind {A B} (m : M A) (k : A -> M B) :
  keeps_sync m -> (forall a, keeps_sync (k a)) -> keeps_sync (bind m k).
Proof.
  intros Hm Hk w. unfold bind. specialize (Hm w).
  destruct (m w) as [[a|e] w1]; cbn [snd] in *; [|exact Hm].
  now rewrite Hk.
Qed.

Lemma ks_try_catch {A} (m : M A) (h : exn -> M A) :
  keeps_sync m -> (forall e, keeps_sync (h e)) -> keeps_sync (try_catch m h).
Proof.
  intros Hm Hh w. unfold try_catch. specialize (Hm w).
  destruct (m w) as [[a|e] w1]; cbn [snd] in *; [exact Hm|].
  now rewrite Hh.
Qed.

Lemma ks_try_catch_std {A} (m : M A) (h : string -> M A) :
  keeps_sync m -> (forall s, keeps_sync (h s)) -> keeps_sync (try_catch_std m h).
Proof.
  intros Hm Hh. apply ks_try_catch; [exact Hm|].
  intros [what|]; [apply Hh | apply ks_throw].
Qed.

(** A step that does not write [w_this] at all. *)
Lemma ks_frame {A} (m : M A) :
  (forall w, w_this (snd (m w)) = w_this w) -> keeps_sync m.
Proof. intros H w. unfold synchronized. now rewrite H. Qed.

Lemma ks_emit ev : keeps_sync (emit ev).
Proof. now apply ks_frame. Qed.

Lemma ks_this : keeps_sync this.
Proof. now apply ks_frame. Qed.

Lemma ks_exists p : keeps_sync (exists_ p).
Proof. now apply ks_frame. Qed.

Lemma ks_rename a b : keeps_sync (rename a b).
Proof. apply ks_frame. intros w. unfold rename. now destruct (w_fs w !! a). Qed.

Lemma ks_remove p : keeps_sync (remove p).
Proof. apply ks_frame. intros w. unfold remove. now destruct (w_fs w !! p). Qed.

Lemma ks_unique_path model : keeps_sync (unique_path model).
Proof.
  apply ks_frame. intros w. unfold unique_path.
  now destruct (fill_model model (w_random w)).
Qed.

Lemma ks_ofstream_open p : keeps_sync (ofstream_open p).
Proof.
  apply ks_frame. intros w. unfold ofstream_open.
  now destruct (bool_decide (p ∈ w_unwritable w)).
Qed.

Lemma ks_ofstream_write f data : keeps_sync (ofstream_write f data).
Proof.
  apply ks_frame. intros w. unfold ofstream_write.
  destruct (of_good f); [|reflexivity]. now destruct (w_fs w !! of_path f).
Qed.

Lemma ks_ifstream_open p : keeps_sync (ifstream_open p).
Proof. now apply ks_frame. Qed.

Lemma ks_engine_call {A} ev (f : Engine -> outcome A * Engine) :
  keeps_sync (engine_call ev f).
Proof.
  apply ks_frame. intros w. unfold engine_call. mrun.
  now destruct (f (w_engine w)).
Qed.

Lemma ks_engine_read {A} (f : Engine -> A) : keeps_sync (engine_read f).
Proof. now apply ks_frame. Qed.

Lemma ks_engine_step {A} (f : Engine -> outcome A * Engine) :
  keeps_sync (fun w => let '(r, e) := f (w_engine w) in (r, with_engine e w)).
Proof. apply ks_frame. intros w. now destruct (f (w_engine w)). Qed.

Lemma ks_engine_peek {A} (f : Engine -> outcome A) :
  keeps_sync (fun w => (f (w_engine w), w)).
Proof. now apply ks_frame. Qed.

Lemma ks_set_wallet_file f : keeps_sync (set_wallet_file f).
Proof. intros w; reflexivity. Qed.

Lemma ks_set_wallet_file_gui f : keeps_sync (set_wallet_file_gui f).
Proof. intros w; reflexivity. Qed.

Lemma ks_set_pwd_arg p : keeps_sync (set_pwd_arg p).
Proof. intros w; reflexivity. Qed.

Lemma ks_handle_command_line vm : keeps_sync (handle_command_line vm).
Proof. intros w; reflexivity. Qed.

Lemma ks_take_user_input g u : keeps_sync (take_user_input g u).
Proof. intros w; reflexivity. Qed.

Lemma ks_set_daemon a h p : keeps_sync (set_daemon a h p).
Proof. intros w; reflexivity. Qed.

Ltac ks_step :=
  lazymatch goal with
  | |- keeps_sync (ret _) => apply ks_ret
  | |- keeps_sync (throw _) => apply ks_throw
  | |- keeps_sync (emit _) => apply ks_emit
  | |- keeps_sync (wait _) => apply ks_emit
  | |- keeps_sync this => apply ks_this
  | |- keeps_sync (exists_ _) => apply ks_exists
  | |- keeps_sync (rename _ _) => apply ks_rename
  | |- keeps_sync (remove _) => apply ks_remove
  | |- keeps_sync (unique_path _) => apply ks_unique_path
  | |- keeps_sync (ofstream_open _) => apply ks_ofstream_open
  | |- keeps_sync (ofstream_write _ _) => apply ks_ofstream_write
  | |- keeps_sync (ifstream_open _) => apply ks_ifstream_open
  | |- keeps_sync (engine_call _ _) => apply ks_engine_call
  | |- keeps_sync (engine_read _) => apply ks_engine_read
  | |- keeps_sync (set_wallet_file _) => apply ks_set_wallet_file
  | |- keeps_sync (set_wallet_file_gui _) => apply ks_set_wallet_file_gui
  | |- keeps_sync (set_pwd_arg _) => apply ks_set_pwd_arg
  | |- keeps_sync (handle_command_line _) => apply ks_handle_command_line
  | |- keeps_sync (take_user_input _ _) => apply ks_take_user_input
  | |- keeps_sync (set_daemon _ _ _) => apply ks_set_daemon
  | |- keeps_sync (try_catch_std _ _) => apply ks_try_catch_std; [|intros ?]
  | |- keeps_sync (try_catch _ _) => apply ks_try_catch; [|intros ?]
  | |- keeps_sync (bind _ _) => apply ks_bind; [|intros ?]
  | |- keeps_sync (match ?x with _ => _ end) => destruct x
  | |- keeps_sync (fun w => let '(r, e) := _ in (r, with_engine e w)) =>
      apply ks_engine_step
  | |- keeps_sync (fun w => (_, w)) => apply ks_engine_peek
  | |- keeps_sync (fun w => emit _ (with_fs _ w)) => now apply ks_frame
  end.

Ltac ks := repeat ks_step.

Lemma ks_storeWallet f : keeps_sync (storeWallet f).
Proof.
  unfold storeWallet, system_error. ks.
Qed.

Lemma ks_saveWrapper f : keeps_sync (saveWrapper f).
Proof.
  unfold saveWrapper, openOutputFileStream, walletSaveWrapper, wallet_save,
    runtime_error, system_error.
  ks.
Qed.

Lemma ks_transferGui args : keeps_sync (transferGui args).
Proof. unfold transferGui. ks; apply ks_storeWallet. Qed.

Lemma ks_getBalance : keeps_sync getBalance.
Proof. unfold getBalance. ks. Qed.

Lemma ks_close_wallet : keeps_sync close_wallet.
Proof. unfold close_wallet. ks; apply ks_storeWallet. Qed.

Lemma ks_new_wallet f p : keeps_sync (new_wallet f p).
Proof. unfold new_wallet. ks; apply ks_storeWallet. Qed.

Lemma ks_tryToOpen f p : keeps_sync (tryToOpenWalletOrLoadKeysOrThrow f p).
Proof.
  unfold tryToOpenWalletOrLoadKeysOrThrow, store_imported, import_legacy_keys,
    initAndLoadWallet, runtime_error, rename_ec.
  ks; apply ks_storeWallet.
Qed.

Lemma ks_init vm console : keeps_sync (init vm console).
Proof.
  unfold init, init_wallet, writeAddressFile, daemon_defaults, daemon_address.
  ks; first [apply ks_new_wallet | apply ks_tryToOpen].
Qed.

Lemma ks_remove_retry n b p : keeps_sync (remove_retry n b p).
Proof.
  revert b; induction n as [|n IH]; intros b; cbn [remove_retry]; ks.
  apply IH.
Qed.

Lemma ks_save_helper_turn base : keeps_sync (save_helper_turn base).
Proof. unfold save_helper_turn. ks; apply ks_saveWrapper. Qed.

Lemma ks_tx_helper_turn base : keeps_sync (tx_helper_turn base).
Proof.
  unfold tx_helper_turn, transferWrapper.
  ks; first [apply ks_remove_retry | apply ks_transferGui].
Qed.

Lemma reset_clears_flag (w : World) : synchronized (snd (reset w)) = false.
Proof.
  unfold reset.
  assert (H : forall (m : M bool) w0, keeps_sync m ->
                synchronized (snd (bind (set_walletSynchronized false) (fun _ => m) w0)) = false).
  { intros m w0 Hm. unfold bind. cbn [set_walletSynchronized]. now rewrite Hm. }
  apply H. unfold initAndLoadWallet. ks.
Qed.

(** C3, as the code has it.  [synchronizationCompleted] sets the flag.
    [reset] clears it, whatever the engine answers, and so does every turn
    of the reset loop that finds a [.reset] request.  Every other operation
    of the daemon, a turn of the reset loop without a request among them,
    leaves the flag exactly as it found it, set or not; so a flag that is
    set stays set until the next reset. *)
Theorem synchronized_until_reset :
  (forall w, synchronized (snd (perform OpSynchronizationCompleted w)) = true)
  /\ (forall w, synchronized (snd (reset w)) = false)
  /\ (forall w, synchronized (snd (perform OpReset w)) = false)
  /\ (forall base w,
        is_Some (w_fs w !! (base +:+ ".reset")) ->
        synchronized (snd (perform (OpResetTurn base) w)) = false)
  /\ (forall base w,
        w_fs w !! (base +:+ ".reset") = None ->
        synchronized (snd (perform (OpResetTurn base) w)) = synchronized w)
  /\ (forall op w,
        is_reset op = false -> op <> OpSynchronizationCompleted ->
        synchronized (snd (perform op w)) = synchronized w).
Proof.
  split; [reflexivity|]. split; [exact reset_clears_flag|]. split; [|split; [|split]].
  - intros w. pose proof (reset_clears_flag w) as H. cbn [perform]. unfold bind, ret.
    destruct (reset w) as [[b|e] w1]; exact H.
  - intros base w [request Hrequest]. cbn [perform].
    unfold reset_helper_turn, resetWrapper. msimp.
    match goal with
    | |- context [reset ?W] =>
        pose proof (reset_clears_flag W) as H; destruct (reset W) as [[b|e] w1]
    end; exact H.
  - intros base w Hnone. cbn [perform]. unfold reset_helper_turn. msimp. reflexivity.
  - intros op w Hop Hne.
    assert (H : keeps_sync (perform op)).
    { destruct op; try discriminate Hop; try congruence; cbn [perform]; ks;
        first [ apply ks_init | apply ks_new_wallet | apply ks_close_wallet
              | apply ks_transferGui | apply ks_getBalance | apply ks_saveWrapper
              | apply ks_save_helper_turn | apply ks_tx_helper_turn
              | idtac ].
      unfold synchronizationProgressUpdated, refresh_progress_update. ks. }
    apply H.
Qed.

(** ** Transfers *)

(** C1. For every request, [transferGui] returns a string, and one of two
    things has happened.  Either the request parsed, the engine sent it and
    gave a transaction identifier other than the invalid one, the send
    completed without error, and the engine's save that followed completed
    without error: then the wallet file [m_wallet_file] holds exactly the
    bytes of that save, every other file is as before, and the string is the
    hash of the transaction the engine sent, read after the completion.  Or
    the transfer failed at one of its steps: then the string is the text of
    that failure and every file on disk, the wallet file among them, is as
    before the call.  In both cases the engine is left in the state its last
    call produced, and the calls made are the ones listed; in the first the
    world is the one in which [storeWallet] returned. *)
Theorem transferGui_persists_or_keeps_file (args : list string) (w : World) :
  exists r w',
    transferGui args w = (Returned r, w')
    /\ w_this w' = w_this w
    /\ ((exists cmd tx e1 ec e2 data ec' e3,
            parseArguments args = inr cmd
            /\ sendTransaction m_wallet (dsts cmd) (fee cmd) (extra cmd)
                                (fake_outs_count cmd) 0 (w_engine w)
               = (Returned tx, e1)
            /\ tx <> WALLET_LEGACY_INVALID_TRANSACTION_ID lib
            /\ sendTransactionCompleted m_wallet tx e1 = (Returned ec, e2)
            /\ is_error ec = false
            /\ save m_wallet true true e2 = ((data, Returned ec'), e3)
            /\ is_error ec' = false
            /\ r = podToHex lib (hash (getTransaction m_wallet tx e2))
            /\ storeWallet (m_wallet_file (w_this w))
                           (with_engine e2 (snd (emit (send_request cmd) w)))
               = (Returned tt, w')
            /\ w_fs w' = <[m_wallet_file (w_this w) := data]> (w_fs w)
            /\ w_fs w' !! m_wallet_file (w_this w) = Some data
            /\ w_engine w' = e3
            /\ w_events w' =
               w_events w ++
                 [send_request cmd; WalletSave true true;
                  FsWrite (m_wallet_file (w_this w)) data])
        \/ (exists calls,
               transfer_failure args w r (w_engine w') calls
               /\ w_events w' = w_events w ++ calls
               /\ w_fs w' = w_fs w)).
Proof.
  unfold transferGui, storeWallet.
  destruct (parseArguments args) as [err|cmd] eqn:Hparse; msimp.
  { do 2 eexists. split; [reflexivity|]. split; [reflexivity|]. right.
    exists []. cbn [w_engine w_events w_fs]. rewrite app_nil_r.
    split; [|split; reflexivity]. eapply failure_parse; eassumption. }
  fold (send_request cmd).
  destruct (sendTransaction m_wallet (dsts cmd) (fee cmd) (extra cmd)
              (fake_outs_count cmd) 0 (w_engine w)) as [[tx|ex] e1] eqn:Hsend;
    msimp.
  2:{ exists (what_of ex). destruct ex; (eexists; split; [reflexivity|]);
        (split; [reflexivity|]); right; exists [send_request cmd];
        cbn [w_engine w_events w_fs]; (split; [|split; reflexivity]);
        eapply failure_send_thrown; eassumption. }
  destruct (tx =? WALLET_LEGACY_INVALID_TRANSACTION_ID lib) eqn:Htx; msimp.
  { apply Z.eqb_eq in Htx. subst tx.
    do 2 eexists. split; [reflexivity|]. split; [reflexivity|]. right.
    exists [send_request cmd]. cbn [w_engine w_events w_fs].
    split; [|split; reflexivity]. eapply failure_refused; eassumption. }
  pose proof (proj1 (Z.eqb_neq _ _) Htx) as Hne.
  destruct (sendTransactionCompleted m_wallet tx e1) as [[ec|ex] e2] eqn:Hdone;
    msimp.
  2:{ exists (what_of ex). destruct ex; (eexists; split; [reflexivity|]);
        (split; [reflexivity|]); right; exists [send_request cmd];
        cbn [w_engine w_events w_fs]; (split; [|split; reflexivity]);
        eapply failure_completion_thrown; eassumption. }
  destruct (is_error ec) eqn:Hec; msimp.
  { do 2 eexists. split; [reflexivity|]. split; [reflexivity|]. right.
    exists [send_request cmd]. cbn [w_engine w_events w_fs].
    split; [|split; reflexivity]. eapply failure_completion; eassumption. }
  destruct (save m_wallet true true e2) as [[data [ec'|ex]] e3] eqn:Hsave; msimp.
  2:{ exists (what_of ex). destruct ex; (eexists; split; [reflexivity|]);
        (split; [reflexivity|]); right;
        exists [send_request cmd; WalletSave true true];
        cbn [w_engine w_events w_fs];
        (split; [|split; [now rewrite <- !app_assoc | reflexivity]]);
        eapply failure_store_thrown; eassumption. }
  destruct (is_error ec') eqn:Hec'; msimp.
  { do 2 eexists. split; [reflexivity|]. split; [reflexivity|]. right.
    exists [send_request cmd; WalletSave true true]. cbn [w_engine w_events w_fs].
    split; [|split; [now rewrite <- !app_assoc | reflexivity]].
    eapply failure_store; eassumption. }
  do 2 eexists. split; [reflexivity|]. split; [reflexivity|]. left.
  exists cmd, tx, e1, ec, e2, data, ec', e3. cbn [w_fs w_events w_engine].
  repeat split; try assumption.
  - msimp. reflexivity.
  - apply lookup_insert_eq.
  - now rewrite <- !app_assoc.
Qed.

(** ** Opening and recovering a wallet *)

(** C6. With no legacy key file: when the wallet file is there (or the
    file at the bare path has just been renamed into its place) and the
    engine reports an error loading it, the function throws "can't load
    wallet file '...', check password"; when neither the wallet file nor a
    file at the bare path exists, it throws "wallet file '...' is not
    found" and has changed nothing.  [init] turns either exception into
    its own failure. *)
Theorem tryToOpen_fatal_without_keys
    (walletFile password keys_file walletFileName : string) (w : World) :
  prepareFileNames lib walletFile = (keys_file, walletFileName) ->
  w_fs w !! keys_file = None ->
  (forall stream ec e',
      w_fs w !! walletFileName = Some stream
      \/ (w_fs w !! walletFileName = None /\ w_fs w !! walletFile = Some stream) ->
      initAndLoad m_wallet stream password (w_engine w) = (Returned ec, e') ->
      is_error ec = true ->
      fst (tryToOpenWalletOrLoadKeysOrThrow walletFile password w)
      = Thrown (StdException ("can't load wallet file '" +:+ walletFileName
                              +:+ "', check password")))
  /\ (w_fs w !! walletFileName = None ->
      w_fs w !! walletFile = None ->
      tryToOpenWalletOrLoadKeysOrThrow walletFile password w
      = (Thrown (StdException ("wallet file '" +:+ walletFileName
                               +:+ "' is not found")), w)).
Proof.
  intros Hnames Hkeys. split.
  - intros stream ec e' Hfile Hload Hec.
    unfold tryToOpenWalletOrLoadKeysOrThrow, initAndLoadWallet. rewrite Hnames.
    destruct Hfile as [Hw | [Hw Hbare]]; msimp.
    + now msimp.
    + rewrite lookup_insert_eq. msimp. now msimp.
  - intros Hw Hbare.
    unfold tryToOpenWalletOrLoadKeysOrThrow. rewrite Hnames. now msimp.
Qed.


(** ** Creating a wallet *)

Lemma init_wallet_refuses_address_file
    (walletFileName password : string) (w : World) :
  Str.is_empty (m_generate_new (w_this w)) = false ->
  is_Some (w_fs w !! prepareWalletAddressFilename (m_generate_new (w_this w))) ->
  exists w',
    init_wallet walletFileName password w = (Returned false, w')
    /\ w_fs w' = w_fs w /\ w_events w' = w_events w.
Proof.
  intros Hne [c Hc]. unfold init_wallet, set_pwd_arg. msimp. eauto.
Qed.

(** C9. When [init] is asked to generate a wallet and the wallet file
    already exists, [init] answers [false] at once: no file is written or
    changed and neither the node nor the engine is called.  When the address
    file next to it already exists, [init] fails as well and no file is
    written or changed; the engine is not asked to generate or save
    anything, at most the node has been contacted.  It fails by answering
    [false], except when a daemon address is given that does not parse: the
    exception of the parse leaves [init] before the address file is looked
    at. *)
Theorem init_refuses_existing_files
    (vm : ProgramOptions) (console : Console) (target : string) (w : World) :
  requested_new_wallet vm console = Some target ->
  (is_Some (w_fs w !! snd (prepareFileNames lib target)) ->
   exists w',
     init vm console w = (Returned false, w')
     /\ w_fs w' = w_fs w
     /\ w_engine w' = w_engine w
     /\ w_events w' = w_events w)
  /\ (is_Some (w_fs w !! prepareWalletAddressFilename target) ->
      exists o w',
        init vm console w = (o, w')
        /\ (o = Returned false
            \/ (o = Thrown fromString_failure
                /\ Str.is_empty (arg_daemon_address vm) = false
                /\ parseUrlAddress (arg_daemon_address vm) = None))
        /\ (Str.is_empty (arg_daemon_address vm) = true
            \/ is_Some (parseUrlAddress (arg_daemon_address vm)) ->
            o = Returned false)
        /\ w_fs w' = w_fs w
        /\ (w_events w' = w_events w \/ w_events w' = w_events w ++ [NodeInit])).
Proof.
  intros Hreq.
  assert (Hgen : forall w0 : World,
             m_generate_new (w_this w0) = target ->
             Str.is_empty (m_generate_new (w_this w0)) = false).
  { intros w0 ->. unfold requested_new_wallet in Hreq.
    destruct (Str.is_empty (arg_generate_new_wallet vm)) eqn:E; cbn [negb] in Hreq.
    - destruct (Str.is_empty (arg_wallet_file vm)); [|discriminate].
      destruct (console_choice console) as [[[|] userInput]|]; try discriminate.
      destruct (Str.is_empty userInput) eqn:E'; [discriminate|]. congruence.
    - congruence. }
  unfold requested_new_wallet in Hreq.
  unfold init, handle_command_line, take_user_input, daemon_defaults, daemon_address,
    set_daemon.
  split.
  - intros [c Hc]. msimp.
    destruct (negb (Str.is_empty (arg_daemon_address vm))
              && (negb (Str.is_empty (arg_daemon_host vm))
                  || negb (arg_daemon_port vm =? 0))); [solve [eauto]|].
    destruct (Str.is_empty (arg_generate_new_wallet vm)) eqn:Egen; msimp.
    + destruct (Str.is_empty (arg_wallet_file vm)) eqn:Hfile; [|discriminate].
      destruct (console_choice console) as [[[|] userInput]|]; try discriminate.
      destruct (Str.is_empty userInput) eqn:Hinput; [discriminate|].
      injection Hreq as <-. msimp. eauto.
    + injection Hreq as <-. msimp. eauto.
  - intros [c Hc].
    assert (Hrefuse : forall walletFileName password (w0 : World),
               m_generate_new (w_this w0) = target -> w_fs w0 = w_fs w ->
               exists w',
                 init_wallet walletFileName password w0 = (Returned false, w')
                 /\ w_fs w' = w_fs w0 /\ w_events w' = w_events w0).
    { intros n p w0 Ht Hfs.
      apply init_wallet_refuses_address_file; [now apply Hgen|].
      rewrite Ht, Hfs. eauto. }
    msimp.
    destruct (negb (Str.is_empty (arg_daemon_address vm))
              && (negb (Str.is_empty (arg_daemon_host vm))
                  || negb (arg_daemon_port vm =? 0))) eqn:Hconflict;
      [do 2 eexists; split; [reflexivity|]; solve [auto]|].
    destruct (Str.is_empty (arg_generate_new_wallet vm)) eqn:Egen; msimp.
    + destruct (Str.is_empty (arg_wallet_file vm)) eqn:Hfile; [|discriminate].
      destruct (console_choice console) as [[[|] userInput]|]; try discriminate.
      destruct (Str.is_empty userInput) eqn:Hinput; [discriminate|].
      injection Hreq as <-. msimp.
      destruct (w_fs w !! (prepareFileNames lib userInput).2) eqn:Hw; msimp;
        [do 2 eexists; split; [reflexivity|]; solve [auto]|].
      destruct (Str.is_empty (arg_daemon_address vm)) eqn:Haddr; msimp.
      * destruct (match arg_password vm with
                  | Some p => Some p
                  | None => console_password console
                  end); [|do 2 eexists; split; [reflexivity|]; solve [auto]].
        msimp. destruct (node_init m_wallet (w_engine w)) as [ec e'].
        destruct (is_error ec); msimp;
          [do 2 eexists; split; [reflexivity|]; solve [auto]|].
        match goal with
        | |- context [init_wallet ?n ?p ?w0] =>
            destruct (Hrefuse n p w0 eq_refl eq_refl) as (w' & -> & Hfs & Hev)
        end.
        do 2 eexists; split; [reflexivity|]. rewrite Hfs, Hev. cbn. auto.
      * destruct (parseUrlAddress (arg_daemon_address vm)) as [[host port]|] eqn:Hurl;
          msimp.
        2:{ do 2 eexists; split; [reflexivity|]. cbn.
            split; [right; auto|]. split; [|auto].
            intros [H|[x H]]; discriminate. }
        destruct (match arg_password vm with
                  | Some p => Some p
                  | None => console_password console
                  end); [|do 2 eexists; split; [reflexivity|]; solve [auto]].
        msimp. destruct (node_init m_wallet (w_engine w)) as [ec e'].
        destruct (is_error ec); msimp;
          [do 2 eexists; split; [reflexivity|]; solve [auto]|].
        match goal with
        | |- context [init_wallet ?n ?p ?w0] =>
            destruct (Hrefuse n p w0 eq_refl eq_refl) as (w' & -> & Hfs & Hev)
        end.
        do 2 eexists; split; [reflexivity|]. rewrite Hfs, Hev. cbn. auto.
    + injection Hreq as <-. msimp.
      destruct (w_fs w !! (prepareFileNames lib (arg_generate_new_wallet vm)).2)
        eqn:Hw; msimp; [do 2 eexists; split; [reflexivity|]; solve [auto]|].
      destruct (Str.is_empty (arg_daemon_address vm)) eqn:Haddr; msimp.
      * destruct (match arg_password vm with
                  | Some p => Some p
                  | None => console_password console
                  end); [|do 2 eexists; split; [reflexivity|]; solve [auto]].
        msimp. destruct (node_init m_wallet (w_engine w)) as [ec e'].
        destruct (is_error ec); msimp;
          [do 2 eexists; split; [reflexivity|]; solve [auto]|].
        match goal with
        | |- context [init_wallet ?n ?p ?w0] =>
            destruct (Hrefuse n p w0 eq_refl eq_refl) as (w' & -> & Hfs & Hev)
        end.
        do 2 eexists; split; [reflexivity|]. rewrite Hfs, Hev. cbn. auto.
      * destruct (parseUrlAddress (arg_daemon_address vm)) as [[host port]|] eqn:Hurl;
          msimp.
        2:{ do 2 eexists; split; [reflexivity|]. cbn.
            split; [right; auto|]. split; [|auto].
            intros [H|[x H]]; discriminate. }
        destruct (match arg_password vm with
                  | Some p => Some p
                  | None => console_password console
                  end); [|do 2 eexists; split; [reflexivity|]; solve [auto]].
        msimp. destruct (node_init m_wallet (w_engine w)) as [ec e'].
        destruct (is_error ec); msimp;
          [do 2 eexists; split; [reflexivity|]; solve [auto]|].
        match goal with
        | |- context [init_wallet ?n ?p ?w0] =>
            destruct (Hrefuse n p w0 eq_refl eq_refl) as (w' & -> & Hfs & Hev)
        end.
        do 2 eexists; split; [reflexivity|]. rewrite Hfs, Hev. cbn. auto.
Qed.


(** ** Malformed requests *)

Lemma parse_rest_p (value : string) (rest : list string) (cmd : TransferCommand) :
  parse_rest ("-p" :: value :: rest) cmd =
  match createTxExtraWithPaymentId lib value (extra cmd) with
  | None => inl (BadPaymentId value)
  | Some extra' =>
      parse_rest rest {| fake_outs_count := fake_outs_count cmd; dsts := dsts cmd;
                         extra := extra'; fee := fee cmd |}
  end.
Proof. reflexivity. Qed.

Lemma parse_rest_f (value : string) (rest : list string) (cmd : TransferCommand) :
  parse_rest ("-f" :: value :: rest) cmd =
  match parseAmount m_currency value with
  | None => inl (BadFee value)
  | Some f =>
      if f <? minimumFee m_currency then inl FeeBelowMinimum
      else parse_rest rest {| fake_outs_count := fake_outs_count cmd; dsts := dsts cmd;
                              extra := extra cmd; fee := f |}
  end.
Proof. reflexivity. Qed.



Lemma parse_rest_unfold (arg : string) (rest : list string) (cmd : TransferCommand) :
  parse_rest (arg :: rest) cmd =
  if Str.is_option arg then
    match rest with
    | [] => inl UnexpectedEnd
    | value :: rest' =>
        if String.eqb arg "-p" then
          match createTxExtraWithPaymentId lib value (extra cmd) with
          | None => inl (BadPaymentId value)
          | Some extra' =>
              parse_rest rest'
                {| fake_outs_count := fake_outs_count cmd; dsts := dsts cmd;
                   extra := extra'; fee := fee cmd |}
          end
        else if String.eqb arg "-f" then
          match parseAmount m_currency value with
          | None => inl (BadFee value)
          | Some f =>
              if f <? minimumFee m_currency then inl FeeBelowMinimum
              else parse_rest rest'
                     {| fake_outs_count := fake_outs_count cmd; dsts := dsts cmd;
                        extra := extra cmd; fee := f |}
          end
        else parse_rest rest' cmd
    end
  else if negb (parseAccountAddressString m_currency arg) then
    inl (if parsePaymentId lib arg then PaymentIdAsAddress else WrongAddress arg)
  else
    match rest with
    | [] => inl UnexpectedEnd
    | value :: rest' =>
        match parseAmount m_currency value with
        | None => inl (WrongAmount arg value)
        | Some a =>
            if to_uint64 a =? 0 then inl (WrongAmount arg value)
            else parse_rest rest'
                   {| fake_outs_count := fake_outs_count cmd;
                      dsts := dsts cmd ++ [{| address := arg; amount := to_int64 a |}];
                      extra := extra cmd; fee := fee cmd |}
        end
    end.
Proof. reflexivity. Qed.




(** ** What the loop operations leave alone *)

Lemma reset_keeps_files (w : World) : w_fs (snd (reset w)) = w_fs w.
Proof.
  unfold reset, initAndLoadWallet, set_walletSynchronized. mcases; reflexivity.
Qed.

(** [saveWrapper] writes under two names only: the wallet file and its
    temporary. *)
Lemma saveWrapper_keeps_other_files (base p : string) (w : World) :
  p <> base +:+ ".wallet" ->
  String.length p <> String.length ((base +:+ ".wallet") +:+ ".tmp.%%%%-%%%%") ->
  w_fs (snd (saveWrapper base w)) !! p = w_fs w !! p.
Proof.
  intros Hp Hlen.
  assert (Htmp : forall digits,
             p <> fst (fill_model ((base +:+ ".wallet") +:+ ".tmp.%%%%-%%%%") digits)).
  { intros digits H. apply Hlen. rewrite H. apply fill_model_length. }
  specialize (Htmp (w_random w)).
  pose proof (temp_neq_wallet (base +:+ ".wallet") (w_random w)) as Hne.
  unfold saveWrapper, openOutputFileStream, walletSaveWrapper, wallet_save.
  destruct (fill_model ((base +:+ ".wallet") +:+ ".tmp.%%%%-%%%%") (w_random w))
    as [tmp digits] eqn:Hfill.
  cbn [fst] in Htmp, Hne.
  mcases; reflexivity.
Qed.

(** ** Claiming a request *)

Lemma reset_turn_keeps_files (w : World) :
  w_fs (snd (try_catch (resetWrapper ;;; wait 60) (fun _ => wait 2) w)) = w_fs w.
Proof.
  pose proof (reset_keeps_files w) as H.
  unfold resetWrapper. mrun.
  destruct (reset w) as [[b|e] w1]; cbn [snd] in H; mrun; exact H.
Qed.

Lemma save_turn_keeps_other_files (base p : string) (w : World) :
  p <> base +:+ ".wallet" ->
  String.length p <> String.length ((base +:+ ".wallet") +:+ ".tmp.%%%%-%%%%") ->
  w_fs (snd (try_catch (saveWrapper base ;;; wait 10) (fun _ => wait 2) w)) !! p
  = w_fs w !! p.
Proof.
  intros Hp Hlen.
  pose proof (saveWrapper_keeps_other_files base p w Hp Hlen) as H.
  mrun. destruct (saveWrapper base w) as [[b|e] w1]; cbn [snd] in H; mrun; exact H.
Qed.

(** C4, as the code has it.  The reset loop and the save loop, on finding
    their request file, first rename it to the same name with [_]
    appended and then run their operation, in the world where the request
    is gone and the claimed file holds its content; the request is still
    gone when the turn ends, so the next turn does not see it.  The
    transaction loop does not rename: it reads the request, deletes it, and
    then submits the transfer and writes the result; no [_] file
    appears. *)
Theorem loops_claim_their_request (base : string) (w : World) :
  (forall content,
      w_fs w !! (base +:+ ".reset") = Some content ->
      exists w1,
        rename (base +:+ ".reset") ((base +:+ ".reset") +:+ "_") w = (Returned tt, w1)
        /\ w_fs w1 !! (base +:+ ".reset") = None
        /\ w_fs w1 !! ((base +:+ ".reset") +:+ "_") = Some content
        /\ reset_helper_turn base w
           = try_catch (resetWrapper ;;; wait 60) (fun _ => wait 2) w1
        /\ w_fs (snd (reset_helper_turn base w)) !! (base +:+ ".reset") = None)
  /\ (forall content,
      w_fs w !! (base +:+ ".save") = Some content ->
      exists w1,
        rename (base +:+ ".save") ((base +:+ ".save") +:+ "_") w = (Returned tt, w1)
        /\ w_fs w1 !! (base +:+ ".save") = None
        /\ w_fs w1 !! ((base +:+ ".save") +:+ "_") = Some content
        /\ save_helper_turn base w
           = try_catch (saveWrapper base ;;; wait 10) (fun _ => wait 2) w1
        /\ w_fs (snd (save_helper_turn base w)) !! (base +:+ ".save") = None)
  /\ (forall file,
      w_fs w !! (base +:+ ".txcast") = Some file ->
      exists w1,
        remove (base +:+ ".txcast") w = (Returned true, w1)
        /\ w_fs w1 !! (base +:+ ".txcast") = None
        /\ w_fs w1 !! ((base +:+ ".txcast") +:+ "_")
           = w_fs w !! ((base +:+ ".txcast") +:+ "_")
        /\ tx_helper_turn base w
           = (failed <- try_catch
                          ((result <- transferWrapper (request_args file) ;;
                            file_stream_txresult <- ofstream_open (base +:+ ".txresult") ;;
                            ofstream_write file_stream_txresult result) ;;;
                           ret false)
                          (fun _ => wait 1 ;;; ret true) ;;
              if failed then ret tt else wait 2) w1).
Proof.
  split; [|split].
  - intros content Hfile. eexists. split.
    { unfold rename. rewrite Hfile. reflexivity. }
    cbn [emit fst snd w_fs with_fs ret bind].
    assert (Hgone : <[(base +:+ ".reset") +:+ "_" := content]>
                      (delete (base +:+ ".reset") (w_fs w)) !! (base +:+ ".reset") = None).
    { rewrite lookup_insert_ne by (symmetry; apply claimed_neq).
      apply lookup_delete_eq. }
    assert (Hturn : reset_helper_turn base w
                    = try_catch (resetWrapper ;;; wait 60) (fun _ => wait 2)
                        {| w_fs := <[(base +:+ ".reset") +:+ "_" := content]>
                                     (delete (base +:+ ".reset") (w_fs w));
                           w_unwritable := w_unwritable w; w_random := w_random w;
                           w_engine := w_engine w; w_this := w_this w;
                           w_events := w_events w ++
                             [FsRename (base +:+ ".reset") ((base +:+ ".reset") +:+ "_")] |}).
    { unfold reset_helper_turn. msimp. reflexivity. }
    split; [exact Hgone|]. split; [apply lookup_insert_eq|]. split; [exact Hturn|].
    rewrite Hturn, reset_turn_keeps_files. exact Hgone.
  - intros content Hfile. eexists. split.
    { unfold rename. rewrite Hfile. reflexivity. }
    cbn [emit fst snd w_fs with_fs ret bind].
    assert (Hgone : <[(base +:+ ".save") +:+ "_" := content]>
                      (delete (base +:+ ".save") (w_fs w)) !! (base +:+ ".save") = None).
    { rewrite lookup_insert_ne by (symmetry; apply claimed_neq).
      apply lookup_delete_eq. }
    assert (Hturn : save_helper_turn base w
                    = try_catch (saveWrapper base ;;; wait 10) (fun _ => wait 2)
                        {| w_fs := <[(base +:+ ".save") +:+ "_" := content]>
                                     (delete (base +:+ ".save") (w_fs w));
                           w_unwritable := w_unwritable w; w_random := w_random w;
                           w_engine := w_engine w; w_this := w_this w;
                           w_events := w_events w ++
                             [FsRename (base +:+ ".save") ((base +:+ ".save") +:+ "_")] |}).
    { unfold save_helper_turn. msimp. reflexivity. }
    split; [exact Hgone|]. split; [apply lookup_insert_eq|]. split; [exact Hturn|].
    rewrite Hturn, save_turn_keeps_other_files; [exact Hgone| |].
    + intros H. apply append_inv_head in H. discriminate.
    + rewrite !append_length. simpl. lia.
  - intros file Hfile. eexists. split.
    { unfold remove. rewrite Hfile. reflexivity. }
    cbn [emit fst snd w_fs with_fs ret bind].
    split; [|split].
    + apply lookup_delete_eq.
    + apply lookup_delete_ne, claimed_neq.
    + unfold tx_helper_turn. msimp.
      cbn [default from_option id remove_retry]. msimp. reflexivity.
Qed.

(** ** The save path *)

(** X18. What the save path does achieve.  When the stream on the wallet file
    opens, the temporary name is free and the engine throws nothing foreign
    to [std::exception], [saveWrapper] ends in one of two states: it answers
    [true] and the wallet file holds exactly the bytes of a save the engine
    reported complete, or it answers [false] and the wallet file is as it
    was before; the temporary is gone either way. *)
Lemma saveWrapper_replaces_or_restores (base : string) (w : World) :
  let walletFilename := base +:+ ".wallet" in
  let tempFile := fst (fill_model (walletFilename +:+ ".tmp.%%%%-%%%%") (w_random w)) in
  synchronized w = true ->
  walletFilename ∉ w_unwritable w ->
  w_fs w !! tempFile = None ->
  (forall data e', save m_wallet true true (w_engine w) <> ((data, Thrown OtherException), e')) ->
  exists b w',
    saveWrapper base w = (Returned b, w')
    /\ w_fs w' !! tempFile = None
    /\ (if b
        then exists data ec e',
            save m_wallet true true (w_engine w) = ((data, Returned ec), e')
            /\ is_error ec = false
            /\ w_fs w' !! walletFilename = Some data
        else w_fs w' !! walletFilename = w_fs w !! walletFilename).
Proof.
  intros walletFilename tempFile Hsync Hopen Hfresh Hstd.
  assert (Hne : tempFile <> walletFilename) by apply temp_neq_wallet.
  assert (Hopen' : bool_decide (walletFilename ∈ w_unwritable w) = false)
    by now apply bool_decide_eq_false.
  unfold synchronized in Hsync.
  unfold saveWrapper, openOutputFileStream, walletSaveWrapper, wallet_save.
  fold walletFilename.
  destruct (fill_model (walletFilename +:+ ".tmp.%%%%-%%%%") (w_random w))
    as [tmp digits] eqn:Hfill.
  cbn [fst] in tempFile. subst tempFile.
  destruct (save m_wallet true true (w_engine w)) as [[data o] e'] eqn:Hsave.
  destruct o as [ec|[what|]];
    [destruct (is_error ec) eqn:Hec | | now destruct (Hstd data e')];
    (destruct (w_fs w !! walletFilename) as [old|] eqn:Hold);
    repeat (msimp; fs_simp; change (is_error invalid_argument) with true);
    (do 2 eexists; split; [reflexivity|]); cbn [w_fs]; fs_simp;
    (split; [first [reflexivity | assumption]|]);
    first [reflexivity | exists data, ec, e'; auto].
Qed.

(** C10. While the wallet has not reached synchronization, [saveWrapper]
    answers [false] at once and changes nothing at all; a turn of the save
    loop that finds a [.save] request then only claims the request: the
    engine is not asked to save, and every other path, the wallet file and
    any temporary of it among them, keeps its content. *)
Theorem saveWrapper_before_sync (base : string) (w : World) :
  m_walletSynchronized (w_this w) = false ->
  saveWrapper base w = (Returned false, w)
  /\ (forall p, p <> base +:+ ".save" -> p <> (base +:+ ".save") +:+ "_" ->
       w_fs (snd (save_helper_turn base w)) !! p = w_fs w !! p)
  /\ w_fs (snd (save_helper_turn base w)) !! (base +:+ ".wallet")
     = w_fs w !! (base +:+ ".wallet")
  /\ (forall digits,
       let tempFile := fst (fill_model ((base +:+ ".wallet") +:+ ".tmp.%%%%-%%%%") digits) in
       w_fs (snd (save_helper_turn base w)) !! tempFile = w_fs w !! tempFile)
  /\ w_engine (snd (save_helper_turn base w)) = w_engine w
  /\ w_events (snd (save_helper_turn base w))
     = (w_events w ++ match w_fs w !! (base +:+ ".save") with
                      | Some _ => [FsRename (base +:+ ".save") ((base +:+ ".save") +:+ "_");
                                   Sleep 10]
                      | None => [Sleep 5]
                      end)%list.
Proof.
  intros Hsync.
  assert (Hsave : forall w0 : World,
             m_walletSynchronized (w_this w0) = false ->
             saveWrapper base w0 = (Returned false, w0)).
  { intros w0 H0. unfold saveWrapper. now msimp. }
  assert (Hturn : save_helper_turn base w =
            match w_fs w !! (base +:+ ".save") with
            | Some c =>
                (Returned tt,
                 {| w_fs := <[(base +:+ ".save") +:+ "_" := c]>
                              (delete (base +:+ ".save") (w_fs w));
                    w_unwritable := w_unwritable w; w_random := w_random w;
                    w_engine := w_engine w; w_this := w_this w;
                    w_events := (w_events w ++
                       [FsRename (base +:+ ".save") ((base +:+ ".save") +:+ "_")])
                       ++ [Sleep 10] |})
            | None =>
                (Returned tt,
                 {| w_fs := w_fs w;
                    w_unwritable := w_unwritable w; w_random := w_random w;
                    w_engine := w_engine w; w_this := w_this w;
                    w_events := w_events w ++ [Sleep 5] |})
            end).
  { unfold save_helper_turn. mrun.
    destruct (w_fs w !! (base +:+ ".save")) as [c|] eqn:E; msimp; [|reflexivity].
    rewrite Hsave by exact Hsync. reflexivity. }
  assert (Hother : forall p, p <> base +:+ ".save" -> p <> (base +:+ ".save") +:+ "_" ->
             w_fs (snd (save_helper_turn base w)) !! p = w_fs w !! p).
  { intros p Hp Hp'. rewrite Hturn.
    destruct (w_fs w !! (base +:+ ".save")) as [c|] eqn:E; mrun; [|reflexivity].
    rewrite lookup_insert_ne by congruence. now rewrite lookup_delete_ne by congruence. }
  split; [now apply Hsave|]. split; [exact Hother|].
  split; [|split; [|split]].
  - apply Hother.
    + intros H. apply append_inv_head in H. discriminate.
    + rewrite append_assoc. intros H. apply append_inv_head in H. discriminate.
  - intros digits tempFile. apply Hother; intros H;
      apply (f_equal String.length) in H; subst tempFile;
      rewrite fill_model_length, !append_length in H; simpl in H; lia.
  - rewrite Hturn. now destruct (w_fs w !! (base +:+ ".save")).
  - rewrite Hturn. destruct (w_fs w !! (base +:+ ".save")); mrun; [|reflexivity].
    now rewrite <- app_assoc.
Qed.

(** * More properties of the daemon *)

(** ** Requests that parse *)

(** X1. A request with a numeric mixin, an address the currency accepts and
    that does not begin with [-], an amount other than zero, and, when they
    are given, a well-formed payment id and a fee not below the minimum, is
    accepted: one destination with that address, the given fee or else the
    minimum fee, the payment id's extra or else none.  The amount of the
    destination is the amount read, as a signed 64-bit number: the one read
    below 2^63, and a negative one from there on. *)
Theorem parseArguments_accepts
    (mixin addr amt paymentId feeText extra' : string) (n a f : Z) :
  fromString_size_t lib mixin = Some n ->
  Str.is_option addr = false ->
  parseAccountAddressString m_currency addr = true ->
  parseAmount m_currency amt = Some a ->
  0 < a < 2 ^ 64 ->
  (Str.is_empty paymentId = false ->
   createTxExtraWithPaymentId lib paymentId "" = Some extra') ->
  (Str.is_empty feeText = false ->
   parseAmount m_currency feeText = Some f /\ minimumFee m_currency <= f) ->
  parseArguments (wire_args mixin addr amt paymentId feeText)
  = inr {| fake_outs_count := n;
           dsts := [{| address := addr;
                       amount := if a <? 2 ^ 63 then a else a - 2 ^ 64 |}];
           extra := if Str.is_empty paymentId then "" else extra';
           fee := if Str.is_empty feeText then minimumFee m_currency else f |}.
Proof.
  intros Hmixin Hopt Haddr Hamt Hrange Hpid Hfee.
  assert (Hu : to_uint64 a = a) by (unfold to_uint64; apply Z.mod_small; lia).
  assert (Hi : to_int64 a = if a <? 2 ^ 63 then a else a - 2 ^ 64).
  { unfold to_int64. fold (to_uint64 a). now rewrite Hu. }
  unfold wire_args, option_args. cbn [app parseArguments]. rewrite Hmixin.
  rewrite parse_rest_unfold, Hopt, Haddr, Hamt, Hu, Hi. cbn [negb].
  replace (a =? 0) with false by (symmetry; apply Z.eqb_neq; lia).
  cbn [TransferCommand_init dsts extra fee fake_outs_count app].
  destruct (Str.is_empty paymentId) eqn:Ep, (Str.is_empty feeText) eqn:Ef;
    cbn [app]; rewrite ?parse_rest_p, ?parse_rest_f;
    cbn [dsts extra fee fake_outs_count].
  - reflexivity.
  - destruct (Hfee eq_refl) as [-> Hmin]. apply Z.ltb_ge in Hmin. rewrite Hmin.
    reflexivity.
  - rewrite (Hpid eq_refl). reflexivity.
  - rewrite (Hpid eq_refl), parse_rest_f. cbn [dsts extra fee fake_outs_count].
    destruct (Hfee eq_refl) as [-> Hmin]. apply Z.ltb_ge in Hmin. rewrite Hmin.
    reflexivity.
Qed.

Lemma to_int64_nonzero (a : Z) : to_uint64 a <> 0 -> to_int64 a <> 0.
Proof.
  unfold to_uint64, to_int64. intros H.
  pose proof (Z.mod_pos_bound a (2 ^ 64) ltac:(lia)) as Hb.
  destruct (a mod 2 ^ 64 <? 2 ^ 63); lia.
Qed.

(** What [parse_rest] keeps true of the command it builds. *)
Definition well_formed (cmd : TransferCommand) : Prop :=
  minimumFee m_currency <= fee cmd
  /\ Forall (fun d => amount d <> 0
                      /\ parseAccountAddressString m_currency (address d) = true
                      /\ Str.is_option (address d) = false)
            (dsts cmd).

Lemma parse_rest_well_formed (args : list string) :
  forall cmd cmd',
    well_formed cmd ->
    parse_rest args cmd = inr cmd' ->
    well_formed cmd' /\ dsts cmd' <> []
    /\ fake_outs_count cmd' = fake_outs_count cmd.
Proof.
  induction args as [args IH] using (well_founded_induction
                                      (Wf_nat.well_founded_ltof _ (@List.length string))).
  intros cmd cmd' Hwf. destruct args as [|arg rest].
  - cbn [parse_rest]. destruct (dsts cmd) eqn:Hd; [discriminate|].
    intros [= <-]. split; [exact Hwf|]. split; [|reflexivity].
    rewrite Hd. discriminate.
  - rewrite parse_rest_unfold.
    assert (Hrec : forall rest' c,
               (List.length rest' < List.length (arg :: rest))%nat ->
               well_formed c -> parse_rest rest' c = inr cmd' ->
               well_formed cmd' /\ dsts cmd' <> []
               /\ fake_outs_count cmd' = fake_outs_count c).
    { intros rest' c Hlt. apply IH. exact Hlt. }
    destruct (Str.is_option arg) eqn:Hopt.
    + destruct rest as [|value rest']; [discriminate|].
      destruct (String.eqb arg "-p").
      { destruct (createTxExtraWithPaymentId lib value (extra cmd)); [|discriminate].
        intros H. eapply Hrec in H; [exact H | cbn; lia | exact Hwf]. }
      destruct (String.eqb arg "-f").
      { destruct (parseAmount m_currency value) as [f|]; [|discriminate].
        destruct (f <? minimumFee m_currency) eqn:Hf; [discriminate|].
        intros H. eapply Hrec in H; [exact H | cbn; lia |].
        split; [cbn; now apply Z.ltb_ge | apply Hwf]. }
      intros H. eapply Hrec in H; [exact H | cbn; lia | exact Hwf].
    + destruct (parseAccountAddressString m_currency arg) eqn:Haddr;
        cbn [negb]; [|discriminate].
      destruct rest as [|value rest']; [discriminate|].
      destruct (parseAmount m_currency value) as [a|]; [|discriminate].
      destruct (to_uint64 a =? 0) eqn:Ha; [discriminate|].
      intros H. eapply Hrec in H; [exact H | cbn; lia |].
      split; [apply Hwf|]. cbn [dsts]. apply Forall_app. split; [apply Hwf|].
      constructor; [|constructor]. cbn [address amount]. repeat split; try assumption.
      apply to_int64_nonzero. now apply Z.eqb_neq.
Qed.

(** X2. Whatever [parseArguments] accepts has at least one destination,
    no destination with amount zero or with an address the currency
    refuses, a fee not below the minimum fee, and the mixin that
    [fromString] read from the first argument. *)
Theorem parseArguments_result_well_formed (args : list string) (cmd : TransferCommand) :
  parseArguments args = inr cmd ->
  dsts cmd <> []
  /\ Forall (fun d => amount d <> 0
                      /\ parseAccountAddressString m_currency (address d) = true)
            (dsts cmd)
  /\ minimumFee m_currency <= fee cmd
  /\ exists mixin rest,
      args = mixin :: rest /\ fromString_size_t lib mixin = Some (fake_outs_count cmd).
Proof.
  destruct args as [|mixin rest]; [discriminate|]. cbn [parseArguments].
  destruct (fromString_size_t lib mixin) as [n|] eqn:Hmixin; [|discriminate].
  intros H. apply parse_rest_well_formed in H.
  - destruct H as ((Hfee & Hall) & Hne & Hcount).
    split; [exact Hne|]. split.
    + eapply Forall_impl; [exact Hall|]. intros d Hd. split; apply Hd.
    + split; [exact Hfee|]. exists mixin, rest. split; [reflexivity|].
      now rewrite Hcount.
  - split; [cbn; lia | constructor].
Qed.

(** ** Request files *)

Lemma extract_words_word (s cur content : string) :
  no_space s = true ->
  extract_words s cur content = if Str.is_empty (cur +:+ s) then content else cur +:+ s.
Proof.
  revert cur; induction s as [|c s IH]; intros cur Hs.
  - rewrite append_nil_r. reflexivity.
  - unfold no_space in Hs. cbn [Str.all] in Hs. apply andb_prop in Hs as [Hc Hs].
    apply negb_true_iff in Hc. cbn [extract_words]. rewrite Hc.
    rewrite IH by exact Hs. rewrite append_assoc, append_cons, append_nil.
    reflexivity.
Qed.

Lemma extract_words_restart (before : string) (sep : ascii) (s : string) :
  Str.isspace sep = true ->
  forall cur content,
    exists content',
      extract_words (before +:+ String sep s) cur content = extract_words s "" content'.
Proof.
  intros Hsep. induction before as [|c before IH]; intros cur content.
  - rewrite append_nil. cbn [extract_words]. rewrite Hsep. eauto.
  - rewrite append_cons. cbn [extract_words]. destruct (Str.isspace c); apply IH.
Qed.

(** X3. Only the last word of a request file is processed: whatever
    precedes the last whitespace of the file, earlier lines included, has
    no part in the argument list, whether or not the last line ends with
    a line break. *)
Theorem request_args_last_word (before : string) (sep : ascii) (line : string) :
  Str.isspace sep = true ->
  no_space line = true ->
  Str.is_empty line = false ->
  request_args (before +:+ String sep line) = split_fields line 0 []
  /\ request_args (before +:+ String sep (line +:+ Str.newline)) = split_fields line 0 [].
Proof.
  intros Hsep Hline Hne. unfold request_args, read_content. split.
  - destruct (extract_words_restart before sep line Hsep "" "") as [content' ->].
    rewrite extract_words_word by exact Hline. rewrite append_nil. now rewrite Hne.
  - destruct (extract_words_restart before sep (line +:+ Str.newline) Hsep "" "")
      as [content' ->].
    rewrite extract_words_line by exact Hline. rewrite append_nil. now rewrite Hne.
Qed.

Lemma push_token_ignored (idx : Z) (token : string) (args : list string) :
  5 <= idx -> push_token idx token args = args.
Proof.
  intros H. destruct idx as [|p|p]; [lia| |reflexivity].
  destruct p as [[[|q|]|[|q|]|]|[[|q|]|[|q|]|]|]; try lia; reflexivity.
Qed.

Lemma split_fields_ignored (more : list string) (rest : string) (args : list string) :
  Forall (fun f => is_field f = true) more ->
  forall idx,
    5 <= idx -> idx + Z.of_nat (List.length more) <= 256 ->
    split_fields (terminated more +:+ rest) (idx mod 256) args
    = split_fields rest ((idx + Z.of_nat (List.length more)) mod 256) args.
Proof.
  induction 1 as [|f more Hf _ IH]; intros idx Hlo Hhi.
  - cbn [terminated fold_right List.length]. rewrite append_nil.
    now rewrite Z.add_0_r.
  - cbn [terminated fold_right] in *. cbn [List.length] in *.
    rewrite !append_assoc, delim_app, split_fields_field by exact Hf.
    rewrite (Z.mod_small idx 256) by lia. rewrite push_token_ignored by exact Hlo.
    change (fold_right (fun f s => f +:+ "|" +:+ s) "" more) with (terminated more).
    rewrite IH by lia. f_equal. f_equal. lia.
Qed.

Lemma no_space_terminated (more : list string) :
  Forall (fun f => is_field f = true) more -> no_space (terminated more) = true.
Proof.
  induction 1 as [|f more Hf _ IH]; [reflexivity|].
  cbn [terminated fold_right]. apply no_space_app; [now apply is_field_no_space|].
  rewrite delim_app. now apply no_space_delim.
Qed.

(** X4. Fields after the fifth are not passed, up to the field counter's
    range: the counter is a [uint8_t], so the 257th field of a line is
    taken for a first field again and is appended to the arguments. *)
Theorem request_args_ignores_more_fields
    (mixin addr amt paymentId feeText : string) (more : list string)
    (again rest : string) :
  is_field mixin = true -> is_field addr = true -> is_field amt = true ->
  is_field paymentId = true -> is_field feeText = true ->
  Forall (fun f => is_field f = true) more ->
  is_field again = true -> is_field rest = true ->
  (Z.of_nat (List.length more) <= 251 ->
   request_args ((mixin +:+ "|" +:+ addr +:+ "|" +:+ amt +:+ "|" +:+ paymentId
                  +:+ "|" +:+ feeText +:+ "|" +:+ terminated more +:+ rest)
                 +:+ Str.newline)
   = wire_args mixin addr amt paymentId feeText)
  /\ (Z.of_nat (List.length more) = 251 ->
      request_args ((mixin +:+ "|" +:+ addr +:+ "|" +:+ amt +:+ "|" +:+ paymentId
                     +:+ "|" +:+ feeText +:+ "|" +:+ terminated more
                     +:+ again +:+ "|" +:+ rest)
                    +:+ Str.newline)
      = wire_args mixin addr amt paymentId feeText ++ [again]).
Proof.
  intros Hm Ha Hamt Hp Hf Hmore Hagain Hr.
  assert (Hargs : push_token 4 feeText
                    (push_token 3 paymentId
                       (push_token 2 amt (push_token 1 addr (push_token 0 mixin []))))
                  = wire_args mixin addr amt paymentId feeText).
  { unfold wire_args, option_args. cbn [push_token app].
    destruct (Str.is_empty paymentId), (Str.is_empty feeText); reflexivity. }
  unfold request_args. rewrite !delim_app. split; intros Hlen.
  - rewrite read_content_line.
    2:{ repeat (apply no_space_app; [now apply is_field_no_space|];
                apply no_space_delim).
        apply no_space_app; [now apply no_space_terminated|].
        now apply is_field_no_space. }
    rewrite !split_fields_field by assumption.
    change ((0 + 1) mod 256) with 1; change ((1 + 1) mod 256) with 2;
      change ((2 + 1) mod 256) with 3; change ((3 + 1) mod 256) with 4.
    rewrite Hargs.
    etransitivity; [apply (split_fields_ignored more rest _ Hmore 5); lia|].
    now apply split_fields_rest.
  - rewrite read_content_line.
    2:{ repeat (apply no_space_app; [now apply is_field_no_space|];
                apply no_space_delim).
        apply no_space_app; [now apply no_space_terminated|].
        apply no_space_app; [now apply is_field_no_space|].
        apply no_space_delim. now apply is_field_no_space. }
    rewrite !split_fields_field by assumption.
    change ((0 + 1) mod 256) with 1; change ((1 + 1) mod 256) with 2;
      change ((2 + 1) mod 256) with 3; change ((3 + 1) mod 256) with 4.
    rewrite Hargs.
    etransitivity; [apply (split_fields_ignored more _ _ Hmore 5); lia|].
    rewrite Hlen. change ((5 + 251) mod 256) with 0.
    rewrite split_fields_field by exact Hagain.
    rewrite split_fields_rest by exact Hr. reflexivity.
Qed.

(** ** Balance and address file *)

(** X5. [getBalance] only reads: it never throws and leaves the world as
    it was.  Before synchronization it answers the empty string without
    asking the engine; afterwards it answers the two formatted balances
    with [|] between them, or the empty string when the engine throws on
    either. *)
Theorem getBalance_reads_only (w : World) :
  exists s,
    getBalance w = (Returned s, w)
    /\ (synchronized w = false -> s = "")
    /\ (synchronized w = true ->
        forall a p,
          actualBalance m_wallet (w_engine w) = Returned a ->
          pendingBalance m_wallet (w_engine w) = Returned p ->
          s = formatAmount m_currency a +:+ "|" +:+ formatAmount m_currency p)
    /\ (synchronized w = true ->
        (exists ex, actualBalance m_wallet (w_engine w) = Thrown ex)
        \/ (exists ex, pendingBalance m_wallet (w_engine w) = Thrown ex) ->
        s = "").
Proof.
  unfold getBalance, synchronized. mrun.
  destruct (m_walletSynchronized (w_this w)); cbn [negb].
  - destruct (actualBalance m_wallet (w_engine w)) as [a|ea] eqn:Ha;
      [destruct (pendingBalance m_wallet (w_engine w)) as [p|ep] eqn:Hp|];
      (eexists; split; [reflexivity|]);
      (split; [discriminate|]); split; intros _.
    + intros a' p' [= <-] [= <-]. reflexivity.
    + intros [[ex H]|[ex H]]; discriminate.
    + intros a' p' _ H. discriminate.
    + reflexivity.
    + intros a' p' H. discriminate.
    + reflexivity.
  - eexists; split; [reflexivity|]. split; [reflexivity|].
    split; discriminate.
Qed.

(** X6. [writeAddressFile] answers [true] and leaves exactly the address
    in the file when the file opens for output; when it does not, it
    answers [false] and changes nothing. *)
Theorem writeAddressFile_outcome (addressFilename addr : string) (w : World) :
  (addressFilename ∉ w_unwritable w ->
   exists w',
     writeAddressFile addressFilename addr w = (Returned true, w')
     /\ w_fs w' = <[addressFilename := addr]> (w_fs w))
  /\ (addressFilename ∈ w_unwritable w ->
      writeAddressFile addressFilename addr w = (Returned false, w)).
Proof.
  unfold writeAddressFile. split; intros H.
  - assert (Hopen : bool_decide (addressFilename ∈ w_unwritable w) = false)
      by now apply bool_decide_eq_false.
    msimp. rewrite ?Hopen. msimp. fs_simp. msimp.
    eexists; split; [reflexivity|]. cbn [w_fs]. rewrite append_nil.
    apply insert_insert_eq.
  - assert (Hopen : bool_decide (addressFilename ∈ w_unwritable w) = true)
      by now apply bool_decide_eq_true.
    msimp. rewrite ?Hopen. msimp. reflexivity.
Qed.

(** X7. Before its loop, [gui_helper] writes the wallet's address to the
    [.address] file only when there is no such file: an existing address
    file is never rewritten, and a missing one is created with exactly the
    engine's address. *)
Theorem gui_helper_start_address_file (base : string) (w : World) :
  (is_Some (w_fs w !! (base +:+ ".address")) ->
   gui_helper_start base w = (Returned tt, w))
  /\ (w_fs w !! (base +:+ ".address") = None ->
      base +:+ ".address" ∉ w_unwritable w ->
      exists w',
        gui_helper_start base w = (Returned tt, w')
        /\ w_fs w' = <[base +:+ ".address" := getAddress m_wallet (w_engine w)]> (w_fs w)
        /\ w_engine w' = w_engine w).
Proof.
  unfold gui_helper_start, writeAddressFile. split.
  - intros [old Hold]. msimp. reflexivity.
  - intros Hnone H.
    assert (Hopen : bool_decide (base +:+ ".address" ∈ w_unwritable w) = false)
      by now apply bool_decide_eq_false.
    msimp. rewrite ?Hopen. msimp. fs_simp. msimp.
    eexists; split; [reflexivity|]. cbn [w_fs w_engine]. rewrite append_nil.
    split; [apply insert_insert_eq | reflexivity].
Qed.

(** ** Reset *)

(** X8. [reset] reloads the wallet from the bytes the engine has just
    saved, with the stored password, after shutting the engine down; when
    the save reports an error it does neither.  Either way it answers
    [true]: the error of the save and the answer of the reload are not
    reported.  No file is touched. *)
Theorem reset_reloads_what_it_saved (w : World) (data : string) (ec : error_code)
    (e1 : Engine) :
  save m_wallet false false (w_engine w) = ((data, Returned ec), e1) ->
  w_fs (snd (reset w)) = w_fs w
  /\ synchronized (snd (reset w)) = false
  /\ (is_error ec = true ->
      fst (reset w) = Returned true
      /\ w_engine (snd (reset w)) = e1
      /\ w_events (snd (reset w)) = w_events w ++ [WalletSave false false])
  /\ (is_error ec = false ->
      forall e2 ec' e3,
        shutdown m_wallet e1 = (Returned tt, e2) ->
        initAndLoad m_wallet data (m_pwd_arg (w_this w)) e2 = (Returned ec', e3) ->
        fst (reset w) = Returned true
        /\ w_engine (snd (reset w)) = e3
        /\ w_events (snd (reset w))
           = w_events w ++ [WalletSave false false; WalletShutdown;
                            WalletInitAndLoad data (m_pwd_arg (w_this w))]).
Proof.
  intros Hsave. split; [apply reset_keeps_files|].
  unfold reset, initAndLoadWallet, set_walletSynchronized, synchronized.
  split; [|split].
  - mcases; reflexivity.
  - intros Hec. msimp. repeat split.
  - intros Hec e2 ec' e3 Hshut Hload. msimp. repeat split.
    now rewrite <- !app_assoc.
Qed.

(** ** The polling loops *)

Lemma try_catch_returns {A} (m : M A) (h : exn -> M A) :
  (forall ex w, exists a w', h ex w = (Returned a, w')) ->
  forall w, exists a w', try_catch m h w = (Returned a, w').
Proof.
  intros Hh w. unfold try_catch. destruct (m w) as [[a|ex] w1]; eauto.
Qed.

(** X9. No exception of the filesystem or of the engine leaves a turn of
    a polling loop: whatever is thrown inside it, the turn of the reset,
    save, transaction and export loops ends normally, so the loop goes on.
    (The interruption of the thread, by which the loops are stopped, is
    outside this model.) *)
Theorem loop_turns_never_throw (base : string) (w : World) :
  (exists w', reset_helper_turn base w = (Returned tt, w'))
  /\ (exists w', save_helper_turn base w = (Returned tt, w'))
  /\ (exists w', tx_helper_turn base w = (Returned tt, w'))
  /\ (forall st, exists st' w', gui_helper_turn base st w = (Returned st', w')).
Proof.
  assert (Hwait : forall k (ex : exn) w0, exists a w', wait k w0 = (Returned a, w')).
  { intros k ex w0. unfold wait, emit. eauto. }
  assert (Hwait' : forall A k (a : A) (ex : exn) w0,
             exists a' w', (wait k ;;; ret a) w0 = (Returned a', w')).
  { intros A k a ex w0. unfold wait, emit, bind, ret. eauto. }
  split; [|split; [|split]].
  - unfold reset_helper_turn.
    match goal with
    | |- exists w', try_catch ?m ?h w = _ =>
        destruct (try_catch_returns m h (Hwait 2) w) as ([] & w' & ->)
    end. eauto.
  - unfold save_helper_turn.
    match goal with
    | |- exists w', try_catch ?m ?h w = _ =>
        destruct (try_catch_returns m h (Hwait 2) w) as ([] & w' & ->)
    end. eauto.
  - unfold tx_helper_turn.
    match goal with
    | |- exists w', bind (try_catch ?m ?h) ?k w = _ =>
        destruct (try_catch_returns m h (Hwait' bool 1 true) w) as (failed & w' & H);
          unfold bind at 1; rewrite H
    end.
    destruct failed; unfold wait, emit, ret; eauto.
  - intros st. unfold gui_helper_turn.
    match goal with
    | |- exists st' w', bind (try_catch ?m ?h) ?k w = _ =>
        destruct (try_catch_returns m h (Hwait' _ 2 None) w) as (first & w1 & H);
          unfold bind at 1; rewrite H
    end.
    destruct first as [st1|]; [|unfold ret; eauto].
    match goal with
    | |- exists st' w', bind (try_catch ?m ?h) ?k w1 = _ =>
        destruct (try_catch_returns m h (Hwait' _ 2 None) w1) as (second & w2 & H2);
          unfold bind at 1; rewrite H2
    end.
    destruct second as [[st2 []]|]; unfold wait, emit, bind, ret; eauto.
Qed.

(** X10. A turn that finds no request does nothing but sleep: five seconds
    in the reset and save loops, two in the transaction loop. *)
Theorem idle_turns_only_sleep (base : string) (w : World) :
  (w_fs w !! (base +:+ ".reset") = None -> reset_helper_turn base w = wait 5 w)
  /\ (w_fs w !! (base +:+ ".save") = None -> save_helper_turn base w = wait 5 w)
  /\ (w_fs w !! (base +:+ ".txcast") = None -> tx_helper_turn base w = wait 2 w).
Proof.
  unfold reset_helper_turn, save_helper_turn, tx_helper_turn.
  repeat split; intros H; msimp; reflexivity.
Qed.

Lemma transferGui_never_throws (args : list string) (w : World) :
  exists r w', transferGui args w = (Returned r, w').
Proof.
  unfold transferGui. apply try_catch_returns.
  intros [what|] w0; unfold ret; eauto.
Qed.

(** X11. A turn of the transaction loop that finds a request deletes the
    request file, runs the transfer on the request's arguments, and leaves
    in the [.txresult] file exactly the string the transfer answered, the
    file opening for output at that point; apart from the result file the
    files are as the transfer left them.  Then it sleeps two seconds. *)
Theorem tx_turn_writes_answer (base file : string) (w : World) :
  w_fs w !! (base +:+ ".txcast") = Some file ->
  let after := transferGui (request_args file) (snd (remove (base +:+ ".txcast") w)) in
  base +:+ ".txresult" ∉ w_unwritable (snd after) ->
  exists r w3,
    fst after = Returned r
    /\ tx_helper_turn base w = (Returned tt, w3)
    /\ w_fs w3 = <[base +:+ ".txresult" := r]> (w_fs (snd after))
    /\ w_events w3 = w_events (snd after)
                      ++ [FsTruncate (base +:+ ".txresult");
                          FsWrite (base +:+ ".txresult") r; Sleep 2].
Proof.
  intros Hreq after Hw. subst after.
  destruct (transferGui_never_throws (request_args file)
              (snd (remove (base +:+ ".txcast") w))) as (r & w2 & Hgui).
  rewrite Hgui in *. cbn [fst snd] in *. exists r. revert Hgui.
  unfold tx_helper_turn, transferWrapper. msimp.
  cbn [default from_option id remove_retry]. msimp.
  change (split_fields (read_content file) 0 []) with (request_args file).
  intros Hgui. rewrite Hgui. msimp.
  assert (Hopen : bool_decide (base +:+ ".txresult" ∈ w_unwritable w2) = false)
    by now apply bool_decide_eq_false.
  rewrite ?Hopen. msimp. fs_simp. msimp.
  eexists; split; [reflexivity|]. split; [reflexivity|].
  cbn [w_fs w_events]. rewrite append_nil.
  split; [apply insert_insert_eq|]. now rewrite <- !app_assoc.
Qed.

(** ** Opening a wallet: the legacy paths *)

Lemma append_neq_self (s t : string) : Str.is_empty t = false -> s <> s +:+ t.
Proof.
  intros Ht H. apply (f_equal String.length) in H. rewrite append_length in H.
  destruct t; [discriminate|]. simpl in H. lia.
Qed.

Lemma append_inv_tail (a b t : string) : a +:+ t = b +:+ t -> a = b.
Proof.
  revert b; induction a as [|x a IH]; intros [|y b] H.
  - reflexivity.
  - apply (f_equal String.length) in H. rewrite append_nil, append_cons in H.
    cbn [String.length] in H. rewrite append_length in H. lia.
  - apply (f_equal String.length) in H. rewrite append_nil, append_cons in H.
    cbn [String.length] in H. rewrite append_length in H. lia.
  - rewrite !append_cons in H. injection H as -> H. f_equal. now apply IH.
Qed.

(** X12. When the import of the legacy keys throws, the exception passes
    to the caller before anything was renamed: the files are all as they
    were.  This holds on both import paths, the one taken when there is no
    wallet file and the one taken when the wallet file does not load. *)
Theorem tryToOpen_import_failure_keeps_files
    (walletFile password keys_file walletFileName keys : string) (ex : exn)
    (w : World) :
  prepareFileNames lib walletFile = (keys_file, walletFileName) ->
  w_fs w !! keys_file = Some keys ->
  importLegacyKeys lib keys password = Thrown ex ->
  match w_fs w !! walletFileName with
  | Some stream =>
      exists ec e1,
        initAndLoad m_wallet stream password (w_engine w) = (Returned ec, e1)
        /\ is_error ec = true
  | None => True
  end ->
  fst (tryToOpenWalletOrLoadKeysOrThrow walletFile password w) = Thrown ex
  /\ w_fs (snd (tryToOpenWalletOrLoadKeysOrThrow walletFile password w)) = w_fs w.
Proof.
  intros Hnames Hkeys Himport Hwallet.
  unfold tryToOpenWalletOrLoadKeysOrThrow, initAndLoadWallet, import_legacy_keys.
  rewrite Hnames.
  destruct (w_fs w !! walletFileName) as [stream|] eqn:Hstream.
  - destruct Hwallet as (ec & e1 & Hload & Hec). msimp. split; reflexivity.
  - msimp. split; reflexivity.
Qed.

(** X13. When the wallet rebuilt from the legacy keys does not load
    either, the function throws "failed to load wallet: " followed by the
    engine's message; by then both originals have been moved aside: the
    key file and the wallet file are found, unchanged, under their names
    with [.back] appended, and nothing is left under the names
    themselves. *)
Theorem tryToOpen_failed_reload_keeps_backups
    (walletFile password keys_file walletFileName keys stream ss : string)
    (ec1 ec2 : error_code) (e1 e2 : Engine) (w : World) :
  prepareFileNames lib walletFile = (keys_file, walletFileName) ->
  keys_file <> walletFileName ->
  walletFileName <> keys_file +:+ ".back" ->
  keys_file <> walletFileName +:+ ".back" ->
  w_fs w !! keys_file = Some keys ->
  w_fs w !! walletFileName = Some stream ->
  initAndLoad m_wallet stream password (w_engine w) = (Returned ec1, e1) ->
  is_error ec1 = true ->
  importLegacyKeys lib keys password = Returned ss ->
  initAndLoad m_wallet ss password e1 = (Returned ec2, e2) ->
  is_error ec2 = true ->
  exists w',
    tryToOpenWalletOrLoadKeysOrThrow walletFile password w
    = (Thrown (StdException ("failed to load wallet: " +:+ ec_message ec2)), w')
    /\ w_fs w' !! (keys_file +:+ ".back") = Some keys
    /\ w_fs w' !! (walletFileName +:+ ".back") = Some stream
    /\ w_fs w' !! keys_file = None
    /\ w_fs w' !! walletFileName = None.
Proof.
  intros Hnames Hkw Hwk Hkb Hkeys Hstream Hload1 Hec1 Himport Hload2 Hec2.
  assert (Hk : keys_file <> keys_file +:+ ".back") by now apply append_neq_self.
  assert (Hw : walletFileName <> walletFileName +:+ ".back")
    by now apply append_neq_self.
  assert (Hbb : keys_file +:+ ".back" <> walletFileName +:+ ".back").
  { intros H. apply Hkw. now apply append_inv_tail in H. }
  unfold tryToOpenWalletOrLoadKeysOrThrow, initAndLoadWallet, import_legacy_keys.
  rewrite Hnames. msimp. fs_simp. msimp.
  eexists; split; [reflexivity|]. cbn [w_fs]. fs_simp. auto.
Qed.

(** X14. A wallet kept under the bare name, with neither a wallet file
    nor a key file beside it, is first renamed to the wallet file name and
    then loaded from there.  When it loads, the function returns the
    wallet file name.  When it does not, the function throws "can't load
    wallet file", and the rename is not undone. *)
Theorem tryToOpen_adopts_bare_file
    (walletFile password keys_file walletFileName stream : string)
    (ec : error_code) (e1 : Engine) (w : World) :
  prepareFileNames lib walletFile = (keys_file, walletFileName) ->
  w_fs w !! keys_file = None ->
  w_fs w !! walletFileName = None ->
  w_fs w !! walletFile = Some stream ->
  initAndLoad m_wallet stream password (w_engine w) = (Returned ec, e1) ->
  exists w',
    tryToOpenWalletOrLoadKeysOrThrow walletFile password w
    = (if is_error ec
       then Thrown (StdException ("can't load wallet file '" +:+ walletFileName
                                  +:+ "', check password"))
       else Returned walletFileName,
       w')
    /\ w_fs w' = <[walletFileName := stream]> (delete walletFile (w_fs w))
    /\ w_events w' = w_events w ++ [FsRename walletFile walletFileName;
                                    WalletInitAndLoad stream password].
Proof.
  intros Hnames Hkeys Hwallet Hbare Hload.
  assert (Hne : walletFile <> walletFileName) by congruence.
  unfold tryToOpenWalletOrLoadKeysOrThrow, initAndLoadWallet, rename_ec.
  rewrite Hnames. msimp. fs_simp. msimp.
  destruct (is_error ec); msimp;
    (eexists; split; [reflexivity|]); cbn [w_fs w_events];
    (split; [reflexivity|]); now rewrite <- !app_assoc.
Qed.

(** ** Start-up and shutdown *)

(** X15. [init] answers [false] without a call to the wallet engine and
    without touching a file in each of these cases: the daemon address is
    given together with a daemon host or port; no daemon address is given,
    no password is given on the command line and none can be read from the
    console; no daemon address is given and the node reports an error.  In
    the first two cases the node is not contacted either. *)
Theorem init_fails_early (vm : ProgramOptions) (console : Console) (w : World) :
  (Str.is_empty (arg_daemon_address vm) = false ->
   Str.is_empty (arg_daemon_host vm) = false \/ arg_daemon_port vm <> 0 ->
   fst (init vm console w) = Returned false
   /\ w_fs (snd (init vm console w)) = w_fs w
   /\ w_engine (snd (init vm console w)) = w_engine w
   /\ w_events (snd (init vm console w)) = w_events w)
  /\ (Str.is_empty (arg_daemon_address vm) = true ->
      arg_password vm = None -> console_password console = None ->
      fst (init vm console w) = Returned false
      /\ w_fs (snd (init vm console w)) = w_fs w
      /\ w_engine (snd (init vm console w)) = w_engine w
      /\ w_events (snd (init vm console w)) = w_events w)
  /\ (Str.is_empty (arg_daemon_address vm) = true ->
      is_error (fst (node_init m_wallet (w_engine w))) = true ->
      fst (init vm console w) = Returned false
      /\ w_fs (snd (init vm console w)) = w_fs w
      /\ (w_events (snd (init vm console w)) = w_events w
          \/ w_events (snd (init vm console w)) = w_events w ++ [NodeInit])).
Proof.
  unfold init, handle_command_line, take_user_input, daemon_defaults, daemon_address,
    set_daemon.
  split; [|split].
  - intros Haddr Hrest. msimp.
    assert (Hor : negb (Str.is_empty (arg_daemon_host vm))
                  || negb (arg_daemon_port vm =? 0) = true).
    { destruct Hrest as [H|H]; [rewrite H; reflexivity|].
      apply Z.eqb_neq in H. rewrite H. apply orb_true_r. }
    rewrite Hor. msimp. auto.
  - intros Haddr Hp Hc. mcases; auto.
  - intros Haddr Hnode.
    destruct (node_init m_wallet (w_engine w)) as [error e1] eqn:Hinit.
    cbn [fst] in Hnode. mcases; auto.
Qed.


(** X16. When the engine cannot generate the wallet, be it by an error
    code or by a standard exception, [new_wallet] answers [false] and no
    file is written; the wallet file name stays recorded in the object
    nonetheless. *)
Theorem new_wallet_generation_failure (wallet_file password : string) (w : World) :
  (exists ec e1,
      initAndGenerate m_wallet password (w_engine w) = (Returned ec, e1)
      /\ is_error ec = true)
  \/ (exists what e1,
         initAndGenerate m_wallet password (w_engine w)
         = (Thrown (StdException what), e1)) ->
  exists w',
    new_wallet wallet_file password w = (Returned false, w')
    /\ w_fs w' = w_fs w
    /\ m_wallet_file (w_this w') = wallet_file
    /\ w_events w' = w_events w ++ [WalletInitAndGenerate password].
Proof.
  unfold new_wallet, set_wallet_file.
  intros [(ec & e1 & Hgen & Hec)|(what & e1 & Hgen)]; msimp;
    (eexists; split; [reflexivity|]); auto.
Qed.

(** X17. [close_wallet] shuts the engine down only after the wallet was
    stored: when the store throws a standard exception it answers [false]
    and the engine is left running, in the state the store left it in;
    when the store returns, the shutdown is the one thing that follows. *)
Theorem close_wallet_stores_first (w w1 : World) :
  (forall what,
      storeWallet (m_wallet_file (w_this w)) w = (Thrown (StdException what), w1) ->
      close_wallet w = (Returned false, w1))
  /\ (storeWallet (m_wallet_file (w_this w)) w = (Returned tt, w1) ->
      fst (close_wallet w)
      = match fst (shutdown m_wallet (w_engine w1)) with
        | Returned _ => Returned true
        | Thrown ex => Thrown ex
        end
      /\ w_fs (snd (close_wallet w)) = w_fs w1
      /\ w_engine (snd (close_wallet w)) = snd (shutdown m_wallet (w_engine w1))
      /\ w_events (snd (close_wallet w)) = w_events w1 ++ [WalletShutdown]).
Proof.
  unfold close_wallet. split.
  - intros what Hstore. mrun. rewrite Hstore. reflexivity.
  - intros Hstore. mrun. rewrite Hstore. mrun.
    destruct (shutdown m_wallet (w_engine w1)) as [[[]|ex] e2]; mrun; auto.
Qed.

(** ** The save path, again *)

(** X19. [saveWrapper] never throws, and the only names it writes,
    renames or removes are the wallet file and its temporary: every other
    path keeps its content, whatever the engine does. *)
Theorem saveWrapper_confined (base : string) (w : World) :
  (exists b w', saveWrapper base w = (Returned b, w'))
  /\ (forall p,
         p <> base +:+ ".wallet" ->
         String.length p <> String.length ((base +:+ ".wallet") +:+ ".tmp.%%%%-%%%%") ->
         w_fs (snd (saveWrapper base w)) !! p = w_fs w !! p).
Proof.
  split.
  - unfold saveWrapper. unfold bind at 1. unfold this at 1.
    destruct (negb (m_walletSynchronized (w_this w))); [unfold ret; eauto|].
    apply try_catch_returns. intros ex w0. unfold ret. eauto.
  - intros p. apply saveWrapper_keeps_other_files.
Qed.

(** ** The daemon address *)

Lemma no_char_cons (c x : ascii) (s : string) :
  no_char c (String x s) = true -> Ascii.eqb c x = false /\ no_char c s = true.
Proof.
  unfold no_char. cbn [Str.all]. intros H. apply andb_prop in H as [H1 H2].
  apply negb_true_iff in H1. rewrite Ascii.eqb_sym. auto.
Qed.

Lemma no_char_app (c : ascii) (a b : string) :
  no_char c a = true -> no_char c b = true -> no_char c (a +:+ b) = true.
Proof.
  induction a as [|x a IH]; intros Ha Hb; [exact Hb|].
  rewrite append_cons. unfold no_char in *. cbn [Str.all] in *.
  apply andb_prop in Ha as [Hx Ha]. rewrite Hx. cbn [andb]. now apply IH.
Qed.

Lemma starts_with_cons (c : ascii) (d' : string) (x : ascii) (s : string) :
  Str.starts_with (String c d') (String x s) = Ascii.eqb c x && Str.starts_with d' s.
Proof. reflexivity. Qed.

Lemma find_no_char (c : ascii) (d' s : string) :
  no_char c s = true -> Str.find s (String c d') = None.
Proof.
  induction s as [|x s IH]; intros Hs; [reflexivity|].
  apply no_char_cons in Hs as [Hx Hs].
  rewrite find_cons, starts_with_cons, Hx, IH by exact Hs. reflexivity.
Qed.

Lemma find_at (c : ascii) (d' a rest : string) :
  no_char c a = true -> Str.starts_with d' rest = true ->
  Str.find (a +:+ String c rest) (String c d') = Some (String.length a).
Proof.
  intros Ha Hd. induction a as [|x a IH].
  - rewrite append_nil, find_cons, starts_with_cons, Ascii.eqb_refl, Hd. reflexivity.
  - apply no_char_cons in Ha as [Hx Ha].
    rewrite append_cons, find_cons, starts_with_cons, Hx, IH by exact Ha.
    reflexivity.
Qed.

Lemma erase0_app (a b : string) : Str.erase0 (String.length a) (a +:+ b) = b.
Proof. induction a as [|x a IH]; [now destruct b|]. exact IH. Qed.

Lemma substr0_all (n : nat) (s : string) :
  (String.length s <= n)%nat -> Str.substr0 n s = s.
Proof.
  revert n; induction s as [|x s IH]; intros [|n] H; try reflexivity.
  - cbn [String.length] in H. lia.
  - cbn [String.length] in H. cbn [Str.substr0]. rewrite IH by lia. reflexivity.
Qed.

Lemma find_pos_from (url pre s d : string) (pos : Z) :
  url = pre +:+ s -> pos = Z.of_nat (String.length pre) ->
  find_pos url d pos
  = match Str.find s d with Some i => pos + Z.of_nat i | None => npos end.
Proof.
  intros -> ->. unfold find_pos. rewrite append_length.
  destruct (Z.ltb_spec (Z.of_nat (String.length pre + String.length s))
                       (Z.of_nat (String.length pre))) as [H|_]; [lia|].
  now rewrite Nat2Z.id, erase0_app.
Qed.

Lemma find_pos_field (url pre a : string) (c : ascii) (rest d' : string) (pos : Z) :
  url = pre +:+ (a +:+ String c rest) -> pos = Z.of_nat (String.length pre) ->
  no_char c a = true -> Str.starts_with d' rest = true ->
  find_pos url (String c d') pos = pos + Z.of_nat (String.length a).
Proof.
  intros Hurl Hpos Ha Hd.
  now rewrite (find_pos_from _ _ _ _ _ Hurl Hpos), find_at.
Qed.

Lemma find_pos_missing (url pre s : string) (c : ascii) (d' : string) (pos : Z) :
  url = pre +:+ s -> pos = Z.of_nat (String.length pre) ->
  no_char c s = true ->
  find_pos url (String c d') pos = npos.
Proof.
  intros Hurl Hpos Hs.
  now rewrite (find_pos_from _ _ _ _ _ Hurl Hpos), find_no_char.
Qed.

Lemma substr_from (url pre s : string) (pos count : Z) :
  url = pre +:+ s -> pos = Z.of_nat (String.length pre) ->
  substr url pos count
  = Some (Str.substr0 (Z.to_nat (Z.min count (Z.of_nat (String.length s)))) s).
Proof.
  intros -> ->. unfold substr. rewrite append_length.
  destruct (Z.ltb_spec (Z.of_nat (String.length pre + String.length s))
                       (Z.of_nat (String.length pre))) as [H|_]; [lia|].
  rewrite Nat2Z.id, erase0_app. do 3 f_equal. lia.
Qed.

Lemma substr_field (url pre a rest : string) (pos count : Z) :
  url = pre +:+ (a +:+ rest) -> pos = Z.of_nat (String.length pre) ->
  count = Z.of_nat (String.length a) ->
  substr url pos count = Some a.
Proof.
  intros Hurl Hpos ->. rewrite (substr_from _ _ _ _ _ Hurl Hpos).
  rewrite append_length, Z.min_l by lia. now rewrite Nat2Z.id, substr0_field.
Qed.

Lemma substr_rest (url pre a : string) (pos count : Z) :
  url = pre +:+ a -> pos = Z.of_nat (String.length pre) ->
  Z.of_nat (String.length a) <= count ->
  substr url pos count = Some a.
Proof.
  intros Hurl Hpos Hcount. rewrite (substr_from _ _ _ _ _ Hurl Hpos).
  rewrite Z.min_r by lia. rewrite Nat2Z.id. now rewrite substr0_all.
Qed.

Lemma npos_value : npos = 18446744073709551615.
Proof. reflexivity. Qed.

Lemma size_add_small (a b : Z) : 0 <= a + b < 2 ^ 64 -> size_add a b = a + b.
Proof. intros H. unfold size_add. now apply Z.mod_small. Qed.

Lemma size_sub_small (a b : Z) : 0 <= a - b < 2 ^ 64 -> size_sub a b = a - b.
Proof. intros H. unfold size_sub. now apply Z.mod_small. Qed.

Ltac url_eq := rewrite ?append_assoc; reflexivity.
Ltac url_len := rewrite ?append_length; cbn [String.length]; lia.

(** X20. For a daemon address of the form scheme://host:port, with or
    without a path after the port, [parseUrlAddress] yields the host and
    the number [fromString] reads from the port's digits. *)
Theorem parseUrlAddress_host_and_port (scheme host port tail : string) (n : Z) :
  let url := scheme +:+ "://" +:+ host +:+ ":" +:+ port +:+ tail in
  no_char ":" scheme = true ->
  no_char ":" host = true ->
  no_char "/" port = true ->
  (tail = "" \/ exists path, tail = "/" +:+ path) ->
  Z.of_nat (String.length url) < npos ->
  fromString_uint16 port = Some n ->
  parseUrlAddress url = Some (host, n).
Proof.
  intros url Hs Hh Hp Htail Hlen Hport.
  rewrite npos_value in Hlen.
  set (ls := Z.of_nat (String.length scheme)).
  set (lh := Z.of_nat (String.length host)).
  set (lp := Z.of_nat (String.length port)).
  assert (Hl : Z.of_nat (String.length url)
               = ls + 3 + lh + 1 + lp + Z.of_nat (String.length tail)).
  { subst url ls lh lp. url_len. }
  assert (E1 : find_pos url "://" 0 = ls).
  { rewrite (find_pos_field url "" scheme ":"
               (String "/" (String "/" (host +:+ ":" +:+ port +:+ tail))) "//" 0);
      [reflexivity | reflexivity | reflexivity | exact Hs | reflexivity]. }
  assert (E2 : find_pos url ":" (ls + 3) = ls + 3 + lh).
  { apply (find_pos_field url (scheme +:+ "://") host ":" (port +:+ tail) "");
      [subst url; url_eq | subst ls; url_len | exact Hh | reflexivity]. }
  assert (Haddr : substr url (ls + 3) lh = Some host).
  { apply (substr_field url (scheme +:+ "://") host (":" +:+ port +:+ tail));
      [subst url; url_eq | subst ls; url_len | reflexivity]. }
  assert (Hcolon : no_char "/" (":" +:+ port) = true).
  { apply no_char_app; [reflexivity | exact Hp]. }
  unfold parseUrlAddress. rewrite E1. cbv zeta.
  replace (ls =? npos) with false by (symmetry; apply Z.eqb_neq; rewrite npos_value; lia).
  rewrite (size_add_small ls 3) by lia. rewrite E2.
  replace (ls + 3 + lh =? npos) with false
    by (symmetry; apply Z.eqb_neq; rewrite npos_value; lia).
  cbn [negb]. rewrite (size_add_small (ls + 3 + lh) 1) by lia.
  rewrite (size_sub_small (ls + 3 + lh) (ls + 3)) by lia.
  replace (ls + 3 + lh - (ls + 3)) with lh by lia. rewrite Haddr.
  destruct Htail as [->|[path ->]].
  - rewrite (find_pos_missing url (scheme +:+ "://" +:+ host) (":" +:+ port) "/" ""
               (ls + 3 + lh));
      [| subst url; rewrite append_nil_r; url_eq | subst ls lh; url_len | exact Hcolon].
    rewrite Z.eqb_refl.
    rewrite (substr_rest url (scheme +:+ "://" +:+ host +:+ ":") port
               (ls + 3 + lh + 1) npos);
      [| subst url; rewrite append_nil_r; url_eq | subst ls lh; url_len
       | rewrite npos_value; fold lp; lia].
    now rewrite Hport.
  - rewrite (find_pos_field url (scheme +:+ "://" +:+ host) (":" +:+ port) "/" path ""
               (ls + 3 + lh));
      [| subst url; url_eq | subst ls lh; url_len | exact Hcolon | reflexivity].
    replace (Z.of_nat (String.length (":" +:+ port))) with (1 + lp)
      by (subst lp; url_len).
    replace (ls + 3 + lh + (1 + lp) =? npos) with false
      by (symmetry; apply Z.eqb_neq; rewrite npos_value; lia).
    rewrite (size_sub_small (ls + 3 + lh + (1 + lp)) (ls + 3 + lh)) by lia.
    rewrite (size_sub_small _ 1) by lia.
    rewrite (substr_field url (scheme +:+ "://" +:+ host +:+ ":") port ("/" +:+ path)
               (ls + 3 + lh + 1) _);
      [| subst url; url_eq | subst ls lh; url_len | subst lp; lia].
    now rewrite Hport.
Qed.

Lemma find_scheme_none (host rest : string) :
  no_char ":" host = true -> Str.starts_with "//" rest = false ->
  no_char ":" rest = true ->
  Str.find (host +:+ String ":" rest) "://" = None.
Proof.
  intros Hh Hstart Hr. induction host as [|x host IH].
  - rewrite append_nil, find_cons, starts_with_cons, Hstart, andb_false_r.
    now rewrite find_no_char.
  - apply no_char_cons in Hh as [Hx Hh].
    rewrite append_cons, find_cons, starts_with_cons, Hx, IH by exact Hh.
    reflexivity.
Qed.

(** X21. Without a scheme, host:port, with or without a path, yields the
    host and the port's number, and a host alone, with or without a path,
    yields the host and port 80. *)
Theorem parseUrlAddress_without_scheme (host port tail : string) (n : Z) :
  no_char ":" host = true ->
  no_char "/" host = true ->
  (tail = "" \/ exists path, tail = "/" +:+ path /\ no_char ":" path = true) ->
  Z.of_nat (String.length (host +:+ ":" +:+ port +:+ tail)) < npos ->
  (Str.is_empty port = false ->
   no_char ":" port = true -> no_char "/" port = true ->
   fromString_uint16 port = Some n ->
   parseUrlAddress (host +:+ ":" +:+ port +:+ tail) = Some (host, n))
  /\ parseUrlAddress (host +:+ tail) = Some (host, 80).
Proof.
  intros Hh Hh' Htail Hlen. rewrite npos_value in Hlen.
  set (lh := Z.of_nat (String.length host)).
  set (lp := Z.of_nat (String.length port)).
  assert (Hl : Z.of_nat (String.length (host +:+ ":" +:+ port +:+ tail))
               = lh + 1 + lp + Z.of_nat (String.length tail)).
  { subst lh lp. url_len. }
  assert (Htc : no_char ":" tail = true).
  { destruct Htail as [->|(path & -> & Hpath)]; [reflexivity|].
    apply no_char_app; [reflexivity | exact Hpath]. }
  split.
  - intros Hne Hpc Hp Hport.
    set (url := host +:+ ":" +:+ port +:+ tail) in *.
    assert (E1 : find_pos url "://" 0 = npos).
    { rewrite (find_pos_from url "" url "://" 0 eq_refl eq_refl).
      subst url. change (":" +:+ port +:+ tail) with (String ":" (port +:+ tail)).
      rewrite find_scheme_none; [reflexivity | exact Hh | | now apply no_char_app].
      destruct port as [|x port]; [discriminate|].
      apply no_char_cons in Hp as [Hx _]. rewrite append_cons, starts_with_cons, Hx.
      reflexivity. }
    assert (E2 : find_pos url ":" 0 = lh).
    { apply (find_pos_field url "" host ":" (port +:+ tail) "" 0);
        [reflexivity | reflexivity | exact Hh | reflexivity]. }
    assert (Haddr : substr url 0 lh = Some host).
    { apply (substr_field url "" host (":" +:+ port +:+ tail));
        [reflexivity | reflexivity | reflexivity]. }
    assert (Hcolon : no_char "/" (host +:+ ":" +:+ port) = true).
    { apply no_char_app; [exact Hh'|]. apply no_char_app; [reflexivity | exact Hp]. }
    unfold parseUrlAddress. rewrite E1. cbv zeta. rewrite Z.eqb_refl, E2.
    replace (lh =? npos) with false
      by (symmetry; apply Z.eqb_neq; rewrite npos_value; lia).
    cbn [negb]. rewrite (size_add_small lh 1) by lia.
    rewrite (size_sub_small lh 0) by lia. rewrite Z.sub_0_r, Haddr.
    destruct Htail as [Ht|(path & Ht & _)].
    + rewrite (find_pos_missing url host (":" +:+ port) "/" "" lh);
        [| subst url; rewrite Ht, append_nil_r; url_eq | reflexivity
         | apply no_char_app; [reflexivity | exact Hp]].
      rewrite Z.eqb_refl.
      rewrite (substr_rest url (host +:+ ":") port (lh + 1) npos);
        [| subst url; rewrite Ht, append_nil_r; url_eq | subst lh; url_len
         | rewrite npos_value; fold lp; lia].
      now rewrite Hport.
    + rewrite (find_pos_field url host (":" +:+ port) "/" path "" lh);
        [| subst url; rewrite Ht; url_eq | reflexivity
         | apply no_char_app; [reflexivity | exact Hp] | reflexivity].
      replace (Z.of_nat (String.length (":" +:+ port))) with (1 + lp)
        by (subst lp; url_len).
      replace (lh + (1 + lp) =? npos) with false
        by (symmetry; apply Z.eqb_neq; rewrite npos_value; lia).
      rewrite (size_sub_small (lh + (1 + lp)) lh) by lia.
      rewrite (size_sub_small _ 1) by lia.
      rewrite (substr_field url (host +:+ ":") port tail (lh + 1) _);
        [| subst url; url_eq | subst lh; url_len | subst lp; lia].
      now rewrite Hport.
  - set (url := host +:+ tail).
    assert (Hl' : Z.of_nat (String.length url) = lh + Z.of_nat (String.length tail)).
    { subst url lh. url_len. }
    assert (Hnc : no_char ":" url = true) by now apply no_char_app.
    assert (E1 : find_pos url "://" 0 = npos).
    { now apply (find_pos_missing url "" url ":" "//" 0). }
    assert (E2 : find_pos url ":" 0 = npos).
    { now apply (find_pos_missing url "" url ":" "" 0). }
    unfold parseUrlAddress. rewrite E1. cbv zeta. rewrite Z.eqb_refl, E2, Z.eqb_refl.
    cbn [negb].
    destruct Htail as [Ht|(path & Ht & _)].
    + rewrite (find_pos_missing url "" host "/" "" 0);
        [| subst url; rewrite Ht, append_nil_r; reflexivity | reflexivity | exact Hh'].
      rewrite (substr_rest url "" host 0 _);
        [reflexivity | subst url; rewrite Ht, append_nil_r; reflexivity | reflexivity|].
      unfold size_sub. rewrite npos_value. fold lh.
      change ((18446744073709551615 - 0) mod 2 ^ 64) with 18446744073709551615. lia.
    + rewrite (find_pos_field url "" host "/" path "" 0);
        [| subst url; rewrite Ht; reflexivity | reflexivity | exact Hh' | reflexivity].
      fold lh. rewrite Z.add_0_l. rewrite (size_sub_small lh 0) by lia.
      rewrite Z.sub_0_r.
      rewrite (substr_field url "" host tail 0 lh); reflexivity.
Qed.

(** X22. With a scheme and no port, the address handed back is everything
    after the scheme, a path included: the end of the host is looked for
    from the start of the address, where the first [/] is the scheme's, so
    the length of the host wraps around and the rest of the address is
    taken.  The port is 80. *)
Theorem parseUrlAddress_scheme_without_port (scheme rest : string) :
  let url := scheme +:+ "://" +:+ rest in
  no_char ":" scheme = true ->
  no_char "/" scheme = true ->
  no_char ":" rest = true ->
  Z.of_nat (String.length url) < npos ->
  parseUrlAddress url = Some (rest, 80).
Proof.
  intros url Hs Hs' Hr Hlen. rewrite npos_value in Hlen.
  set (ls := Z.of_nat (String.length scheme)).
  set (lr := Z.of_nat (String.length rest)).
  assert (Hl : Z.of_nat (String.length url) = ls + 3 + lr).
  { subst url ls lr. url_len. }
  assert (E1 : find_pos url "://" 0 = ls).
  { rewrite (find_pos_field url "" scheme ":" (String "/" (String "/" rest)) "//" 0);
      [reflexivity | reflexivity | reflexivity | exact Hs | reflexivity]. }
  assert (E2 : find_pos url ":" (ls + 3) = npos).
  { apply (find_pos_missing url (scheme +:+ "://") rest ":" "");
      [subst url; url_eq | subst ls; url_len | exact Hr]. }
  assert (E3 : find_pos url "/" 0 = ls + 1).
  { rewrite (find_pos_field url "" (scheme +:+ ":") "/" (String "/" rest) "" 0);
      [| subst url; rewrite append_nil; url_eq | reflexivity
       | apply no_char_app; [exact Hs' | reflexivity] | reflexivity].
    subst ls. url_len. }
  unfold parseUrlAddress. rewrite E1. cbv zeta.
  replace (ls =? npos) with false by (symmetry; apply Z.eqb_neq; rewrite npos_value; lia).
  rewrite (size_add_small ls 3) by lia. rewrite E2, Z.eqb_refl. cbn [negb].
  rewrite E3.
  rewrite (substr_rest url (scheme +:+ "://") rest (ls + 3) _);
    [reflexivity | subst url; url_eq | subst ls; url_len |].
  unfold size_sub. replace (ls + 1 - (ls + 3)) with (-2) by lia.
  change (-2 mod 2 ^ 64) with 18446744073709551614. fold lr. lia.
Qed.

(** ** The export of the transactions *)

Lemma getTxs_from_records (e : Engine) (numbers : list Z) :
  (forall i, In i numbers -> skipped e i = false ->
             is_Some (strftime_gmtime export
                        (tx_timestamp (getTransactionDetails export i e)))) ->
  forall txs,
    getTxs_from e numbers txs
    = Returned (txs +:+ fold_right String.append ""
                          (List.map (fun i => tx_record e i (timeString e i))
                                    (List.filter (fun i => negb (skipped e i)) numbers))).
Proof.
  induction numbers as [|i rest IH]; intros Htime txs.
  - cbn. now rewrite append_nil_r.
  - cbn [getTxs_from List.filter]. destruct (skipped e i) eqn:Hskip; cbn [negb].
    + apply IH. intros j Hj. apply Htime. now right.
    + destruct (Htime i (or_introl eq_refl) Hskip) as [t Ht].
      rewrite Ht. cbn [List.map fold_right].
      rewrite IH by (intros j Hj; apply Htime; now right).
      rewrite append_assoc. unfold timeString. now rewrite Ht.
Qed.

Lemma getTxs_from_throws (e : Engine) (numbers : list Z) :
  (exists i, In i numbers /\ skipped e i = false
             /\ strftime_gmtime export
                  (tx_timestamp (getTransactionDetails export i e)) = None) ->
  forall txs,
    getTxs_from e numbers txs = Thrown (StdException "time buffer is too small").
Proof.
  induction numbers as [|j rest IH]; intros (i & Hin & Hskip & Htime) txs.
  - destruct Hin.
  - cbn [getTxs_from]. destruct Hin as [->|Hin].
    + now rewrite Hskip, Htime.
    + destruct (skipped e j); [apply IH; eauto|].
      destruct (strftime_gmtime export
                  (tx_timestamp (getTransactionDetails export j e)));
        [apply IH; eauto | reflexivity].
Qed.

(** X23. The export holds one record for each transaction that is active
    and confirmed, in the order of the transaction numbers, and nothing for
    the others; it changes nothing.  When the time of one such transaction
    cannot be formatted, the call throws and no part of the export is
    returned. *)
Theorem getTxs_exports_confirmed (w : World) :
  ((forall i, In i (exported (w_engine w)) ->
              is_Some (strftime_gmtime export
                         (tx_timestamp (getTransactionDetails export i (w_engine w))))) ->
   getTxs w
   = (Returned (fold_right String.append ""
                  (List.map (fun i => tx_record (w_engine w) i (timeString (w_engine w) i))
                            (exported (w_engine w)))), w))
  /\ ((exists i, In i (exported (w_engine w))
                 /\ strftime_gmtime export
                      (tx_timestamp (getTransactionDetails export i (w_engine w))) = None) ->
      getTxs w = (Thrown (StdException "time buffer is too small"), w)).
Proof.
  unfold getTxs, exported. split.
  - intros Htime. rewrite getTxs_from_records; [now rewrite append_nil|].
    intros i Hin Hskip. apply Htime. apply filter_In. now rewrite Hskip.
  - intros (i & Hin & Htime). apply filter_In in Hin as [Hin Hskip].
    apply negb_true_iff in Hskip. rewrite getTxs_from_throws; eauto.
Qed.

(** ** The export loop *)

Lemma getBalance_pure (w : World) : exists s, getBalance w = (Returned s, w).
Proof.
  unfold getBalance. mrun. destruct (m_walletSynchronized (w_this w)); cbn [negb].
  - destruct (actualBalance m_wallet (w_engine w));
      [destruct (pendingBalance m_wallet (w_engine w))|]; eauto.
  - eauto.
Qed.

(** X24. A turn of the export loop that has nothing new to tell, the
    balance being empty or the one last written and the export being the
    one last written with the [.txs] file in place, changes nothing and
    does not sleep: the loop comes round again at once. *)
Theorem gui_turn_without_news_is_busy (base : string) (st : gui_state) (w : World) :
  (fst (getBalance w) = Returned "" \/ fst (getBalance w) = Returned (lastBalance st)) ->
  fst (getTxs w) = Returned (lastTxs st) ->
  is_Some (w_fs w !! (base +:+ ".txs")) ->
  gui_helper_turn base st w = (Returned st, w).
Proof.
  intros Hbal Htxs [old Hold].
  destruct (getBalance_pure w) as [s Hs]. rewrite Hs in Hbal. cbn [fst] in Hbal.
  assert (Hquiet : negb (String.eqb s "") && negb (String.eqb s (lastBalance st)) = false).
  { destruct Hbal as [[= ->]|[= ->]].
    - reflexivity.
    - rewrite String.eqb_refl. apply andb_false_r. }
  unfold gui_helper_turn, gui_balance_step, gui_txs_step.
  unfold bind at 1. unfold try_catch at 1. unfold bind at 1. unfold bind at 1.
  rewrite Hs, Hquiet. mrun.
  unfold getTxs in *. cbn [fst] in Htxs. rewrite Htxs. mrun. rewrite Hold.
  rewrite String.eqb_refl. reflexivity.
Qed.

(** X25. A turn of the export loop that finds the missing [.txs] file, or
    an export other than the one last written, writes the export to the
    [.txs] file, remembers it, and sleeps five seconds; here with a balance
    that gives nothing to write. *)
Theorem gui_turn_writes_export (base txs : string) (st : gui_state) (w : World) :
  (fst (getBalance w) = Returned "" \/ fst (getBalance w) = Returned (lastBalance st)) ->
  fst (getTxs w) = Returned txs ->
  (w_fs w !! (base +:+ ".txs") = None \/ txs <> lastTxs st) ->
  base +:+ ".txs" ∉ w_unwritable w ->
  exists w',
    gui_helper_turn base st w
    = (Returned {| lastBalance := lastBalance st; lastTxs := txs |}, w')
    /\ w_fs w' = <[base +:+ ".txs" := txs]> (w_fs w)
    /\ w_events w' = w_events w ++ [FsTruncate (base +:+ ".txs");
                                    FsWrite (base +:+ ".txs") txs; Sleep 5].
Proof.
  intros Hbal Htxs Hnew Hw.
  destruct (getBalance_pure w) as [s Hs]. rewrite Hs in Hbal. cbn [fst] in Hbal.
  assert (Hquiet : negb (String.eqb s "") && negb (String.eqb s (lastBalance st)) = false).
  { destruct Hbal as [[= ->]|[= ->]].
    - reflexivity.
    - rewrite String.eqb_refl. apply andb_false_r. }
  assert (Hopen : bool_decide (base +:+ ".txs" ∈ w_unwritable w) = false)
    by now apply bool_decide_eq_false.
  assert (Hgo : match w_fs w !! (base +:+ ".txs") with Some _ => true | None => false end
                && String.eqb txs (lastTxs st) = false).
  { destruct Hnew as [->|Hne]; [reflexivity|].
    apply String.eqb_neq in Hne. rewrite Hne. apply andb_false_r. }
  unfold gui_helper_turn, gui_balance_step, gui_txs_step.
  unfold bind at 1. unfold try_catch at 1. unfold bind at 1. unfold bind at 1.
  rewrite Hs, Hquiet. mrun.
  unfold getTxs in *. cbn [fst] in Htxs. rewrite Htxs. mrun. rewrite Hgo.
  rewrite Hopen. mrun. fs_simp. mrun.
  eexists; split; [reflexivity|]. cbn [w_fs w_events]. rewrite append_nil.
  split; [apply insert_insert_eq|]. now rewrite <- !app_assoc.
Qed.

(** X26. A balance that is not empty and differs from the one last written
    is in the [.status] file by the end of the turn, and is remembered as
    the one last written, whatever the export of the transactions does in
    the same turn, an exception included. *)
Theorem gui_turn_reports_balance (base s : string) (st : gui_state) (w : World) :
  fst (getBalance w) = Returned s ->
  s <> "" ->
  s <> lastBalance st ->
  base +:+ ".status" ∉ w_unwritable w ->
  exists st' w',
    gui_helper_turn base st w = (Returned st', w')
    /\ lastBalance st' = s
    /\ w_fs w' !! (base +:+ ".status") = Some s.
Proof.
  intros Hbal Hne Hlast Hw.
  destruct (getBalance_pure w) as [s' Hs]. rewrite Hs in Hbal. cbn [fst] in Hbal.
  injection Hbal as ->.
  assert (Hnews : negb (String.eqb s "") && negb (String.eqb s (lastBalance st)) = true).
  { apply String.eqb_neq in Hne, Hlast. now rewrite Hne, Hlast. }
  assert (Hopen : bool_decide (base +:+ ".status" ∈ w_unwritable w) = false)
    by now apply bool_decide_eq_false.
  assert (Hnames : base +:+ ".txs" <> base +:+ ".status").
  { intros H. apply append_inv_head in H. discriminate. }
  unfold gui_helper_turn, gui_balance_step, gui_txs_step.
  unfold bind at 1. unfold try_catch at 1. unfold bind at 1. unfold bind at 1.
  rewrite Hs, Hnews. mrun. rewrite Hopen. mrun. fs_simp. mrun.
  unfold getTxs. cbn [w_engine].
  destruct (getTxs_from (w_engine w) (transaction_numbers (w_engine w)) "")
    as [txs|ex]; mrun; cbn [lastTxs lastBalance]; mcases;
    (do 2 eexists; split; [reflexivity|]); cbn [lastBalance w_fs]; fs_simp;
    now rewrite ?append_nil.
Qed.

(** ** From the request to the engine *)

(** X28. A request that parses reaches the engine as it was parsed: the
    first thing [transferGui] does is to ask the engine to send to the
    destinations, with the fee, the extra and the mixin of the parsed
    command and unlock time zero.  When the engine refuses with the invalid
    transaction id, or throws, or the send completes with an error, the
    answer is "Can't send money", the exception's text or the error's
    message, and nothing else has happened: no store, no file touched. *)
Theorem transferGui_sends_the_request
    (args : list string) (cmd : TransferCommand) (w : World) :
  parseArguments args = inr cmd ->
  let sent := WalletSendTransaction (dsts cmd) (fee cmd) (extra cmd)
                                    (fake_outs_count cmd) 0 in
  let asked := snd (emit sent w) in
  (forall e1,
      sendTransaction m_wallet (dsts cmd) (fee cmd) (extra cmd)
                      (fake_outs_count cmd) 0 (w_engine w)
      = (Returned (WALLET_LEGACY_INVALID_TRANSACTION_ID lib), e1) ->
      transferGui args w = (Returned "Can't send money", with_engine e1 asked))
  /\ (forall ex e1,
         sendTransaction m_wallet (dsts cmd) (fee cmd) (extra cmd)
                         (fake_outs_count cmd) 0 (w_engine w)
         = (Thrown ex, e1) ->
         transferGui args w = (Returned (what_of ex), with_engine e1 asked))
  /\ (forall tx e1 ec e2,
         sendTransaction m_wallet (dsts cmd) (fee cmd) (extra cmd)
                         (fake_outs_count cmd) 0 (w_engine w)
         = (Returned tx, e1) ->
         tx <> WALLET_LEGACY_INVALID_TRANSACTION_ID lib ->
         sendTransactionCompleted m_wallet tx e1 = (Returned ec, e2) ->
         is_error ec = true ->
         transferGui args w = (Returned (ec_message ec), with_engine e2 asked)).
Proof.
  intros Hparse sent asked. subst asked. unfold transferGui. rewrite Hparse.
  fold sent. split; [|split].
  - intros e1 Hsend. msimp. rewrite Z.eqb_refl. msimp. reflexivity.
  - intros ex e1 Hsend. msimp. destruct ex; reflexivity.
  - intros tx e1 ec e2 Hsend Htx Hdone Hec. apply Z.eqb_neq in Htx. msimp.
    reflexivity.
Qed.

End Daemon.

Arguments w_fs {Engine}.
Arguments w_unwritable {Engine}.
Arguments w_random {Engine}.
Arguments w_engine {Engine}.
Arguments w_this {Engine}.
Arguments w_events {Engine}.


(** * A concrete daemon *)

(** A small currency, helper set and engine against which the theorems above
    are put to work and the statements that fail are refuted. *)

Module Demo.

Definition success : error_code := {| ec_value := 0; ec_message := "Success" |}.

Definition wrong_password : error_code :=
  {| ec_value := 5; ec_message := "The password is wrong" |}.

(** Amounts with two decimals, for the few strings used below. *)
Definition currency : Currency :=
  {| minimumFee := 10;
     parseAmount := fun s =>
       if String.eqb s "1.5" then Some 150
       else if String.eqb s "0" then Some 0
       else if String.eqb s "0.01" then Some 1
       else if String.eqb s "0.2" then Some 20
       else None;
     formatAmount := fun _ => "0.00";
     parseAccountAddressString := fun s => Str.starts_with "9x" s |}.

Definition helpers : Helpers :=
  {| prepareFileNames := fun f => (f +:+ ".keys", f +:+ ".wallet");
     fromString_size_t := fun s =>
       if String.eqb s "3" then Some 3
       else if String.eqb s "0" then Some 0
       else None;
     createTxExtraWithPaymentId := fun v e => Some (e +:+ v);
     parsePaymentId := fun _ => false;
     podToHex := fun h => h;
     importLegacyKeys := fun keys _ => Returned keys;
     WALLET_LEGACY_INVALID_TRANSACTION_ID := 18446744073709551615 |}.

(** An engine without state: it loads only the stream "CURRENT", saves
    the bytes "NEW" and sends every transaction as number 7. *)
Definition engine : IWalletLegacy unit :=
  {| initAndLoad := fun stream _ e =>
       (Returned (if String.eqb stream "CURRENT" then success else wrong_password), e);
     initAndGenerate := fun _ e => (Returned success, e);
     save := fun _ _ e => (("NEW", Returned success), e);
     shutdown := fun e => (Returned tt, e);
     sendTransaction := fun _ _ _ _ _ e => (Returned 7, e);
     sendTransactionCompleted := fun _ e => (Returned success, e);
     getTransaction := fun _ _ => {| hash := "c0ffee"; totalAmount := -150; blockHeight := 0 |};
     getAddress := fun _ => "9xWallet";
     actualBalance := fun _ => Returned 1000;
     pendingBalance := fun _ => Returned 0;
     node_init := fun e => (success, e) |}.

Definition wallet (synced : bool) : mini_wallet :=
  {| m_wallet_file_arg := "w"; m_generate_new := ""; m_wallet_file_gui := "w";
     m_wallet_file := "w.wallet"; m_pwd_arg := "secret";
     m_daemon_address := ""; m_daemon_host := ""; m_daemon_port := 0;
     m_walletSynchronized := synced |}.

Definition world (files : list (string * string)) (unwritable : list string)
           (synced : bool) : @World unit :=
  {| w_fs := list_to_map files; w_unwritable := list_to_set unwritable;
     w_random := []; w_engine := tt; w_this := wallet synced; w_events := [] |}.

Definition files_of (w : @World unit) : list (string * string) :=
  map_to_list (w_fs w).

End Demo.

(** Further collaborators for the examples: a reader of port numbers with
    what else the start-up takes from outside, an engine with a state, a
    key import that fails, an engine that cannot generate a wallet, one that refuses
    every transfer, and an engine's view of three transactions, the second of them inactive. *)
Module Sample.

Definition fromString_uint16 (s : string) : option Z :=
  if String.eqb s "8081" then Some 8081 else None.

Definition RPC_DEFAULT_PORT : Z := 8081.

Definition to_string_port (port : Z) : string :=
  if port =? 8081 then "8081" else "80".

Definition fromString_failure : exn :=
  StdException "fromString: unable to parse value".



Definition helpers_without_import : Helpers :=
  {| prepareFileNames := prepareFileNames Demo.helpers;
     fromString_size_t := fromString_size_t Demo.helpers;
     createTxExtraWithPaymentId := createTxExtraWithPaymentId Demo.helpers;
     parsePaymentId := parsePaymentId Demo.helpers;
     podToHex := podToHex Demo.helpers;
     importLegacyKeys := fun _ _ => Thrown (StdException "keys file is damaged");
     WALLET_LEGACY_INVALID_TRANSACTION_ID :=
       WALLET_LEGACY_INVALID_TRANSACTION_ID Demo.helpers |}.

Definition engine_without_generate : IWalletLegacy unit :=
  {| initAndLoad := initAndLoad Demo.engine;
     initAndGenerate := fun _ e => (Returned Demo.wrong_password, e);
     save := save Demo.engine;
     shutdown := shutdown Demo.engine;
     sendTransaction := sendTransaction Demo.engine;
     sendTransactionCompleted := sendTransactionCompleted Demo.engine;
     getTransaction := getTransaction Demo.engine;
     getAddress := getAddress Demo.engine;
     actualBalance := actualBalance Demo.engine;
     pendingBalance := pendingBalance Demo.engine;
     node_init := node_init Demo.engine |}.

Definition engine_without_funds : IWalletLegacy unit :=
  {| initAndLoad := initAndLoad Demo.engine;
     initAndGenerate := initAndGenerate Demo.engine;
     save := save Demo.engine;
     shutdown := shutdown Demo.engine;
     sendTransaction := fun _ _ _ _ _ e =>
       (Returned (WALLET_LEGACY_INVALID_TRANSACTION_ID Demo.helpers), e);
     sendTransactionCompleted := sendTransactionCompleted Demo.engine;
     getTransaction := getTransaction Demo.engine;
     getAddress := getAddress Demo.engine;
     actualBalance := actualBalance Demo.engine;
     pendingBalance := pendingBalance Demo.engine;
     node_init := node_init Demo.engine |}.

Definition export : @Export unit :=
  {| getTransactionCount := fun _ => 3;
     getTransactionDetails := fun i _ =>
       {| tx_active := negb (i =? 1); tx_timestamp := 0; tx_fee := 10;
          tx_unlockTime := 0; tx_extra := "" |};
     strftime_gmtime := fun _ => Some "1970-01-01 00:00:00";
     getPaymentIdFromTxExtra := fun _ => None;
     NULL_HASH := "00";
     to_string := fun _ => "0";
     WALLET_LEGACY_UNCONFIRMED_TRANSACTION_HEIGHT := 4294967295 |}.

(** The record of each of the two transactions that are exported. *)
Definition record : string :=
  "1970-01-01 00:00:00|c0ffee|0.00|0.00|0|0" +:+ Str.newline.

End Sample.

Example request_args_full_line :
  request_args ("3|9xAddr|1.5|pid|0.01|" +:+ Str.newline)
  = ["3"; "9xAddr"; "1.5"; "-p"; "pid"; "-f"; "0.01"].
Proof. reflexivity. Qed.

(** ** The save path when the wallet file cannot be opened *)

(** C2. The wallet file exists, the wallet is synchronized, the output
    stream on the wallet file cannot be opened, and the engine reports a
    successful save (its bytes went to the failed stream and are lost).
    [openOutputFileStream] answers [false] and [saveWrapper] does not look
    at the answer: it goes on, removes the temporary that holds the only
    copy of the wallet, and answers [true].  Neither the original nor a
    replacement is left under the wallet's name, or anywhere. *)
Theorem saveWrapper_open_failure_loses_wallet :
  let w := Demo.world [("w.wallet", "OLD")] ["w.wallet"] true in
  let r := saveWrapper Demo.engine "w" w in
  w_fs w !! "w.wallet" = Some "OLD"
  /\ fst r = Returned true
  /\ w_fs (snd r) !! "w.wallet" = None
  /\ Demo.files_of (snd r) = []
  /\ w_events (snd r)
     = [FsRename "w.wallet" "w.wallet.tmp.0000-0000";
        WalletSave true true;
        FsRemove "w.wallet.tmp.0000-0000"].
Proof. vm_compute. repeat split; reflexivity. Qed.

(** ** Statements that fail *)

(** C3 as stated fails: a reset after synchronization clears the flag. *)
Lemma reset_clears_synchronized :
  let w := Demo.world [("w.wallet", "OLD")] [] true in
  synchronized w = true
  /\ synchronized (snd (perform Demo.currency Demo.helpers Demo.engine Sample.fromString_uint16
               Sample.RPC_DEFAULT_PORT Sample.to_string_port Sample.fromString_failure OpReset w)) = false
  /\ synchronized (snd (perform Demo.currency Demo.helpers Demo.engine Sample.fromString_uint16
               Sample.RPC_DEFAULT_PORT Sample.to_string_port Sample.fromString_failure
               (OpResetTurn "w") (Demo.world [("w.reset", "")] [] true))) = false.
Proof. vm_compute. repeat split; reflexivity. Qed.

(** C4 as stated fails for the transaction loop: the request is deleted,
    not renamed, and no claimed file exists afterwards. *)
Lemma tx_loop_does_not_rename :
  let w := Demo.world [("w.txcast", "3|9xAddr|1.5|")] [] true in
  let w' := snd (tx_helper_turn Demo.currency Demo.helpers Demo.engine "w" w) in
  w_fs w !! "w.txcast" = Some "3|9xAddr|1.5|"
  /\ w_fs w' !! "w.txcast_" = None
  /\ w_fs w' !! "w.txcast" = None
  /\ w_events w'
     = [FsRemove "w.txcast";
        WalletSendTransaction [{| address := "9xAddr"; amount := 150 |}] 10 "" 3 0;
        WalletSave true true;
        FsWrite "w.wallet" "NEW";
        FsTruncate "w.txresult";
        FsWrite "w.txresult" "c0ffee";
        Sleep 2].
Proof. vm_compute. repeat split; reflexivity. Qed.

(** C5 as stated fails: the last field of [mixin|address|amount], which no
    delimiter follows, is not passed on, and the transfer is refused. *)
Lemma last_field_is_dropped :
  request_args ("3|9xAddr|1.5" +:+ Str.newline) = ["3"; "9xAddr"]
  /\ ~ In "1.5" (request_args ("3|9xAddr|1.5" +:+ Str.newline))
  /\ parseArguments Demo.currency Demo.helpers
       (request_args ("3|9xAddr|1.5" +:+ Str.newline)) = inl UnexpectedEnd
  /\ request_args ("3|9xAddr|1.5|pid|0.2" +:+ Str.newline)
     = ["3"; "9xAddr"; "1.5"; "-p"; "pid"].
Proof.
  repeat split; try reflexivity.
  vm_compute. intros [H|[H|[]]]; discriminate H.
Qed.



(** ** The theorems at work *)

Lemma saveWrapper_before_sync_witness :
  let w := Demo.world [("w.wallet", "OLD"); ("w.save", "")] [] false in
  m_walletSynchronized (w_this w) = false
  /\ saveWrapper Demo.engine "w" w = (Returned false, w)
  /\ w_fs (snd (save_helper_turn Demo.engine "w" w)) !! "w.wallet" = Some "OLD".
Proof.
  intros w.
  pose proof (saveWrapper_before_sync Demo.engine "w" w eq_refl) as (H1 & _ & H3 & _).
  split; [reflexivity|]. split; [exact H1|]. exact (eq_trans H3 eq_refl).
Defined.

Lemma synchronized_until_reset_witness :
  let w := Demo.world [("w.wallet", "OLD"); ("w.reset", ""); ("w.txcast", "3|9xAddr|1.5|")]
                      [] true in
  let idle := Demo.world [("w.wallet", "OLD")] [] true in
  synchronized (snd (perform Demo.currency Demo.helpers Demo.engine Sample.fromString_uint16
               Sample.RPC_DEFAULT_PORT Sample.to_string_port Sample.fromString_failure
               (OpResetTurn "w") w)) = false
  /\ synchronized (snd (perform Demo.currency Demo.helpers Demo.engine Sample.fromString_uint16
               Sample.RPC_DEFAULT_PORT Sample.to_string_port Sample.fromString_failure
               (OpResetTurn "w") idle)) = synchronized idle
  /\ synchronized (snd (perform Demo.currency Demo.helpers Demo.engine Sample.fromString_uint16
               Sample.RPC_DEFAULT_PORT Sample.to_string_port Sample.fromString_failure
               (OpTxTurn "w") w)) = synchronized w.
Proof.
  intros w idle.
  pose proof (synchronized_until_reset Demo.currency Demo.helpers Demo.engine
                Sample.fromString_uint16 Sample.RPC_DEFAULT_PORT Sample.to_string_port
                Sample.fromString_failure) as (_ & _ & _ & Hturn & Hidle & Hother).
  split; [|split].
  - apply Hturn. exists "". reflexivity.
  - apply Hidle. reflexivity.
  - apply Hother; [reflexivity | discriminate].
Defined.

Lemma tryToOpen_fatal_without_keys_witness :
  let bad := Demo.world [("w.wallet", "GARBAGE")] [] false in
  let none := Demo.world [] [] false in
  fst (tryToOpenWalletOrLoadKeysOrThrow Demo.helpers Demo.engine "w" "secret" bad)
  = Thrown (StdException "can't load wallet file 'w.wallet', check password")
  /\ tryToOpenWalletOrLoadKeysOrThrow Demo.helpers Demo.engine "w" "secret" none
     = (Thrown (StdException "wallet file 'w.wallet' is not found"), none).
Proof.
  intros bad none. split.
  - apply (proj1 (tryToOpen_fatal_without_keys Demo.helpers Demo.engine
                    "w" "secret" "w.keys" "w.wallet" bad eq_refl eq_refl)
             "GARBAGE" Demo.wrong_password tt);
      [left; reflexivity | reflexivity | reflexivity].
  - apply (proj2 (tryToOpen_fatal_without_keys Demo.helpers Demo.engine
                    "w" "secret" "w.keys" "w.wallet" none eq_refl eq_refl));
      reflexivity.
Defined.


Lemma init_refuses_existing_files_witness :
  let vm := {| arg_wallet_file := ""; arg_generate_new_wallet := "new";
               arg_daemon_address := ""; arg_daemon_host := ""; arg_daemon_port := 0;
               arg_password := Some "secret" |} in
  let console := {| console_choice := None; console_password := None |} in
  let address_taken := Demo.world [("new.address", "9xOther")] [] false in
  let wallet_taken := Demo.world [("new.wallet", "OLD")] [] false in
  (exists w',
      init Demo.helpers Demo.engine Sample.fromString_uint16 Sample.RPC_DEFAULT_PORT
         Sample.to_string_port Sample.fromString_failure
         vm console wallet_taken = (Returned false, w')
      /\ w_fs w' = w_fs wallet_taken
      /\ w_events w' = w_events wallet_taken)
  /\ (exists w',
        init Demo.helpers Demo.engine Sample.fromString_uint16 Sample.RPC_DEFAULT_PORT
         Sample.to_string_port Sample.fromString_failure
           vm console address_taken = (Returned false, w')
        /\ w_fs w' = w_fs address_taken).
Proof.
  intros vm console address_taken wallet_taken. split.
  - destruct (proj1 (init_refuses_existing_files Demo.helpers Demo.engine
                       Sample.fromString_uint16 Sample.RPC_DEFAULT_PORT
                       Sample.to_string_port Sample.fromString_failure
                       vm console "new" wallet_taken eq_refl))
      as (w' & Hrun & Hfs & _ & Hev).
    + exists "OLD". reflexivity.
    + exists w'. auto.
  - destruct (proj2 (init_refuses_existing_files Demo.helpers Demo.engine
                       Sample.fromString_uint16 Sample.RPC_DEFAULT_PORT
                       Sample.to_string_port Sample.fromString_failure
                       vm console "new" address_taken eq_refl))
      as (o & w' & Hrun & _ & Hfalse & Hfs & _).
    + exists "9xOther". reflexivity.
    + exists w'. rewrite Hrun, (Hfalse (or_introl eq_refl)). auto.
Defined.


Lemma loops_claim_their_request_witness :
  let w := Demo.world [("w.reset", "r"); ("w.save", "s"); ("w.txcast", "3|9xAddr|1.5|")]
                      [] true in
  (exists w1,
      rename "w.save" "w.save_" w = (Returned tt, w1)
      /\ w_fs w1 !! "w.save" = None
      /\ w_fs w1 !! "w.save_" = Some "s"
      /\ save_helper_turn Demo.engine "w" w
         = try_catch (bind (saveWrapper Demo.engine "w") (fun _ => wait 10))
                     (fun _ => wait 2) w1
      /\ w_fs (snd (save_helper_turn Demo.engine "w" w)) !! "w.save" = None)
  /\ (exists w1,
      rename "w.reset" "w.reset_" w = (Returned tt, w1)
      /\ w_fs w1 !! "w.reset" = None
      /\ w_fs w1 !! "w.reset_" = Some "r"
      /\ reset_helper_turn Demo.engine "w" w
         = try_catch (bind (resetWrapper Demo.engine) (fun _ => wait 60))
                     (fun _ => wait 2) w1
      /\ w_fs (snd (reset_helper_turn Demo.engine "w" w)) !! "w.reset" = None).
Proof.
  intros w.
  pose proof (loops_claim_their_request Demo.currency Demo.helpers Demo.engine "w" w)
    as (Hreset & Hsave & _).
  split.
  - exact (Hsave "s" eq_refl).
  - exact (Hreset "r" eq_refl).
Defined.

Lemma request_args_of_terminated_fields_witness :
  request_args ("3|9xAddr|1.5|pid|0.2|" +:+ Str.newline)
  = ["3"; "9xAddr"; "1.5"; "-p"; "pid"; "-f"; "0.2"]
  /\ request_args ("3|9xAddr|1.5|" +:+ Str.newline) = ["3"; "9xAddr"; "1.5"].
Proof.
  pose proof (request_args_of_terminated_fields "3" "9xAddr" "1.5" "pid" "0.2" ""
                eq_refl eq_refl eq_refl eq_refl eq_refl eq_refl) as (H1 & _ & H3 & _).
  split; [exact H1 | exact H3].
Defined.

(** ** The further properties at work *)

Lemma parseArguments_accepts_witness :
  parseArguments Demo.currency Demo.helpers (wire_args "3" "9xAddr" "1.5" "pid" "0.2")
  = inr {| fake_outs_count := 3;
           dsts := [{| address := "9xAddr"; amount := 150 |}];
           extra := "pid"; fee := 20 |}.
Proof.
  apply (parseArguments_accepts Demo.currency Demo.helpers
           "3" "9xAddr" "1.5" "pid" "0.2" "pid" 3 150 20);
    try reflexivity.
  - split; reflexivity.
  - intros _. split; [reflexivity | discriminate].
Defined.

Lemma parseArguments_result_well_formed_witness :
  let cmd := {| fake_outs_count := 3;
                dsts := [{| address := "9xAddr"; amount := 150 |}];
                extra := ""; fee := 10 |} in
  parseArguments Demo.currency Demo.helpers ["3"; "9xAddr"; "1.5"] = inr cmd
  /\ dsts cmd <> []
  /\ minimumFee Demo.currency <= fee cmd.
Proof.
  intros cmd.
  pose proof (parseArguments_result_well_formed Demo.currency Demo.helpers
                ["3"; "9xAddr"; "1.5"] cmd eq_refl) as (H1 & _ & H3 & _).
  split; [reflexivity|]. split; [exact H1 | exact H3].
Defined.

Lemma request_args_last_word_witness :
  request_args ("3|9xOld|2.5|" +:+ Str.newline +:+ "3|9xAddr|1.5|")
  = ["3"; "9xAddr"; "1.5"]
  /\ request_args ("3|9xOld|2.5|" +:+ Str.newline +:+ "3|9xAddr|1.5|" +:+ Str.newline)
     = ["3"; "9xAddr"; "1.5"].
Proof.
  pose proof (request_args_last_word "3|9xOld|2.5|" (ascii_of_nat 10) "3|9xAddr|1.5|"
                eq_refl eq_refl eq_refl) as (H1 & H2).
  split; [exact (eq_trans H1 eq_refl) | exact (eq_trans H2 eq_refl)].
Defined.

Lemma request_args_ignores_more_fields_witness :
  request_args (("3|9xAddr|1.5|pid|0.2|" +:+ terminated ["sixth"; "seventh"] +:+ "rest")
                +:+ Str.newline)
  = ["3"; "9xAddr"; "1.5"; "-p"; "pid"; "-f"; "0.2"]
  /\ request_args (("3|9xAddr|1.5|||" +:+ terminated (repeat "x" 251) +:+ "9xMore|")
                   +:+ Str.newline)
     = ["3"; "9xAddr"; "1.5"; "9xMore"].
Proof.
  split.
  - assert (Hmore : Forall (fun f => is_field f = true) ["sixth"; "seventh"])
      by (repeat constructor).
    apply (proj1 (request_args_ignores_more_fields
                    "3" "9xAddr" "1.5" "pid" "0.2" ["sixth"; "seventh"] "" "rest"
                    eq_refl eq_refl eq_refl eq_refl eq_refl Hmore eq_refl eq_refl)).
    discriminate.
  - assert (Hmore : Forall (fun f => is_field f = true) (repeat "x" 251)).
    { apply List.Forall_forall. intros f Hf. apply repeat_spec in Hf. now subst f. }
    apply (proj2 (request_args_ignores_more_fields
                    "3" "9xAddr" "1.5" "" "" (repeat "x" 251) "9xMore" ""
                    eq_refl eq_refl eq_refl eq_refl eq_refl Hmore eq_refl eq_refl)).
    reflexivity.
Defined.

Lemma getBalance_reads_only_witness :
  let w := Demo.world [] [] true in
  getBalance Demo.currency Demo.engine w = (Returned "0.00|0.00", w).
Proof.
  intros w.
  destruct (getBalance_reads_only Demo.currency Demo.engine w) as (s & H & _ & Hs & _).
  rewrite (Hs eq_refl 1000 0 eq_refl eq_refl) in H. exact H.
Defined.

Lemma writeAddressFile_outcome_witness :
  let w := Demo.world [] [] false in
  exists w',
    writeAddressFile "w.address" "9xWallet" w = (Returned true, w')
    /\ w_fs w' = <["w.address" := "9xWallet"]> (w_fs w).
Proof.
  intros w. apply (proj1 (writeAddressFile_outcome "w.address" "9xWallet" w)).
  apply not_elem_of_empty.
Defined.

Lemma gui_helper_start_address_file_witness :
  let w := Demo.world [("w.address", "9xOther")] [] false in
  gui_helper_start Demo.engine "w" w = (Returned tt, w).
Proof.
  intros w. apply (proj1 (gui_helper_start_address_file Demo.engine "w" w)).
  exists "9xOther". reflexivity.
Defined.

Lemma reset_reloads_what_it_saved_witness :
  let w := Demo.world [("w.wallet", "OLD")] [] true in
  w_fs (snd (reset Demo.engine w)) = w_fs w
  /\ synchronized (snd (reset Demo.engine w)) = false
  /\ fst (reset Demo.engine w) = Returned true
  /\ w_events (snd (reset Demo.engine w))
     = w_events w ++ [WalletSave false false; WalletShutdown;
                      WalletInitAndLoad "NEW" "secret"].
Proof.
  intros w.
  destruct (reset_reloads_what_it_saved Demo.engine w "NEW" Demo.success tt eq_refl)
    as (H1 & H2 & _ & H4).
  destruct (H4 eq_refl tt Demo.wrong_password tt eq_refl eq_refl) as (H5 & _ & H6).
  repeat split; assumption.
Defined.

Lemma idle_turns_only_sleep_witness :
  let w := Demo.world [("w.wallet", "OLD")] [] true in
  tx_helper_turn Demo.currency Demo.helpers Demo.engine "w" w = wait 2 w
  /\ save_helper_turn Demo.engine "w" w = wait 5 w.
Proof.
  intros w.
  pose proof (idle_turns_only_sleep Demo.currency Demo.helpers Demo.engine "w" w)
    as (_ & Hsave & Htx).
  split; [exact (Htx eq_refl) | exact (Hsave eq_refl)].
Defined.

Lemma tx_turn_writes_answer_witness :
  let w := Demo.world [("w.txcast", "3|9xAddr|1.5|"); ("w.wallet", "OLD")] [] true in
  exists w3,
    tx_helper_turn Demo.currency Demo.helpers Demo.engine "w" w = (Returned tt, w3)
    /\ w_fs w3 !! "w.txresult" = Some "c0ffee"
    /\ w_fs w3 !! "w.txcast" = None.
Proof.
  intros w.
  destruct (tx_turn_writes_answer Demo.currency Demo.helpers Demo.engine
              "w" "3|9xAddr|1.5|" w eq_refl (not_elem_of_empty _))
    as (r & w3 & Hr & Hturn & Hfs & _).
  injection Hr as <-. exists w3. split; [exact Hturn|].
  rewrite Hfs. split; reflexivity.
Defined.

Lemma tryToOpen_import_failure_keeps_files_witness :
  let w := Demo.world [("w.wallet", "GARBAGE"); ("w.keys", "KEYS")] [] false in
  fst (tryToOpenWalletOrLoadKeysOrThrow Sample.helpers_without_import Demo.engine
         "w" "secret" w)
  = Thrown (StdException "keys file is damaged")
  /\ w_fs (snd (tryToOpenWalletOrLoadKeysOrThrow Sample.helpers_without_import Demo.engine
                  "w" "secret" w)) = w_fs w.
Proof.
  intros w.
  apply (tryToOpen_import_failure_keeps_files Sample.helpers_without_import Demo.engine
           "w" "secret" "w.keys" "w.wallet" "KEYS"
           (StdException "keys file is damaged") w eq_refl eq_refl eq_refl).
  exists Demo.wrong_password, tt. split; reflexivity.
Defined.

Lemma tryToOpen_failed_reload_keeps_backups_witness :
  let w := Demo.world [("w.wallet", "GARBAGE"); ("w.keys", "KEYS")] [] false in
  exists w',
    tryToOpenWalletOrLoadKeysOrThrow Demo.helpers Demo.engine "w" "secret" w
    = (Thrown (StdException "failed to load wallet: The password is wrong"), w')
    /\ w_fs w' !! "w.keys.back" = Some "KEYS"
    /\ w_fs w' !! "w.wallet.back" = Some "GARBAGE"
    /\ w_fs w' !! "w.keys" = None
    /\ w_fs w' !! "w.wallet" = None.
Proof.
  intros w.
  apply (tryToOpen_failed_reload_keeps_backups Demo.helpers Demo.engine
           "w" "secret" "w.keys" "w.wallet" "KEYS" "GARBAGE" "KEYS"
           Demo.wrong_password Demo.wrong_password tt tt w);
    first [reflexivity | discriminate].
Defined.

Lemma tryToOpen_adopts_bare_file_witness :
  let w := Demo.world [("w", "CURRENT")] [] false in
  exists w',
    tryToOpenWalletOrLoadKeysOrThrow Demo.helpers Demo.engine "w" "secret" w
    = (Returned "w.wallet", w')
    /\ w_fs w' = <["w.wallet" := "CURRENT"]> (delete "w" (w_fs w))
    /\ w_events w' = w_events w ++ [FsRename "w" "w.wallet";
                                    WalletInitAndLoad "CURRENT" "secret"].
Proof.
  intros w.
  apply (tryToOpen_adopts_bare_file Demo.helpers Demo.engine
           "w" "secret" "w.keys" "w.wallet" "CURRENT" Demo.success tt w);
    reflexivity.
Defined.

Lemma init_fails_early_witness :
  let vm := {| arg_wallet_file := "w"; arg_generate_new_wallet := "";
               arg_daemon_address := "http://localhost:8081";
               arg_daemon_host := "localhost"; arg_daemon_port := 0;
               arg_password := Some "secret" |} in
  let silent := {| arg_wallet_file := "w"; arg_generate_new_wallet := "";
                   arg_daemon_address := ""; arg_daemon_host := ""; arg_daemon_port := 0;
                   arg_password := None |} in
  let console := {| console_choice := None; console_password := None |} in
  let w := Demo.world [("w.wallet", "CURRENT")] [] false in
  (fst (init Demo.helpers Demo.engine Sample.fromString_uint16 Sample.RPC_DEFAULT_PORT
         Sample.to_string_port Sample.fromString_failure
         vm console w) = Returned false
   /\ w_events (snd (init Demo.helpers Demo.engine Sample.fromString_uint16 Sample.RPC_DEFAULT_PORT
         Sample.to_string_port Sample.fromString_failure
         vm console w)) = w_events w)
  /\ (fst (init Demo.helpers Demo.engine Sample.fromString_uint16 Sample.RPC_DEFAULT_PORT
         Sample.to_string_port Sample.fromString_failure
         silent console w) = Returned false
      /\ w_events (snd (init Demo.helpers Demo.engine Sample.fromString_uint16 Sample.RPC_DEFAULT_PORT
         Sample.to_string_port Sample.fromString_failure
         silent console w)) = w_events w).
Proof.
  intros vm silent console w. split.
  - destruct (proj1 (init_fails_early Demo.helpers Demo.engine Sample.fromString_uint16
                       Sample.RPC_DEFAULT_PORT Sample.to_string_port
                       Sample.fromString_failure vm console w)
                eq_refl (or_introl eq_refl)) as (H1 & _ & _ & H4).
    split; [exact H1 | exact H4].
  - destruct (proj1 (proj2 (init_fails_early Demo.helpers Demo.engine
                       Sample.fromString_uint16 Sample.RPC_DEFAULT_PORT
                       Sample.to_string_port Sample.fromString_failure
                       silent console w))
                eq_refl eq_refl eq_refl) as (H1 & _ & _ & H4).
    split; [exact H1 | exact H4].
Defined.

Lemma new_wallet_generation_failure_witness :
  let w := Demo.world [] [] false in
  exists w',
    new_wallet Sample.engine_without_generate "new.wallet" "secret" w = (Returned false, w')
    /\ w_fs w' = w_fs w
    /\ m_wallet_file (w_this w') = "new.wallet"
    /\ w_events w' = w_events w ++ [WalletInitAndGenerate "secret"].
Proof.
  intros w.
  apply (new_wallet_generation_failure Sample.engine_without_generate
           "new.wallet" "secret" w).
  left. exists Demo.wrong_password, tt. split; reflexivity.
Defined.

Lemma close_wallet_stores_first_witness :
  let w := Demo.world [("w.wallet", "OLD")] [] true in
  let w1 := snd (storeWallet Demo.engine "w.wallet" w) in
  fst (close_wallet Demo.engine w) = Returned true
  /\ w_events (snd (close_wallet Demo.engine w)) = w_events w1 ++ [WalletShutdown].
Proof.
  intros w w1.
  destruct (proj2 (close_wallet_stores_first Demo.engine w w1) eq_refl)
    as (H1 & _ & _ & H4).
  split; [exact H1 | exact H4].
Defined.

Lemma saveWrapper_replaces_or_restores_witness :
  let w := Demo.world [("w.wallet", "OLD")] [] true in
  exists b w',
    saveWrapper Demo.engine "w" w = (Returned b, w')
    /\ w_fs w' !! "w.wallet.tmp.0000-0000" = None.
Proof.
  intros w.
  destruct (saveWrapper_replaces_or_restores Demo.engine "w" w eq_refl)
    as (b & w' & H1 & H2 & _).
  - apply not_elem_of_empty.
  - reflexivity.
  - intros data e'. discriminate.
  - exists b, w'. split; [exact H1 | exact H2].
Defined.

Lemma saveWrapper_confined_witness :
  let w := Demo.world [("w.wallet", "OLD"); ("w.reset", "")] [] true in
  w_fs (snd (saveWrapper Demo.engine "w" w)) !! "w.reset" = w_fs w !! "w.reset".
Proof.
  intros w. apply (proj2 (saveWrapper_confined Demo.engine "w" w)); discriminate.
Defined.

Lemma parseUrlAddress_host_and_port_witness :
  parseUrlAddress Sample.fromString_uint16 "http://localhost:8081/json_rpc"
  = Some ("localhost", 8081).
Proof.
  exact (parseUrlAddress_host_and_port Sample.fromString_uint16
           "http" "localhost" "8081" "/json_rpc" 8081
           eq_refl eq_refl eq_refl (or_intror (ex_intro _ "json_rpc" eq_refl))
           eq_refl eq_refl).
Defined.

Lemma parseUrlAddress_without_scheme_witness :
  parseUrlAddress Sample.fromString_uint16 "localhost:8081/json_rpc"
  = Some ("localhost", 8081)
  /\ parseUrlAddress Sample.fromString_uint16 "localhost/json_rpc"
     = Some ("localhost", 80).
Proof.
  destruct (parseUrlAddress_without_scheme Sample.fromString_uint16
              "localhost" "8081" "/json_rpc" 8081 eq_refl eq_refl
              (or_intror (ex_intro _ "json_rpc" (conj eq_refl eq_refl))) eq_refl)
    as (H1 & H2).
  split; [exact (H1 eq_refl eq_refl eq_refl eq_refl) | exact H2].
Defined.

Lemma parseUrlAddress_scheme_without_port_witness :
  parseUrlAddress Sample.fromString_uint16 "http://localhost/json_rpc"
  = Some ("localhost/json_rpc", 80).
Proof.
  exact (parseUrlAddress_scheme_without_port Sample.fromString_uint16
           "http" "localhost/json_rpc" eq_refl eq_refl eq_refl eq_refl).
Defined.

Lemma getTxs_exports_confirmed_witness :
  let w := Demo.world [] [] true in
  exported Demo.engine Sample.export (w_engine w) = [0; 2]
  /\ getTxs Demo.currency Demo.helpers Demo.engine Sample.export w
     = (Returned (Sample.record +:+ Sample.record), w).
Proof.
  intros w. split; [reflexivity|].
  refine (eq_trans (proj1 (getTxs_exports_confirmed Demo.currency Demo.helpers
                             Demo.engine Sample.export w) _) eq_refl).
  intros i _. exists "1970-01-01 00:00:00". reflexivity.
Defined.

Lemma gui_turn_without_news_is_busy_witness :
  let w := Demo.world [("w.txs", Sample.record +:+ Sample.record)] [] false in
  let st := {| lastBalance := ""; lastTxs := Sample.record +:+ Sample.record |} in
  gui_helper_turn Demo.currency Demo.helpers Demo.engine Sample.export "w" st w
  = (Returned st, w).
Proof.
  intros w st.
  apply (gui_turn_without_news_is_busy Demo.currency Demo.helpers Demo.engine
           Sample.export "w" st w).
  - left. reflexivity.
  - reflexivity.
  - exists (Sample.record +:+ Sample.record). reflexivity.
Defined.

Lemma gui_turn_writes_export_witness :
  let w := Demo.world [] [] false in
  let st := {| lastBalance := ""; lastTxs := "" |} in
  let txs := Sample.record +:+ Sample.record in
  exists w',
    gui_helper_turn Demo.currency Demo.helpers Demo.engine Sample.export "w" st w
    = (Returned {| lastBalance := ""; lastTxs := txs |}, w')
    /\ w_fs w' = <["w.txs" := txs]> (w_fs w)
    /\ w_events w' = w_events w ++ [FsTruncate "w.txs"; FsWrite "w.txs" txs; Sleep 5].
Proof.
  intros w st txs.
  apply (gui_turn_writes_export Demo.currency Demo.helpers Demo.engine
           Sample.export "w" txs st w).
  - left. reflexivity.
  - reflexivity.
  - left. reflexivity.
  - apply not_elem_of_empty.
Defined.

Lemma gui_turn_reports_balance_witness :
  let w := Demo.world [] [] true in
  let st := {| lastBalance := ""; lastTxs := "" |} in
  exists st' w',
    gui_helper_turn Demo.currency Demo.helpers Demo.engine Sample.export "w" st w
    = (Returned st', w')
    /\ lastBalance st' = "0.00|0.00"
    /\ w_fs w' !! "w.status" = Some "0.00|0.00".
Proof.
  intros w st.
  apply (gui_turn_reports_balance Demo.currency Demo.helpers Demo.engine
           Sample.export "w" "0.00|0.00" st w).
  - reflexivity.
  - discriminate.
  - discriminate.
  - apply not_elem_of_empty.
Defined.


Lemma transferGui_sends_the_request_witness :
  let w := Demo.world [("w.wallet", "OLD")] [] true in
  let sent := WalletSendTransaction [{| address := "9xAddr"; amount := 150 |}] 10 "" 3 0 in
  transferGui Demo.currency Demo.helpers Sample.engine_without_funds
              ["3"; "9xAddr"; "1.5"] w
  = (Returned "Can't send money", snd (emit sent w)).
Proof.
  intros w sent.
  exact (proj1 (transferGui_sends_the_request Demo.currency Demo.helpers
                  Sample.engine_without_funds ["3"; "9xAddr"; "1.5"]
                  {| fake_outs_count := 3;
                     dsts := [{| address := "9xAddr"; amount := 150 |}];
                     extra := ""; fee := 10 |}
                  w eq_refl) tt eq_refl).
Defined.
